(** * The dumbvm virtual-memory subsystem of os161 (kern/arch/mips/mips/dumbvm.c)

    A shallow embedding of the buddy frame allocator, the address-space
    operations and the TLB miss handler, followed by the properties of the
    specification that they do or do not satisfy.

    Conventions.  C integers are modelled as [Z]; [u32] and [s32] write out
    the wrap-around of 32-bit unsigned and signed arithmetic at the places
    where the source performs a conversion or an operation that can leave
    the range.  The global variables of the file and of the collaborators it
    calls are the fields of the record [kernel]; functions pass it along
    explicitly.  A call that ends in [panic] or in a failed [assert] yields
    [Panic]: the kernel halts and there is no state afterwards. *)

From Stdlib Require Import ZArith String Lia.
From stdpp Require Import base numbers list.

#[local] Open Scope Z_scope.

(** ** Machine integers *)

Definition u32 (x : Z) : Z := x mod 2 ^ 32.
Definition s32 (x : Z) : Z := (x + 2 ^ 31) mod 2 ^ 32 - 2 ^ 31.
Definition is_u32 (x : Z) : Prop := 0 <= x < 2 ^ 32.

(** ** Platform constants *)

(** Modelled from the spec: machine/vm.h is not under src/.  The scenarios
    of the specification fix the page size (0x2000 bytes are two pages,
    0x800000 bytes are 2048 pages) and PAGE_FRAME is the complementing
    mask. *)
Definition PAGE_SIZE : Z := 4096.
Definition PAGE_FRAME : Z := 0xfffff000.
(** Modelled from the spec: the kernel-virtual window is a fixed offset from
    physical memory and the kernel range begins at 0x80000000. *)
Definition MIPS_KSEG0 : Z := 0x80000000.
Definition PADDR_TO_KVADDR (pa : Z) : Z := u32 (pa + MIPS_KSEG0).
Definition KVADDR_TO_PADDR (kva : Z) : Z := u32 (kva - MIPS_KSEG0).

(** Modelled from the spec: machine/tlb.h is not under src/.  The TLB has 64
    slots; VALID and DIRTY are the two bits of the low word that the handler
    uses, and they lie below the page-frame field. *)
Definition NUM_TLB : nat := 64.
Definition TLBLO_DIRTY : Z := 0x400.
Definition TLBLO_VALID : Z := 0x200.
Definition TLBHI_INVALID (i : nat) : Z := u32 ((0x80000 + Z.of_nat i) * PAGE_SIZE).
Definition TLBLO_INVALID : Z := 0.

(** Modelled from the spec: machine/spl.h is not under src/.  [splhigh]
    raises the interrupt priority level to its highest value. *)
Definition SPL_HIGH : Z := 15.

(** Modelled from the spec: the fault kinds of vm.h, which is not under
    src/. *)
Definition VM_FAULT_READ : Z := 0.
Definition VM_FAULT_WRITE : Z := 1.
Definition VM_FAULT_READONLY : Z := 2.

(** The error codes of kern/errno.h that the file returns; [ESUCCESS] is the
    return value 0. *)
Inductive errno := ESUCCESS | EINVAL | EFAULT | ENOMEM | EUNIMP.

#[global] Instance errno_eq_dec : EqDecision errno.
Proof. solve_decision. Defined.

(** under dumbvm, always have 48k of user stack *)
Definition DUMBVM_STACKPAGES : Z := 12.

(** ** Data *)

Record buddy_entry := mk_buddy {
  paddr : Z;   (* u_int32_t *)
  pages : Z;   (* int *)
  inuse : Z    (* int *)
}.

Record addrspace := mk_as {
  as_vbase1 : Z;
  as_pbase1 : Z;
  as_npages1 : Z;
  as_vbase2 : Z;
  as_pbase2 : Z;
  as_npages2 : Z;
  as_stackvbase : Z;
  as_stackpbase : Z
}.

(** The globals of dumbvm.c ([buddylist], [vm_initialized]) and the state of
    the collaborators it calls: the kernel heap, the RAM probe, the
    interrupt priority level, the TLB, physical memory and the address
    space of the current thread ([None] is the NULL pointer).

    Modelled from the spec: the byte allocator [kmalloc]/[kfree] is not
    under src/.  [kheap] counts the objects it can still hand out: [kmalloc]
    returns NULL when the count is zero and takes one otherwise, [kfree]
    gives one back. *)
Record kernel := mk_kernel {
  buddylist : list buddy_entry;
  vm_initialized : Z;
  kheap : nat;
  firstpaddr : Z;
  lastpaddr : Z;
  curspl : Z;
  tlb : list (Z * Z);
  physmem : Z -> Z;
  t_vmspace : option addrspace
}.

Definition set_buddylist (bl : list buddy_entry) (k : kernel) : kernel :=
  mk_kernel bl (vm_initialized k) (kheap k) (firstpaddr k) (lastpaddr k)
            (curspl k) (tlb k) (physmem k) (t_vmspace k).
Definition set_vm_initialized (v : Z) (k : kernel) : kernel :=
  mk_kernel (buddylist k) v (kheap k) (firstpaddr k) (lastpaddr k)
            (curspl k) (tlb k) (physmem k) (t_vmspace k).
Definition set_kheap (h : nat) (k : kernel) : kernel :=
  mk_kernel (buddylist k) (vm_initialized k) h (firstpaddr k) (lastpaddr k)
            (curspl k) (tlb k) (physmem k) (t_vmspace k).
Definition set_firstpaddr (p : Z) (k : kernel) : kernel :=
  mk_kernel (buddylist k) (vm_initialized k) (kheap k) p (lastpaddr k)
            (curspl k) (tlb k) (physmem k) (t_vmspace k).
Definition set_curspl (s : Z) (k : kernel) : kernel :=
  mk_kernel (buddylist k) (vm_initialized k) (kheap k) (firstpaddr k)
            (lastpaddr k) s (tlb k) (physmem k) (t_vmspace k).
Definition set_tlb (t : list (Z * Z)) (k : kernel) : kernel :=
  mk_kernel (buddylist k) (vm_initialized k) (kheap k) (firstpaddr k)
            (lastpaddr k) (curspl k) t (physmem k) (t_vmspace k).
Definition set_physmem (m : Z -> Z) (k : kernel) : kernel :=
  mk_kernel (buddylist k) (vm_initialized k) (kheap k) (firstpaddr k)
            (lastpaddr k) (curspl k) (tlb k) m (t_vmspace k).

(** ** Results of kernel calls *)

Inductive outcome (A : Type) : Type :=
| Ok (a : A)
| Panic (msg : string).
Arguments Ok {A} a.
Arguments Panic {A} msg.

Definition bind {A B : Type} (m : outcome A) (f : A -> outcome B) : outcome B :=
  match m with
  | Ok a => f a
  | Panic msg => Panic msg
  end.

Notation "'let!' x := m 'in' k" := (bind m (fun x => k))
  (at level 20, x name, m at level 100, k at level 200).
Notation "'let!' ' p := m 'in' k" := (bind m (fun p => k))
  (at level 20, p pattern, m at level 100, k at level 200).

Definition assert (b : bool) : outcome unit :=
  if b then Ok tt else Panic "Assertion failed".

(** ** Collaborators *)

(** Modelled from the spec: the growable-array container (array.c) is not
    under src/.  An array is the list of its items; [array_add] appends,
    [array_setguy] overwrites a slot in place, and an index outside
    [0, num) is not an item: [array_getguy] fails its range assertion. *)
Definition array_getnum (a : list buddy_entry) : Z := Z.of_nat (length a).
Definition array_getguy (a : list buddy_entry) (index : Z) : outcome buddy_entry :=
  if (0 <=? index) && (index <? array_getnum a) then
    match a !! Z.to_nat index with
    | Some be => Ok be
    | None => Panic "Assertion failed"
    end
  else Panic "Assertion failed".
Definition array_setguy (a : list buddy_entry) (index : Z) (be : buddy_entry)
  : list buddy_entry := <[Z.to_nat index := be]> a.
Definition array_add (a : list buddy_entry) (be : buddy_entry)
  : list buddy_entry := a ++ [be].

(** Modelled from the spec: the interrupt guard, [splhigh() -> prev] and
    [splx(prev)].  Both return the level they replace. *)
Definition splx (s : Z) (k : kernel) : Z * kernel := (curspl k, set_curspl s k).
Definition splhigh (k : kernel) : Z * kernel := splx SPL_HIGH k.

(** Modelled from the spec: the RAM probe.  [ram_getsize] reports the free
    range; [ram_stealmem] is the boot-time stealer, which advances the low
    watermark and never gives frames back, and returns 0 when the range is
    too small. *)
Definition ram_getsize (k : kernel) : Z * Z := (firstpaddr k, lastpaddr k).
Definition ram_stealmem (npages : Z) (k : kernel) : Z * kernel :=
  let size := u32 (npages * PAGE_SIZE) in
  if firstpaddr k + size >? lastpaddr k then (0, k)
  else (firstpaddr k, set_firstpaddr (firstpaddr k + size) k).

(** Modelled from the spec: the TLB primitives.  A slot is the pair
    [(ehi, elo)]. *)
Definition TLB_Read (i : nat) (k : kernel) : Z * Z := nth i (tlb k) (0, 0).
Definition TLB_Write (ehi elo : Z) (i : nat) (k : kernel) : kernel :=
  set_tlb (<[i := (ehi, elo)]> (tlb k)) k.

(** [memmove] through the kernel-virtual window, on the physical memory
    behind it. *)
Definition memmove (dst src len : Z) (k : kernel) : kernel :=
  let pd := KVADDR_TO_PADDR dst in
  let ps := KVADDR_TO_PADDR src in
  let m := physmem k in
  set_physmem (fun a => if (pd <=? a) && (a <? pd + len) then m (ps + (a - pd)) else m a) k.

(** ** The frame allocator *)

Definition vm_bootstrap (k : kernel) : outcome kernel :=
  (* be = kmalloc(sizeof(struct buddy_entry)) *)
  match kheap k with
  | O => Panic "vm_bootstrap unable to allocate memory"
  | S h =>
    let k := set_kheap h k in
    let '(lo, hi) := ram_getsize k in
    (* calculate the first buddylist entry *)
    let npages := s32 (u32 (hi - lo) / PAGE_SIZE) in
    let be := mk_buddy lo npages 0 in
    let k := set_buddylist (array_add [] be) k in
    Ok (set_vm_initialized 1 k)
  end.

(** finds the best fit for the request pageload; return an index into the
    buddylist.  [bl] is the part of the array from index [i] on; [chosbe] is
    not initialised until [chosen] is set. *)
Fixpoint find_buddy_loop (npages : Z) (bl : list buddy_entry) (i : Z)
    (chosen : Z) (chosbe : option buddy_entry) : Z :=
  match bl with
  | [] => chosen
  | curbe :: rest =>
    if (inuse curbe =? 0) && (pages curbe >=? npages) then
      if (chosen =? -1)
         || match chosbe with
            | Some c => pages curbe <? pages c
            | None => false
            end
      then find_buddy_loop npages rest (i + 1) i (Some curbe)
      else find_buddy_loop npages rest (i + 1) chosen chosbe
    else find_buddy_loop npages rest (i + 1) chosen chosbe
  end.

Definition find_buddy (npages : Z) (bl : list buddy_entry) : Z :=
  find_buddy_loop npages bl 0 (-1) None.

(** The splitting loop of [calculate_buddy].  Each round frees [be] and
    allocates two entries, so it takes one object from the kernel heap and
    panics when the second [kmalloc] returns NULL; the recursion is on the
    heap count.  [be] is the entry stored at [buddyi]: it is returned so
    that the caller can mark it. *)
Fixpoint split_loop (heap : nat) (npages buddyi nextpaddr oldsize nextsize : Z)
    (be : buddy_entry) (bl : list buddy_entry)
  : outcome (nat * buddy_entry * list buddy_entry) :=
  if nextsize >=? npages then
    match heap with
    | O => Panic "vm: could not calculate next buddy"
    | S heap' =>
      (* create two new buddy entries *)
      let be := mk_buddy nextpaddr nextsize 0 in
      let b2 := mk_buddy (u32 (nextpaddr + nextsize * PAGE_SIZE))
                         (oldsize - nextsize) 0 in
      let bl := array_setguy bl buddyi be in
      let bl := array_add bl b2 in
      (* divide the page *)
      split_loop heap' npages buddyi nextpaddr nextsize (Z.quot nextsize 2) be bl
    end
  else Ok (heap, be, bl).

Definition calculate_buddy (npages : Z) (k : kernel) : outcome (Z * kernel) :=
  (* finds the first buddy able to fit the number of requested pages *)
  let buddyi := find_buddy npages (buddylist k) in
  let! be := array_getguy (buddylist k) buddyi in
  let nextpaddr := paddr be in
  let oldsize := pages be in
  let nextsize := Z.quot oldsize 2 in
  let! '(heap, be, bl) := split_loop (kheap k) npages buddyi nextpaddr oldsize
                                nextsize be (buddylist k) in
  (* be->inuse = 1: be is the entry stored in slot buddyi *)
  let be := mk_buddy (paddr be) (pages be) 1 in
  let bl := array_setguy bl buddyi be in
  Ok (paddr be, set_kheap heap (set_buddylist bl k)).

Fixpoint freeppage_loop (addr : Z) (bl : list buddy_entry) : list buddy_entry :=
  match bl with
  | [] => []
  | be :: rest =>
    if paddr be =? addr then mk_buddy (paddr be) (pages be) 0 :: rest
    else be :: freeppage_loop addr rest
  end.

(** The walk is over the array that [vm_bootstrap] creates: the definition
    stands for the states with [vm_initialized <> 0].  Before bootstrap the
    pointer [buddylist] is still NULL and the source does not get as far as
    the loop. *)
Definition freeppage (addr : Z) (k : kernel) : kernel :=
  set_buddylist (freeppage_loop addr (buddylist k)) k.

Definition getpframes (npages : Z) (k : kernel) : outcome (Z * kernel) :=
  let '(spl, k) := splhigh k in
  let! '(addr, k) := calculate_buddy (s32 npages) k in
  let '(_, k) := splx spl k in
  Ok (addr, k).

Definition getppages (npages : Z) (k : kernel) : outcome (Z * kernel) :=
  let '(spl, k) := splhigh k in
  let! '(addr, k) := (if vm_initialized k =? 0
                 then Ok (ram_stealmem npages k)
                 else calculate_buddy (s32 npages) k) in
  let '(_, k) := splx spl k in
  Ok (addr, k).

(** Allocate/free some kernel-space virtual pages *)
Definition alloc_kpages (npages : Z) (k : kernel) : outcome (Z * kernel) :=
  let! '(pa, k) := getppages (u32 npages) k in
  if pa =? 0 then Ok (0, k) else Ok (PADDR_TO_KVADDR pa, k).

Definition free_kpages (addr : Z) (k : kernel) : kernel :=
  freeppage (KVADDR_TO_PADDR addr) k.

(** ** Address spaces *)

Definition set_as_vbase1 (v : Z) (a : addrspace) : addrspace :=
  mk_as v (as_pbase1 a) (as_npages1 a) (as_vbase2 a) (as_pbase2 a)
        (as_npages2 a) (as_stackvbase a) (as_stackpbase a).
Definition set_as_pbase1 (v : Z) (a : addrspace) : addrspace :=
  mk_as (as_vbase1 a) v (as_npages1 a) (as_vbase2 a) (as_pbase2 a)
        (as_npages2 a) (as_stackvbase a) (as_stackpbase a).
Definition set_as_npages1 (v : Z) (a : addrspace) : addrspace :=
  mk_as (as_vbase1 a) (as_pbase1 a) v (as_vbase2 a) (as_pbase2 a)
        (as_npages2 a) (as_stackvbase a) (as_stackpbase a).
Definition set_as_vbase2 (v : Z) (a : addrspace) : addrspace :=
  mk_as (as_vbase1 a) (as_pbase1 a) (as_npages1 a) v (as_pbase2 a)
        (as_npages2 a) (as_stackvbase a) (as_stackpbase a).
Definition set_as_pbase2 (v : Z) (a : addrspace) : addrspace :=
  mk_as (as_vbase1 a) (as_pbase1 a) (as_npages1 a) (as_vbase2 a) v
        (as_npages2 a) (as_stackvbase a) (as_stackpbase a).
Definition set_as_npages2 (v : Z) (a : addrspace) : addrspace :=
  mk_as (as_vbase1 a) (as_pbase1 a) (as_npages1 a) (as_vbase2 a) (as_pbase2 a)
        v (as_stackvbase a) (as_stackpbase a).
Definition set_as_stackvbase (v : Z) (a : addrspace) : addrspace :=
  mk_as (as_vbase1 a) (as_pbase1 a) (as_npages1 a) (as_vbase2 a) (as_pbase2 a)
        (as_npages2 a) v (as_stackpbase a).
Definition set_as_stackpbase (v : Z) (a : addrspace) : addrspace :=
  mk_as (as_vbase1 a) (as_pbase1 a) (as_npages1 a) (as_vbase2 a) (as_pbase2 a)
        (as_npages2 a) (as_stackvbase a) v.

(** [as_create] returns NULL ([None]) when [kmalloc] does. *)
Definition as_create (k : kernel) : option addrspace * kernel :=
  match kheap k with
  | O => (None, k)
  | S h => (Some (mk_as 0 0 0 0 0 0 0 0), set_kheap h k)
  end.

Definition as_destroy (as_ : addrspace) (k : kernel) : kernel :=
  let k := freeppage (as_pbase1 as_) k in
  let k := freeppage (as_pbase2 as_) k in
  let k := freeppage (as_stackpbase as_) k in
  (* kfree(as) *)
  set_kheap (S (kheap k)) k.

Fixpoint as_activate_loop (todo : nat) (i : nat) (k : kernel) : kernel :=
  match todo with
  | O => k
  | S todo' =>
    as_activate_loop todo' (S i) (TLB_Write (TLBHI_INVALID i) TLBLO_INVALID i k)
  end.

Definition as_activate (as_ : option addrspace) (k : kernel) : kernel :=
  let '(spl, k) := splhigh k in
  let k := as_activate_loop NUM_TLB 0 k in
  let '(_, k) := splx spl k in
  k.

Definition as_define_region (as_ : addrspace) (vaddr sz : Z)
    (readable writeable executable : Z) : errno * addrspace :=
  (* Align the region. First, the base... *)
  let sz := u32 (sz + Z.land vaddr (u32 (Z.lnot PAGE_FRAME))) in
  let vaddr := Z.land vaddr PAGE_FRAME in
  (* ...and now the length. *)
  let sz := Z.land (u32 (sz + PAGE_SIZE - 1)) PAGE_FRAME in
  let npages := sz / PAGE_SIZE in
  if as_vbase1 as_ =? 0 then
    (ESUCCESS, set_as_npages1 npages (set_as_vbase1 vaddr as_))
  else if as_vbase2 as_ =? 0 then
    (ESUCCESS, set_as_npages2 npages (set_as_vbase2 vaddr as_))
  else
    (* Support for more than two regions is not available. *)
    (EUNIMP, as_).

(** gets physical pages for each region *)
Definition as_prepare_load (as_ : addrspace) (k : kernel)
  : outcome (errno * addrspace * kernel) :=
  let! _ := assert (as_pbase1 as_ =? 0) in
  let! _ := assert (as_pbase2 as_ =? 0) in
  let! _ := assert (as_stackpbase as_ =? 0) in
  let! '(pa, k) := getppages (as_npages1 as_) k in
  let as_ := set_as_pbase1 pa as_ in
  if as_pbase1 as_ =? 0 then Ok (ENOMEM, as_, k) else
  let! '(pa, k) := getppages (as_npages2 as_) k in
  let as_ := set_as_pbase2 pa as_ in
  if as_pbase2 as_ =? 0 then Ok (ENOMEM, as_, k) else
  let! '(pa, k) := getppages DUMBVM_STACKPAGES k in
  let as_ := set_as_stackpbase pa as_ in
  if as_stackpbase as_ =? 0 then Ok (ENOMEM, as_, k) else
  Ok (ESUCCESS, as_, k).

Definition as_complete_load (as_ : addrspace) : errno := ESUCCESS.

(** prototype for ASLR stack.  [rand] is the unsigned int that the read of
    four bytes from the random device leaves in the local variable; the
    result is the return value, the address space and [*stackptr]. *)
Definition as_define_stack (as_ : addrspace) (rand : Z)
  : outcome (errno * addrspace * Z) :=
  let! _ := assert (negb (as_stackpbase as_ =? 0)) in
  let rand := rand mod 0x7fa40000 in
  let newstack := s32 (u32 (0x005c0000 + rand)) in
  let newstack := s32 (Z.land (u32 newstack) PAGE_FRAME) in
  Ok (ESUCCESS, set_as_stackvbase (u32 newstack) as_, u32 newstack).

(** The five assignments of [as_copy] that give [new] the virtual layout of
    [old]. *)
Definition as_copy_layout (old new : addrspace) : addrspace :=
  let new := set_as_vbase1 (as_vbase1 old) new in
  let new := set_as_npages1 (as_npages1 old) new in
  let new := set_as_vbase2 (as_vbase2 old) new in
  let new := set_as_npages2 (as_npages2 old) new in
  let new := set_as_stackvbase (as_stackvbase old) new in
  new.

(** [ret] is the content of [*ret] before the call; the second component of
    the result is its content afterwards. *)
Definition as_copy (old : addrspace) (ret : option addrspace) (k : kernel)
  : outcome (errno * option addrspace * kernel) :=
  let '(new, k) := as_create k in
  match new with
  | None => Ok (ENOMEM, ret, k)
  | Some new =>
    let new := as_copy_layout old new in
    let! '(result, new, k) := as_prepare_load new k in
    if negb (bool_decide (result = ESUCCESS)) then
      Ok (ENOMEM, ret, as_destroy new k)
    else
    let! _ := assert (negb (as_pbase1 new =? 0)) in
    let! _ := assert (negb (as_pbase2 new =? 0)) in
    let! _ := assert (negb (as_stackpbase new =? 0)) in
    let k := memmove (PADDR_TO_KVADDR (as_pbase1 new))
                     (PADDR_TO_KVADDR (as_pbase1 old))
                     (u32 (as_npages1 old * PAGE_SIZE)) k in
    let k := memmove (PADDR_TO_KVADDR (as_pbase2 new))
                     (PADDR_TO_KVADDR (as_pbase2 old))
                     (u32 (as_npages2 old * PAGE_SIZE)) k in
    let k := memmove (PADDR_TO_KVADDR (as_stackpbase new))
                     (PADDR_TO_KVADDR (as_stackpbase old))
                     (DUMBVM_STACKPAGES * PAGE_SIZE) k in
    Ok (ESUCCESS, Some new, k)
  end.

(** ** The fault handler *)

Definition page_aligned (x : Z) : bool := Z.land x PAGE_FRAME =? x.

(** The probe for a TLB slot that is not valid: [todo] slots from [i] on are
    left to look at; [None] is the fall out of the loop. *)
Fixpoint vm_fault_loop (todo : nat) (i : nat) (faultaddress paddr : Z)
    (k : kernel) : option kernel :=
  match todo with
  | O => None
  | S todo' =>
    let '(ehi, elo) := TLB_Read i k in
    if negb (Z.land elo TLBLO_VALID =? 0) then
      vm_fault_loop todo' (S i) faultaddress paddr k
    else
      let ehi := faultaddress in
      let elo := Z.lor (Z.lor paddr TLBLO_DIRTY) TLBLO_VALID in
      Some (TLB_Write ehi elo i k)
  end.

(** The physical address that the three range tests of [vm_fault] select for
    a page-masked fault address, [None] outside all of them. *)
Definition vm_fault_paddr (as_ : addrspace) (faultaddress : Z) : option Z :=
  let vbase1 := as_vbase1 as_ in
  let vtop1 := u32 (vbase1 + as_npages1 as_ * PAGE_SIZE) in
  let vbase2 := as_vbase2 as_ in
  let vtop2 := u32 (vbase2 + as_npages2 as_ * PAGE_SIZE) in
  let stackbase := u32 (as_stackvbase as_ - DUMBVM_STACKPAGES * PAGE_SIZE) in
  let stacktop := as_stackvbase as_ in
  if (faultaddress >=? vbase1) && (faultaddress <? vtop1) then
    Some (u32 ((faultaddress - vbase1) + as_pbase1 as_))
  else if (faultaddress >=? vbase2) && (faultaddress <? vtop2) then
    Some (u32 ((faultaddress - vbase2) + as_pbase2 as_))
  else if (faultaddress >=? stackbase) && (faultaddress <? stacktop) then
    Some (u32 ((faultaddress - stackbase) + as_stackpbase as_))
  else None.

(** The assertions that the address space has been set up properly. *)
Definition vm_fault_asserts (as_ : addrspace) : bool :=
  negb (as_vbase1 as_ =? 0) && negb (as_pbase1 as_ =? 0)
  && negb (as_npages1 as_ =? 0) && negb (as_vbase2 as_ =? 0)
  && negb (as_pbase2 as_ =? 0) && negb (as_npages2 as_ =? 0)
  && negb (as_stackpbase as_ =? 0)
  && page_aligned (as_vbase1 as_) && page_aligned (as_pbase1 as_)
  && page_aligned (as_vbase2 as_) && page_aligned (as_pbase2 as_)
  && page_aligned (as_stackpbase as_).

(** The diagnostic output ([kprintf], [DEBUG], [buddylist_printstats]) is
    not part of the state and is left out. *)
Definition vm_fault (faulttype faultaddress : Z) (k : kernel)
  : outcome (errno * kernel) :=
  let '(spl, k) := splhigh k in
  let faultaddress := Z.land faultaddress PAGE_FRAME in
  if faulttype =? VM_FAULT_READONLY then
    (* We always create pages read-write, so we can't get this *)
    Panic "dumbvm: got VM_FAULT_READONLY"
  else if negb ((faulttype =? VM_FAULT_READ) || (faulttype =? VM_FAULT_WRITE))
  then
    let '(_, k) := splx spl k in
    Ok (EINVAL, k)
  else
  match t_vmspace k with
  | None =>
    (* No address space set up. *)
    Ok (EFAULT, k)
  | Some as_ =>
    let! _ := assert (vm_fault_asserts as_) in
    match vm_fault_paddr as_ faultaddress with
    | None =>
      let '(_, k) := splx spl k in
      Ok (EFAULT, k)
    | Some paddr =>
      (* make sure it's page-aligned *)
      let! _ := assert (page_aligned paddr) in
      match vm_fault_loop NUM_TLB 0 faultaddress paddr k with
      | Some k =>
        let '(_, k) := splx spl k in
        Ok (ESUCCESS, k)
      | None =>
        let '(_, k) := splx spl k in
        Ok (EFAULT, k)
      end
    end
  end.

(** ** Predicates used in the statements *)

(** The three ranges of an address space, with their ends in 32-bit
    arithmetic, as [vm_fault] computes them. *)
Definition in_region1 (as_ : addrspace) (va : Z) : Prop :=
  as_vbase1 as_ <= va < u32 (as_vbase1 as_ + as_npages1 as_ * PAGE_SIZE).
Definition in_region2 (as_ : addrspace) (va : Z) : Prop :=
  as_vbase2 as_ <= va < u32 (as_vbase2 as_ + as_npages2 as_ * PAGE_SIZE).
Definition in_stack (as_ : addrspace) (va : Z) : Prop :=
  u32 (as_stackvbase as_ - DUMBVM_STACKPAGES * PAGE_SIZE) <= va < as_stackvbase as_.

(** A TLB slot whose low word is not marked VALID. *)
Definition slot_invalid (k : kernel) (i : nat) : Prop :=
  Z.land (TLB_Read i k).2 TLBLO_VALID = 0.

(** ** Example states *)

(** The address space of scenario S4 ([pbase1 = 0x00280000]), with its stack
    top at 0x005c0000, and a kernel whose buddy list tiles the RAM of
    scenario S1 with the three ranges of that address space in use; the TLB
    and the address space of the current thread are left open. *)
Definition S4_as : addrspace :=
  mk_as 0x00400000 0x00280000 2 0x00410000 0x00282000 1 0x005c0000 0x00290000.

Definition S4_kernel (t : list (Z * Z)) (vmspace : option addrspace) : kernel :=
  mk_kernel [mk_buddy 0x00200000 128 0; mk_buddy 0x00280000 2 1;
             mk_buddy 0x00282000 1 1; mk_buddy 0x00283000 13 0;
             mk_buddy 0x00290000 12 1; mk_buddy 0x0029c000 1892 0]
            1 16 0x00200000 0x00a00000 0 t (fun _ => 0) vmspace.

Definition tlb_empty : list (Z * Z) := replicate NUM_TLB (0, 0).
Definition tlb_full : list (Z * Z) := replicate NUM_TLB (0, TLBLO_VALID).

(** A kernel whose RAM is the single page at 0x00200000, before bootstrap,
    and after bootstrap and the allocation of that page: no block is
    free. *)
Definition full_kernel0 : kernel :=
  mk_kernel [] 0 17 0x00200000 0x00201000 0 tlb_empty (fun _ => 0) None.

Definition full_kernel : kernel :=
  mk_kernel [mk_buddy 0x00200000 1 1] 1 16 0x00200000 0x00201000 0
            tlb_empty (fun _ => 0) None.

(** The kernel of scenario S1 before [vm_bootstrap]: the probe reports the
    RAM range [0x00200000, 0x00a00000). *)
Definition S1_kernel : kernel :=
  mk_kernel [] 0 64 0x00200000 0x00a00000 0 tlb_empty (fun _ => 0) None.

(** Scenario S1: the state after [vm_bootstrap]; scenario S2: the state
    after the allocation of one page that follows. *)
Definition S1_booted : kernel :=
  mk_kernel [mk_buddy 0x00200000 2048 0] 1 63 0x00200000 0x00a00000 0
            tlb_empty (fun _ => 0) None.

Definition S2_kernel : kernel :=
  mk_kernel [mk_buddy 0x00200000 1 1; mk_buddy 0x00600000 1024 0;
             mk_buddy 0x00400000 512 0; mk_buddy 0x00300000 256 0;
             mk_buddy 0x00280000 128 0; mk_buddy 0x00240000 64 0;
             mk_buddy 0x00220000 32 0; mk_buddy 0x00210000 16 0;
             mk_buddy 0x00208000 8 0; mk_buddy 0x00204000 4 0;
             mk_buddy 0x00202000 2 0; mk_buddy 0x00201000 1 0]
            1 52 0x00200000 0x00a00000 0 tlb_empty (fun _ => 0) None.

(** Scenario S3: the address space after the two calls of
    [as_define_region], and the address space and the kernel after
    [as_prepare_load] on it in the state of scenario S1. *)
Definition S3_as0 : addrspace := mk_as 0x00400000 0 2 0x00410000 0 1 0 0.

Definition S3_as : addrspace :=
  mk_as 0x00400000 0x00200000 2 0x00410000 0x00202000 1 0 0x00210000.

Definition S3_kernel : kernel :=
  mk_kernel [mk_buddy 0x00200000 2 1; mk_buddy 0x00600000 1024 0;
             mk_buddy 0x00400000 512 0; mk_buddy 0x00300000 256 0;
             mk_buddy 0x00280000 128 0; mk_buddy 0x00240000 64 0;
             mk_buddy 0x00220000 32 0; mk_buddy 0x00210000 16 1;
             mk_buddy 0x00208000 8 0; mk_buddy 0x00204000 4 0;
             mk_buddy 0x00202000 1 1; mk_buddy 0x00203000 1 0]
            1 52 0x00200000 0x00a00000 0 tlb_empty (fun _ => 0) None.

(** A machine with 32 pages of RAM, [0x00200000, 0x00220000): the state
    before [vm_bootstrap], an address space with two regions of 8 pages
    before its [as_prepare_load], and the address space and the kernel after
    it: the three blocks of the address space are all of RAM. *)
Definition short_kernel0 : kernel :=
  mk_kernel [] 0 64 0x00200000 0x00220000 0 tlb_empty (fun _ => 0) None.

Definition short_as0 : addrspace :=
  mk_as 0x00400000 0 8 0x00410000 0 8 0x005c0000 0.

Definition short_as : addrspace :=
  mk_as 0x00400000 0x00200000 8 0x00410000 0x00208000 8 0x005c0000 0x00210000.

Definition short_kernel : kernel :=
  mk_kernel [mk_buddy 0x00200000 8 1; mk_buddy 0x00210000 16 1;
             mk_buddy 0x00208000 8 1]
            1 60 0x00200000 0x00220000 0 tlb_empty (fun _ => 0) None.

(** ** The allocator's invariant *)

(** A block that a request for [npages] pages may take. *)
Definition candidate (npages : Z) (b : buddy_entry) : Prop :=
  inuse b = 0 /\ npages <= pages b.

(** Slot [i] holds the best fit [b]: no candidate is smaller and none of the
    same size comes earlier. *)
Definition best_fit (npages : Z) (bl : list buddy_entry) (i : nat)
    (b : buddy_entry) : Prop :=
  bl !! i = Some b /\ candidate npages b
  /\ forall (j : nat) (c : buddy_entry),
       bl !! j = Some c -> candidate npages c ->
       pages b <= pages c /\ ((j < i)%nat -> pages b < pages c).

(** What the scan of [find_buddy] knows after the slots of [pre]. *)
Definition scanned (npages : Z) (pre : list buddy_entry) (chosen : Z)
    (chosbe : option buddy_entry) : Prop :=
  (chosen = -1 /\ forall c, c ∈ pre -> ~ candidate npages c)
  \/ exists (i : nat) (b : buddy_entry),
       chosen = Z.of_nat i /\ chosbe = Some b /\ best_fit npages pre i b.

(** The physical address [a] lies in the block [b]. *)
Definition covers (a : Z) (b : buddy_entry) : bool :=
  (paddr b <=? a) && (a <? paddr b + pages b * PAGE_SIZE).

Definition cover1 (a : Z) (b : buddy_entry) : nat :=
  if covers a b then 1%nat else 0%nat.

(** The number of blocks of the list that [a] lies in. *)
Fixpoint cover_count (a : Z) (bl : list buddy_entry) : nat :=
  match bl with
  | [] => 0%nat
  | b :: rest => (cover1 a b + cover_count a rest)%nat
  end.

Definition in_ram (lo hi a : Z) : bool := (lo <=? a) && (a <? hi).

Definition block_ok (lo hi : Z) (b : buddy_entry) : Prop :=
  page_aligned (paddr b) = true /\ 0 <= pages b
  /\ lo <= paddr b /\ paddr b + pages b * PAGE_SIZE <= hi.

Record buddy_inv (lo hi : Z) (bl : list buddy_entry) : Prop := {
  inv_cover : forall a : Z,
    cover_count a bl = if in_ram lo hi a then 1%nat else 0%nat;
  inv_blocks : Forall (block_ok lo hi) bl;
  inv_pages : length bl = 1%nat \/ Forall (fun b => 1 <= pages b) bl
}.

(** The RAM that the probe reports is a range of whole pages. *)
Definition ram_ok (lo hi : Z) : Prop :=
  page_aligned lo = true /\ page_aligned hi = true /\ lo <= hi.

(** The states of the kernel after [vm_bootstrap] on the RAM range
    [lo, hi): every returning allocation and every free leads to one, and
    so does whatever else the kernel does, which leaves the buddy list and
    [vm_initialized] alone. *)
Inductive reachable (lo hi : Z) : kernel -> Prop :=
| reach_bootstrap (k0 k : kernel) :
    firstpaddr k0 = lo -> lastpaddr k0 = hi ->
    vm_bootstrap k0 = Ok k -> reachable lo hi k
| reach_alloc (k : kernel) (npages addr : Z) (k' : kernel) :
    reachable lo hi k ->
    getppages npages k = Ok (addr, k') -> reachable lo hi k'
| reach_free (k : kernel) (addr : Z) :
    reachable lo hi k -> reachable lo hi (freeppage addr k)
| reach_other (k k' : kernel) :
    reachable lo hi k ->
    buddylist k' = buddylist k -> vm_initialized k' = vm_initialized k ->
    reachable lo hi k'.

(** The state of the splitting loop of [calculate_buddy] on slot [i] of a
    list that was [bl0] when the loop was entered: [be] is the entry of the
    slot, and [bl] the list. *)
Record split_state (lo hi npages : Z) (i : nat) (p : Z)
    (bl0 : list buddy_entry) (be : buddy_entry) (bl : list buddy_entry)
  : Prop := {
  ss_cover : forall a : Z, cover_count a bl = cover_count a bl0;
  ss_blocks : Forall (block_ok lo hi) bl;
  ss_pages : Forall (fun b => 1 <= pages b) bl;
  ss_slot : bl !! i = Some be;
  ss_paddr : paddr be = p;
  ss_free : inuse be = 0;
  ss_fit : npages <= pages be;
  ss_keep : forall (j : nat) (c : buddy_entry),
    j <> i -> bl0 !! j = Some c -> bl !! j = Some c;
  ss_old : forall (j : nat) (c : buddy_entry),
    bl !! j = Some c -> inuse c <> 0 -> bl0 !! j = Some c
}.

(** What an allocation of [npages] pages that returned [addr] has done to
    the buddy list [bl]. *)
Record allocated (lo hi npages : Z) (bl : list buddy_entry) (addr : Z)
    (bl' : list buddy_entry) : Prop := {
  al_inv : buddy_inv lo hi bl';
  al_pos : 1 <= npages;
  al_block : exists (i : nat) (b0 b : buddy_entry),
    bl !! i = Some b0 /\ inuse b0 = 0
    /\ bl' !! i = Some b /\ paddr b = addr /\ inuse b = 1
    /\ npages <= pages b
    /\ forall (j : nat) (c : buddy_entry),
         bl' !! j = Some c -> inuse c <> 0 -> j = i \/ bl !! j = Some c;
  al_keep : forall (j : nat) (c : buddy_entry),
    bl !! j = Some c -> inuse c <> 0 -> bl' !! j = Some c
}.

(** What the splitting loop keeps, on slot [i] of a list that was [bl0] with
    the block [b0] in that slot when the loop was entered: the entry of the
    slot still fits the request and is no larger than [b0], the old slots
    other than [i] are untouched, and the appended entries are free and no
    smaller than the entry of the slot. *)
Record split_fit (npages : Z) (i : nat) (bl0 : list buddy_entry)
    (b0 be : buddy_entry) (bl : list buddy_entry) : Prop := {
  sf_slot : bl !! i = Some be;
  sf_fit : npages <= pages be;
  sf_le : pages be <= pages b0;
  sf_paddr : paddr be = paddr b0;
  sf_free : inuse be = 0;
  sf_len : (length bl0 <= length bl)%nat;
  sf_old : forall j : nat,
    (j < length bl0)%nat -> j <> i -> bl !! j = bl0 !! j;
  sf_new : forall (j : nat) (c : buddy_entry),
    (length bl0 <= j)%nat -> bl !! j = Some c ->
    pages be <= pages c /\ inuse c = 0
}.

(** The [len] bytes at the physical address [base] lie in a block of the
    list that is in use. *)
Definition range_in_use (bl : list buddy_entry) (base len : Z) : Prop :=
  exists (j : nat) (b : buddy_entry),
    bl !! j = Some b /\ inuse b <> 0
    /\ paddr b <= base /\ base + len <= paddr b + pages b * PAGE_SIZE.

(** The TLB slots below [m] are VALID and the slots from [m] on are not. *)
Definition tlb_filled (m : nat) (k : kernel) : Prop :=
  forall i : nat, (i < NUM_TLB)%nat -> (slot_invalid k i <-> (m <= i)%nat).

(** The fields of an address space are 32-bit values and its three physical
    ranges end within the 32-bit address space. *)
Definition as_frames_ok (as_ : addrspace) : Prop :=
  is_u32 (as_vbase1 as_) /\ is_u32 (as_vbase2 as_) /\ is_u32 (as_stackvbase as_)
  /\ 0 <= as_npages1 as_ /\ 0 <= as_npages2 as_
  /\ 0 <= as_pbase1 as_ /\ 0 <= as_pbase2 as_ /\ 0 <= as_stackpbase as_
  /\ as_pbase1 as_ + as_npages1 as_ * PAGE_SIZE <= 2 ^ 32
  /\ as_pbase2 as_ + as_npages2 as_ * PAGE_SIZE <= 2 ^ 32
  /\ as_stackpbase as_ + DUMBVM_STACKPAGES * PAGE_SIZE <= 2 ^ 32.

(** * Properties *)

(** ** Page arithmetic *)

Lemma land_PAGE_FRAME (x : Z) :
  Z.land x PAGE_FRAME = PAGE_SIZE * ((x mod 2 ^ 32) / PAGE_SIZE).
Proof.
  replace PAGE_FRAME with (Z.ldiff (Z.ones 32) (Z.ones 12)) by reflexivity.
  assert (Z.land x (Z.ldiff (Z.ones 32) (Z.ones 12))
          = Z.ldiff (Z.land x (Z.ones 32)) (Z.ones 12)) as ->.
  { apply Z.bits_inj'. intros n _.
    rewrite Z.land_spec, !Z.ldiff_spec, Z.land_spec.
    destruct (Z.testbit x n), (Z.testbit (Z.ones 32) n); reflexivity. }
  rewrite Z.land_ones, Z.ldiff_ones_r by lia.
  rewrite Z.shiftl_mul_pow2, Z.shiftr_div_pow2 by lia.
  unfold PAGE_SIZE. change (2 ^ 12) with 4096. lia.
Qed.

Lemma page_aligned_iff (x : Z) :
  page_aligned x = true <-> 0 <= x < 2 ^ 32 /\ x mod PAGE_SIZE = 0.
Proof.
  unfold page_aligned. rewrite Z.eqb_eq, land_PAGE_FRAME.
  unfold PAGE_SIZE. change (2 ^ 32) with 4294967296.
  split.
  - intros H. Z.div_mod_to_equations. lia.
  - intros [Hr Hm]. rewrite (Z.mod_small x) by lia.
    Z.div_mod_to_equations. lia.
Qed.

Lemma page_aligned_land (x : Z) : page_aligned (Z.land x PAGE_FRAME) = true.
Proof.
  unfold page_aligned. rewrite <- Z.land_assoc, Z.land_diag. apply Z.eqb_refl.
Qed.

Lemma page_aligned_u32_sum (a b c : Z) :
  a mod PAGE_SIZE = 0 -> b mod PAGE_SIZE = 0 -> c mod PAGE_SIZE = 0 ->
  page_aligned (u32 ((a - b) + c)) = true.
Proof.
  intros Ha Hb Hc. apply page_aligned_iff. unfold u32, PAGE_SIZE in *.
  change (2 ^ 32) with 4294967296. Z.div_mod_to_equations. lia.
Qed.

Lemma u32_small (x : Z) : 0 <= x < 2 ^ 32 -> u32 x = x.
Proof. intros H. unfold u32. apply Z.mod_small. exact H. Qed.

Lemma s32_small (x : Z) : - 2 ^ 31 <= x < 2 ^ 31 -> s32 x = x.
Proof.
  intros H. unfold s32. rewrite Z.mod_small; [lia|].
  change (2 ^ 31) with 2147483648 in *. change (2 ^ 32) with 4294967296. lia.
Qed.

Lemma u32_range (x : Z) : 0 <= u32 x < 2 ^ 32.
Proof. unfold u32. apply Z.mod_pos_bound. reflexivity. Qed.

(** ** The randomised stack base *)

(** C7.  For an address space with [stackpbase != 0] and every 32-bit value
    read from the random device, [as_define_stack] returns 0 and stores in
    [stackvbase], and writes to [*stackptr], the value
    [(0x005c0000 + rand % 0x7fa40000) & PAGE_FRAME], which is page-aligned
    and lies in [0x005c0000, 0x80000000). *)
Theorem as_define_stack_range (as_ : addrspace) (rand : Z) :
  as_stackpbase as_ <> 0 ->
  is_u32 rand ->
  let v := Z.land (0x005c0000 + rand mod 0x7fa40000) PAGE_FRAME in
  as_define_stack as_ rand = Ok (ESUCCESS, set_as_stackvbase v as_, v)
  /\ as_stackvbase (set_as_stackvbase v as_) = v
  /\ 0x005c0000 <= v < 0x80000000
  /\ page_aligned v = true.
Proof.
  intros Hp _ v.
  assert (Hr : 0 <= rand mod 0x7fa40000 < 0x7fa40000)
    by (apply Z.mod_pos_bound; reflexivity).
  assert (Hv : 0x005c0000 <= v <= 0x005c0000 + rand mod 0x7fa40000).
  { subst v. rewrite land_PAGE_FRAME.
    rewrite Z.mod_small by (change (2 ^ 32) with 4294967296; lia).
    unfold PAGE_SIZE. Z.div_mod_to_equations. lia. }
  unfold as_define_stack.
  destruct (Z.eqb_spec (as_stackpbase as_) 0) as [E|_]; [contradiction|].
  cbn [negb assert bind].
  rewrite (u32_small (0x005c0000 + _))
    by (change (2 ^ 32) with 4294967296; lia).
  rewrite (s32_small (0x005c0000 + _))
    by (change (2 ^ 31) with 2147483648; lia).
  rewrite (u32_small (0x005c0000 + _))
    by (change (2 ^ 32) with 4294967296; lia).
  fold v.
  rewrite (s32_small v) by (change (2 ^ 31) with 2147483648; lia).
  rewrite (u32_small v) by (change (2 ^ 32) with 4294967296; lia).
  repeat split; try lia. subst v. apply page_aligned_land.
Qed.

Lemma as_define_stack_range_witness :
  as_stackpbase (mk_as 0x00400000 0x00280000 2 0x00410000 0x00282000 1 0 0x00290000) <> 0
  /\ is_u32 0xdeadbeef
  /\ as_define_stack
       (mk_as 0x00400000 0x00280000 2 0x00410000 0x00282000 1 0 0x00290000)
       0xdeadbeef
     = Ok (ESUCCESS,
           mk_as 0x00400000 0x00280000 2 0x00410000 0x00282000 1 0x5f65b000
                 0x00290000,
           0x5f65b000).
Proof.
  assert (H1 : as_stackpbase (mk_as 0x00400000 0x00280000 2 0x00410000
                                    0x00282000 1 0 0x00290000) <> 0)
    by (cbn; lia).
  assert (H2 : is_u32 0xdeadbeef) by (unfold is_u32; lia).
  split; [exact H1|]. split; [exact H2|].
  exact (proj1 (as_define_stack_range _ _ H1 H2)).
Defined.

(** ** The fault handler *)

Lemma vm_fault_loop_first (va pa : Z) (k : kernel) (j : nat) :
  slot_invalid k j ->
  forall (todo i : nat), (i <= j < i + todo)%nat ->
  exists i0 : nat,
    (i <= i0 <= j)%nat /\ slot_invalid k i0
    /\ (forall i', (i <= i' < i0)%nat -> ~ slot_invalid k i')
    /\ vm_fault_loop todo i va pa k
       = Some (TLB_Write va (Z.lor (Z.lor pa TLBLO_DIRTY) TLBLO_VALID) i0 k).
Proof.
  intros Hj todo. induction todo as [|todo IH]; intros i Hi; [lia|].
  cbn [vm_fault_loop].
  destruct (TLB_Read i k) as [ehi elo] eqn:Hread.
  destruct (Z.eqb_spec (Z.land elo TLBLO_VALID) 0) as [Hz|Hnz]; cbn [negb].
  - exists i. repeat split; try lia.
    unfold slot_invalid. rewrite Hread. exact Hz.
  - assert (i <> j).
    { intros ->. unfold slot_invalid in Hj. rewrite Hread in Hj. exact (Hnz Hj). }
    destruct (IH (S i)) as (i0 & Hr & Hinv & Hfirst & Heq); [lia|].
    exists i0. repeat split; try lia; try assumption.
    intros i' Hi'. destruct (decide (i' = i)) as [->|Hne].
    + unfold slot_invalid. rewrite Hread. exact Hnz.
    + apply Hfirst. lia.
Qed.

Lemma vm_fault_loop_curspl (va pa : Z) (todo i : nat) (k k' : kernel) :
  vm_fault_loop todo i va pa k = Some k' -> curspl k' = curspl k.
Proof.
  revert i. induction todo as [|todo IH]; intros i; cbn [vm_fault_loop]; [discriminate|].
  destruct (TLB_Read i k) as [ehi elo].
  destruct (negb (Z.land elo TLBLO_VALID =? 0)).
  - apply IH.
  - intros [= <-]. reflexivity.
Qed.

(** Every exit of [vm_fault] other than the one for a missing address space
    restores the interrupt priority level of the caller. *)
Lemma vm_fault_restores_spl (faulttype faultaddress : Z) (k k' : kernel) (e : errno) :
  (t_vmspace k <> None
   \/ (faulttype <> VM_FAULT_READ /\ faulttype <> VM_FAULT_WRITE)) ->
  vm_fault faulttype faultaddress k = Ok (e, k') ->
  curspl k' = curspl k.
Proof.
  intros Hcase. unfold vm_fault, splhigh, splx. cbn [fst snd].
  destruct (faulttype =? VM_FAULT_READONLY); [discriminate|].
  destruct (Z.eqb_spec faulttype VM_FAULT_READ) as [Hr|Hr];
    destruct (Z.eqb_spec faulttype VM_FAULT_WRITE) as [Hw|Hw]; cbn [orb negb];
    try (destruct Hcase as [Hcase|[? ?]]; [|congruence]);
    try (intros [= <- <-]; reflexivity).
  all: cbn [t_vmspace set_curspl] in *.
  all: destruct (t_vmspace k) as [as_|]; [|congruence].
  all: destruct (vm_fault_asserts as_); cbn [assert bind]; [|discriminate].
  all: destruct (vm_fault_paddr as_ _) as [pa|]; [|intros [= <- <-]; reflexivity].
  all: destruct (page_aligned pa); cbn [assert bind]; [|discriminate].
  all: destruct (vm_fault_loop _ _ _ _ _) as [k1|] eqn:Hloop;
    intros [= <- <-]; reflexivity.
Qed.

(** C2.  A READ or WRITE fault taken while the current thread has no address
    space returns EFAULT with the interrupt priority level still at its
    highest value: this exit does not give the caller's level back. *)
Theorem vm_fault_no_as_spl_high (faulttype faultaddress : Z) (k : kernel) :
  faulttype = VM_FAULT_READ \/ faulttype = VM_FAULT_WRITE ->
  t_vmspace k = None ->
  vm_fault faulttype faultaddress k = Ok (EFAULT, set_curspl SPL_HIGH k)
  /\ curspl (set_curspl SPL_HIGH k) = SPL_HIGH.
Proof.
  intros Hft Hnone. split; [|reflexivity].
  unfold vm_fault, splhigh, splx.
  destruct Hft as [-> | ->]; cbn [Z.eqb VM_FAULT_READ VM_FAULT_WRITE
    VM_FAULT_READONLY orb negb Pos.eqb]; cbn [t_vmspace set_curspl];
    rewrite Hnone; reflexivity.
Qed.

Lemma vm_fault_no_as_spl_high_witness :
  (VM_FAULT_READ = VM_FAULT_READ \/ VM_FAULT_READ = VM_FAULT_WRITE)
  /\ t_vmspace (S4_kernel tlb_empty None) = None
  /\ curspl (S4_kernel tlb_empty None) = 0
  /\ vm_fault VM_FAULT_READ 0x00400abc (S4_kernel tlb_empty None)
     = Ok (EFAULT, set_curspl 15 (S4_kernel tlb_empty None)).
Proof.
  split; [left; reflexivity|]. split; [reflexivity|]. split; [reflexivity|].
  exact (proj1 (vm_fault_no_as_spl_high VM_FAULT_READ 0x00400abc
                  (S4_kernel tlb_empty None) (or_introl eq_refl) eq_refl)).
Defined.

Lemma vm_fault_asserts_aligned (as_ : addrspace) :
  vm_fault_asserts as_ = true ->
  page_aligned (as_vbase1 as_) = true /\ page_aligned (as_pbase1 as_) = true
  /\ page_aligned (as_vbase2 as_) = true /\ page_aligned (as_pbase2 as_) = true
  /\ page_aligned (as_stackpbase as_) = true.
Proof.
  unfold vm_fault_asserts. rewrite !andb_true_iff. tauto.
Qed.

(** The range tests of [vm_fault] pick the first of region 1, region 2 and
    the stack range that holds the address. *)
Lemma vm_fault_paddr_spec (as_ : addrspace) (va : Z) :
  (in_region1 as_ va /\
   vm_fault_paddr as_ va = Some (u32 ((va - as_vbase1 as_) + as_pbase1 as_)))
  \/ (~ in_region1 as_ va /\ in_region2 as_ va /\
      vm_fault_paddr as_ va = Some (u32 ((va - as_vbase2 as_) + as_pbase2 as_)))
  \/ (~ in_region1 as_ va /\ ~ in_region2 as_ va /\ in_stack as_ va /\
      vm_fault_paddr as_ va
      = Some (u32 ((va - u32 (as_stackvbase as_ - DUMBVM_STACKPAGES * PAGE_SIZE))
                   + as_stackpbase as_)))
  \/ (~ in_region1 as_ va /\ ~ in_region2 as_ va /\ ~ in_stack as_ va /\
      vm_fault_paddr as_ va = None).
Proof.
  unfold vm_fault_paddr, in_region1, in_region2, in_stack.
  repeat match goal with
  | |- context [?a >=? ?b] => destruct (Z.geb_spec a b)
  | |- context [?a <? ?b] => destruct (Z.ltb_spec a b)
  end; cbn [andb]; try (left; split; [lia|reflexivity]);
  try (right; left; repeat split; try lia; reflexivity);
  try (right; right; left; repeat split; try lia; reflexivity);
  right; right; right; repeat split; lia.
Qed.

(** The sum of page-aligned bases and offsets that [vm_fault] forms is
    page-aligned. *)
Lemma vm_fault_paddr_page_aligned (as_ : addrspace) (faultaddress pa : Z) :
  page_aligned (as_vbase1 as_) = true ->
  page_aligned (as_pbase1 as_) = true ->
  page_aligned (as_vbase2 as_) = true ->
  page_aligned (as_pbase2 as_) = true ->
  page_aligned (as_stackpbase as_) = true ->
  page_aligned (as_stackvbase as_) = true ->
  vm_fault_paddr as_ (Z.land faultaddress PAGE_FRAME) = Some pa ->
  page_aligned pa = true.
Proof.
  intros Hv1 Hp1 Hv2 Hp2 Hsp Hsv Hpa.
  assert (Hva := page_aligned_land faultaddress).
  apply page_aligned_iff in Hv1, Hp1, Hv2, Hp2, Hsp, Hsv, Hva.
  assert (Hsb : u32 (as_stackvbase as_ - DUMBVM_STACKPAGES * PAGE_SIZE)
                mod PAGE_SIZE = 0).
  { unfold u32, DUMBVM_STACKPAGES, PAGE_SIZE in *.
    change (2 ^ 32) with 4294967296. Z.div_mod_to_equations. lia. }
  destruct (vm_fault_paddr_spec as_ (Z.land faultaddress PAGE_FRAME))
    as [(_ & E)|[(_ & _ & E)|[(_ & _ & _ & E)|(_ & _ & _ & E)]]];
    rewrite E in Hpa; try discriminate; injection Hpa as <-;
    apply page_aligned_u32_sum; tauto.
Qed.

(** C9, as amended.  When the five bases that [vm_fault] asserts to be
    page-aligned and also [stackvbase] are page-aligned, the physical
    address computed for a fault address in region 1, region 2 or the stack
    range is page-aligned, and the assertion before the TLB installation
    holds. *)
Theorem vm_fault_paddr_aligned (as_ : addrspace) (faultaddress : Z) :
  page_aligned (as_vbase1 as_) = true ->
  page_aligned (as_pbase1 as_) = true ->
  page_aligned (as_vbase2 as_) = true ->
  page_aligned (as_pbase2 as_) = true ->
  page_aligned (as_stackpbase as_) = true ->
  page_aligned (as_stackvbase as_) = true ->
  in_region1 as_ (Z.land faultaddress PAGE_FRAME)
  \/ in_region2 as_ (Z.land faultaddress PAGE_FRAME)
  \/ in_stack as_ (Z.land faultaddress PAGE_FRAME) ->
  exists pa : Z,
    vm_fault_paddr as_ (Z.land faultaddress PAGE_FRAME) = Some pa
    /\ page_aligned pa = true /\ assert (page_aligned pa) = Ok tt.
Proof.
  intros Hv1 Hp1 Hv2 Hp2 Hsp Hsv Hin.
  assert (exists pa, vm_fault_paddr as_ (Z.land faultaddress PAGE_FRAME) = Some pa)
    as [pa' Hpa].
  { destruct (vm_fault_paddr_spec as_ (Z.land faultaddress PAGE_FRAME))
      as [(_ & E)|[(_ & _ & E)|[(_ & _ & _ & E)|(N1 & N2 & N3 & _)]]];
      [eexists; exact E ..|tauto]. }
  exists pa'. split; [exact Hpa|].
  rewrite (vm_fault_paddr_page_aligned as_ faultaddress pa' Hv1 Hp1 Hv2 Hp2 Hsp Hsv Hpa).
  split; reflexivity.
Qed.

Lemma vm_fault_paddr_aligned_witness :
  in_stack S4_as (Z.land 0x005b5abc PAGE_FRAME)
  /\ vm_fault_paddr S4_as (Z.land 0x005b5abc PAGE_FRAME) = Some 0x00291000
  /\ exists pa : Z,
       vm_fault_paddr S4_as (Z.land 0x005b5abc PAGE_FRAME) = Some pa
       /\ page_aligned pa = true /\ assert (page_aligned pa) = Ok tt.
Proof.
  assert (Hin : in_stack S4_as (Z.land 0x005b5abc PAGE_FRAME))
    by (vm_compute; split; [discriminate|reflexivity]).
  split; [exact Hin|]. split; [reflexivity|].
  exact (vm_fault_paddr_aligned S4_as 0x005b5abc
           eq_refl eq_refl eq_refl eq_refl eq_refl eq_refl
           (or_intror (or_intror Hin))).
Defined.

(** C9 as stated fails: [stackvbase] is not among the bases that [vm_fault]
    asserts to be page-aligned, and with the stack top at 0x005c0800 the
    address computed for a fault in the stack range is not page-aligned; the
    handler stops at its assertion. *)
Lemma vm_fault_paddr_unaligned_stack :
  vm_fault_asserts (set_as_stackvbase 0x005c0800 S4_as) = true
  /\ in_stack (set_as_stackvbase 0x005c0800 S4_as) (Z.land 0x005b5abc PAGE_FRAME)
  /\ vm_fault_paddr (set_as_stackvbase 0x005c0800 S4_as)
                    (Z.land 0x005b5abc PAGE_FRAME) = Some 0x00290800
  /\ page_aligned 0x00290800 = false
  /\ vm_fault VM_FAULT_READ 0x005b5abc
       (S4_kernel tlb_empty (Some (set_as_stackvbase 0x005c0800 S4_as)))
     = Panic "Assertion failed".
Proof.
  split; [reflexivity|]. split; [|split; [reflexivity|split; reflexivity]].
  unfold in_stack. vm_compute. split; [discriminate|reflexivity].
Qed.

Lemma tlb_entry_bits (pa : Z) :
  page_aligned pa = true ->
  let elo := Z.lor (Z.lor pa TLBLO_DIRTY) TLBLO_VALID in
  Z.land elo TLBLO_VALID = TLBLO_VALID
  /\ Z.land elo TLBLO_DIRTY = TLBLO_DIRTY
  /\ Z.land elo PAGE_FRAME = pa.
Proof.
  intros Hpa elo. subst elo. unfold page_aligned in Hpa.
  apply Z.eqb_eq in Hpa.
  assert (Hd : Z.land TLBLO_DIRTY PAGE_FRAME = 0) by reflexivity.
  assert (Hv : Z.land TLBLO_VALID PAGE_FRAME = 0) by reflexivity.
  repeat split; apply Z.bits_inj'; intros n _.
  - rewrite Z.land_spec, !Z.lor_spec.
    destruct (Z.testbit pa n), (Z.testbit TLBLO_DIRTY n),
      (Z.testbit TLBLO_VALID n); reflexivity.
  - rewrite Z.land_spec, !Z.lor_spec.
    destruct (Z.testbit pa n), (Z.testbit TLBLO_DIRTY n),
      (Z.testbit TLBLO_VALID n); reflexivity.
  - apply (f_equal (fun z => Z.testbit z n)) in Hpa, Hd, Hv.
    rewrite Z.land_spec in Hpa, Hd, Hv. rewrite Z.bits_0 in Hd, Hv.
    rewrite Z.land_spec, !Z.lor_spec.
    destruct (Z.testbit pa n), (Z.testbit TLBLO_DIRTY n),
      (Z.testbit TLBLO_VALID n), (Z.testbit PAGE_FRAME n);
      cbn in *; congruence.
Qed.

(** C3, as amended.  For a READ or WRITE fault on an address space that
    passes the set-up assertions of [vm_fault] and has a page-aligned
    [stackvbase], with a fault address in region 1, region 2 or the stack
    range (range ends in 32-bit arithmetic) and at least one TLB slot that
    is not VALID, [vm_fault] returns 0 and writes into the first such slot
    the entry [(va, elo)] with VALID set, DIRTY set and page frame [pa],
    where [pa] is computed in 32-bit arithmetic from the first range, in the
    order region 1, region 2, stack, that holds [va]. *)
Theorem vm_fault_installs (faulttype faultaddress : Z) (k : kernel)
    (as_ : addrspace) (j : nat) :
  faulttype = VM_FAULT_READ \/ faulttype = VM_FAULT_WRITE ->
  t_vmspace k = Some as_ ->
  vm_fault_asserts as_ = true ->
  page_aligned (as_stackvbase as_) = true ->
  length (tlb k) = NUM_TLB ->
  (j < NUM_TLB)%nat ->
  slot_invalid k j ->
  let va := Z.land faultaddress PAGE_FRAME in
  in_region1 as_ va \/ in_region2 as_ va \/ in_stack as_ va ->
  exists (i : nat) (pa elo : Z) (k' : kernel),
    vm_fault faulttype faultaddress k = Ok (ESUCCESS, k')
    /\ (in_region1 as_ va ->
        pa = u32 ((va - as_vbase1 as_) + as_pbase1 as_))
    /\ (~ in_region1 as_ va -> in_region2 as_ va ->
        pa = u32 ((va - as_vbase2 as_) + as_pbase2 as_))
    /\ (~ in_region1 as_ va -> ~ in_region2 as_ va ->
        pa = u32 ((va - u32 (as_stackvbase as_ - DUMBVM_STACKPAGES * PAGE_SIZE))
                  + as_stackpbase as_))
    /\ (i <= j)%nat /\ slot_invalid k i
    /\ (forall i', (i' < i)%nat -> ~ slot_invalid k i')
    /\ tlb k' = <[i := (va, elo)]> (tlb k)
    /\ tlb k' !! i = Some (va, elo)
    /\ Z.land elo TLBLO_VALID = TLBLO_VALID
    /\ Z.land elo TLBLO_DIRTY = TLBLO_DIRTY
    /\ Z.land elo PAGE_FRAME = pa
    /\ curspl k' = curspl k.
Proof.
  intros Hft Has Hok Hsv Hlen Hj Hinv va Hin.
  destruct (vm_fault_asserts_aligned _ Hok) as (Hv1 & Hp1 & Hv2 & Hp2 & Hsp).
  assert (exists pa, vm_fault_paddr as_ va = Some pa
    /\ (in_region1 as_ va -> pa = u32 ((va - as_vbase1 as_) + as_pbase1 as_))
    /\ (~ in_region1 as_ va -> in_region2 as_ va ->
        pa = u32 ((va - as_vbase2 as_) + as_pbase2 as_))
    /\ (~ in_region1 as_ va -> ~ in_region2 as_ va ->
        pa = u32 ((va - u32 (as_stackvbase as_ - DUMBVM_STACKPAGES * PAGE_SIZE))
                  + as_stackpbase as_))) as (pa & Hpa & Hpa1 & Hpa2 & Hpa3).
  { destruct (vm_fault_paddr_spec as_ va)
      as [(I1 & E)|[(N1 & I2 & E)|[(N1 & N2 & I3 & E)|(N1 & N2 & N3 & _)]]];
      [eexists; split; [exact E|]; repeat split; intros; tauto ..|tauto]. }
  pose proof (vm_fault_paddr_page_aligned as_ faultaddress pa
                Hv1 Hp1 Hv2 Hp2 Hsp Hsv Hpa) as Hal.
  destruct (vm_fault_loop_first va pa (set_curspl SPL_HIGH k) j Hinv NUM_TLB 0%nat)
    as (i & Hi & Hinvi & Hfirst & Hloop); [lia|].
  destruct (tlb_entry_bits pa Hal) as (Bv & Bd & Bf).
  exists i, pa, (Z.lor (Z.lor pa TLBLO_DIRTY) TLBLO_VALID).
  eexists. split.
  - unfold vm_fault, splhigh, splx.
    assert ((faulttype =? VM_FAULT_READONLY) = false) as ->
      by (destruct Hft as [-> | ->]; reflexivity).
    assert (((faulttype =? VM_FAULT_READ) || (faulttype =? VM_FAULT_WRITE)) = true)
      as -> by (destruct Hft as [-> | ->]; reflexivity).
    cbn [negb]. cbn [t_vmspace set_curspl]. rewrite Has, Hok.
    cbn [assert bind]. fold va. rewrite Hpa, Hal. cbn [assert bind].
    rewrite Hloop. reflexivity.
  - cbn [tlb TLB_Write set_curspl set_tlb curspl].
    repeat split; try assumption; try lia.
    + intros i' Hi'. apply Hfirst. lia.
    + apply list_lookup_insert_eq. lia.
Qed.

Lemma vm_fault_installs_witness :
  in_region1 S4_as (Z.land 0x00400abc PAGE_FRAME)
  /\ exists (i : nat) (elo : Z) (k' : kernel),
      vm_fault VM_FAULT_READ 0x00400abc (S4_kernel tlb_empty (Some S4_as))
      = Ok (ESUCCESS, k')
      /\ i = 0%nat
      /\ tlb k' !! i = Some (Z.land 0x00400abc PAGE_FRAME, elo)
      /\ Z.land elo TLBLO_VALID = TLBLO_VALID
      /\ Z.land elo TLBLO_DIRTY = TLBLO_DIRTY
      /\ Z.land elo PAGE_FRAME = 0x00280000.
Proof.
  assert (Hin : in_region1 S4_as (Z.land 0x00400abc PAGE_FRAME))
    by (vm_compute; split; [discriminate|reflexivity]).
  split; [exact Hin|].
  destruct (vm_fault_installs VM_FAULT_READ 0x00400abc
              (S4_kernel tlb_empty (Some S4_as)) S4_as 0%nat
              (or_introl eq_refl) eq_refl eq_refl eq_refl eq_refl
              (Nat.lt_0_succ _) eq_refl (or_introl Hin))
    as (i & pa & elo & k' & Hrun & Hpa & _ & _ & Hi & _ & _ & _ & Hslot
        & Bv & Bd & Bf & _).
  exists i, elo, k'. split; [exact Hrun|].
  split; [apply Nat.le_0_r; exact Hi|].
  split; [exact Hslot|]. split; [exact Bv|]. split; [exact Bd|].
  rewrite Bf. exact (Hpa Hin).
Defined.

(** C3 as stated fails: with every one of the 64 TLB slots VALID, the fault
    of scenario S4 inside region 1 returns EFAULT and installs nothing. *)
Lemma vm_fault_tlb_full :
  in_region1 S4_as (Z.land 0x00400abc PAGE_FRAME)
  /\ vm_fault VM_FAULT_READ 0x00400abc (S4_kernel tlb_full (Some S4_as))
     = Ok (EFAULT, S4_kernel tlb_full (Some S4_as)).
Proof.
  split; [vm_compute; split; [discriminate|reflexivity]|reflexivity].
Qed.

(** ** The best-fit scan *)

Lemma candidate_test (npages : Z) (b : buddy_entry) :
  (inuse b =? 0) && (pages b >=? npages) = true <-> candidate npages b.
Proof.
  unfold candidate. rewrite andb_true_iff, Z.eqb_eq, Z.geb_le. reflexivity.
Qed.

Lemma find_buddy_loop_scanned (npages : Z) (rest : list buddy_entry) :
  forall (pre : list buddy_entry) (chosen : Z) (chosbe : option buddy_entry),
  scanned npages pre chosen chosbe ->
  exists chosbe',
    scanned npages (pre ++ rest)
      (find_buddy_loop npages rest (Z.of_nat (length pre)) chosen chosbe)
      chosbe'.
Proof.
  induction rest as [|curbe rest IH]; intros pre chosen chosbe Hs.
  - rewrite app_nil_r. exists chosbe. exact Hs.
  - cbn [find_buddy_loop].
    replace (pre ++ curbe :: rest) with ((pre ++ [curbe]) ++ rest)
      by (rewrite <- app_assoc; reflexivity).
    replace (Z.of_nat (length pre) + 1) with (Z.of_nat (length (pre ++ [curbe])))
      by (rewrite length_app; cbn; lia).
    assert (Hlast : (pre ++ [curbe]) !! length pre = Some curbe)
      by (apply list_lookup_middle; reflexivity).
    assert (Hsplit : forall (j : nat) c, (pre ++ [curbe]) !! j = Some c ->
              ((j < length pre)%nat /\ pre !! j = Some c)
              \/ (j = length pre /\ c = curbe)).
    { intros j c Hj. destruct (decide (j < length pre)%nat) as [Hlt|Hge].
      - left. split; [exact Hlt|]. rewrite lookup_app_l in Hj; assumption.
      - right. assert (j < length (pre ++ [curbe]))%nat
          by (eapply lookup_lt_Some; exact Hj).
        rewrite length_app in H. cbn in H.
        assert (j = length pre) as -> by lia.
        rewrite Hlast in Hj. injection Hj as <-. split; reflexivity. }
    destruct ((inuse curbe =? 0) && (pages curbe >=? npages)) eqn:Hcand.
    + apply candidate_test in Hcand.
      destruct ((chosen =? -1)
                || match chosbe with
                   | Some c => pages curbe <? pages c
                   | None => false
                   end) eqn:Hbetter.
      * apply IH. right. exists (length pre), curbe.
        split; [reflexivity|]. split; [reflexivity|].
        split; [exact Hlast|]. split; [exact Hcand|].
        intros j c Hj Hc. destruct (Hsplit j c Hj) as [[Hlt Hpre]|[-> ->]]; [|lia].
        destruct Hs as [[_ Hnone]|(i & b & -> & -> & Hb & Hcb & Hmin)].
        -- exfalso. apply (Hnone c); [|exact Hc].
           apply list_elem_of_lookup. exists j. exact Hpre.
        -- assert ((Z.of_nat i =? -1) = false) as E by (apply Z.eqb_neq; lia).
           rewrite E in Hbetter. cbn [orb] in Hbetter.
           apply Z.ltb_lt in Hbetter.
           destruct (Hmin j c Hpre Hc) as [Hle _]. lia.
      * apply orb_false_iff in Hbetter. destruct Hbetter as [Hne Hnlt].
        apply Z.eqb_neq in Hne.
        destruct Hs as [[-> _]|(i & b & -> & -> & Hb & Hcb & Hmin)]; [lia|].
        apply Z.ltb_ge in Hnlt.
        apply IH. right. exists i, b.
        split; [reflexivity|]. split; [reflexivity|].
        assert (i < length pre)%nat by (eapply lookup_lt_Some; exact Hb).
        split; [rewrite lookup_app_l; assumption|]. split; [exact Hcb|].
        intros j c Hj Hc. destruct (Hsplit j c Hj) as [[Hlt Hpre]|[-> ->]].
        -- exact (Hmin j c Hpre Hc).
        -- split; lia.
    + assert (Hnc : ~ candidate npages curbe).
      { intros Hc. apply candidate_test in Hc. congruence. }
      apply IH.
      destruct Hs as [[-> Hnone]|(i & b & -> & -> & Hb & Hcb & Hmin)].
      * left. split; [reflexivity|]. intros c Hc.
        apply elem_of_app in Hc. destruct Hc as [Hc|Hc]; [exact (Hnone c Hc)|].
        apply list_elem_of_singleton in Hc. subst c. exact Hnc.
      * right. exists i, b. split; [reflexivity|]. split; [reflexivity|].
        assert (i < length pre)%nat by (eapply lookup_lt_Some; exact Hb).
        split; [rewrite lookup_app_l; assumption|]. split; [exact Hcb|].
        intros j c Hj Hc. destruct (Hsplit j c Hj) as [[Hlt Hpre]|[-> ->]].
        -- exact (Hmin j c Hpre Hc).
        -- contradiction.
Qed.

Lemma find_buddy_spec (npages : Z) (bl : list buddy_entry) :
  (find_buddy npages bl = -1 /\ forall c, c ∈ bl -> ~ candidate npages c)
  \/ exists (i : nat) (b : buddy_entry),
       find_buddy npages bl = Z.of_nat i /\ best_fit npages bl i b.
Proof.
  destruct (find_buddy_loop_scanned npages bl [] (-1) None) as [cb Hs].
  - left. split; [reflexivity|]. intros c Hc. inversion Hc.
  - cbn in Hs. fold (find_buddy npages bl) in Hs.
    destruct Hs as [Hs|(i & b & E & _ & Hb)]; [left; exact Hs|].
    right. exists i, b. split; assumption.
Qed.

Lemma array_getguy_lookup (bl : list buddy_entry) (i : nat) (b : buddy_entry) :
  bl !! i = Some b -> array_getguy bl (Z.of_nat i) = Ok b.
Proof.
  intros Hb. unfold array_getguy, array_getnum.
  assert (i < length bl)%nat by (eapply lookup_lt_Some; exact Hb).
  destruct (Z.leb_spec 0 (Z.of_nat i)); [|lia].
  destruct (Z.ltb_spec (Z.of_nat i) (Z.of_nat (length bl))); [|lia].
  cbn [andb]. rewrite Nat2Z.id, Hb. reflexivity.
Qed.

Lemma array_getguy_inv (bl : list buddy_entry) (z : Z) (b : buddy_entry) :
  array_getguy bl z = Ok b -> exists i : nat, z = Z.of_nat i /\ bl !! i = Some b.
Proof.
  unfold array_getguy. destruct (Z.leb_spec 0 z); [|discriminate].
  destruct (z <? array_getnum bl); [|discriminate]. cbn [andb].
  destruct (bl !! Z.to_nat z) as [b'|] eqn:Hb; [|discriminate].
  intros [= <-]. exists (Z.to_nat z). split; [lia|exact Hb].
Qed.

Lemma quot2_bounds (x : Z) : 1 <= x -> 0 <= Z.quot x 2 <= x - 1.
Proof.
  intros Hx. rewrite Z.quot_div_nonneg by lia. Z.div_mod_to_equations. lia.
Qed.

(** With enough objects left in the kernel heap the splitting loop returns,
    and the entry it returns starts where the chosen block started. *)
Lemma split_loop_returns (npages buddyi p : Z) :
  1 <= npages ->
  forall (heap : nat) (oldsize nextsize : Z) (be : buddy_entry)
         (bl : list buddy_entry),
  0 <= nextsize <= Z.of_nat heap -> paddr be = p ->
  exists heap' be' bl',
    split_loop heap npages buddyi p oldsize nextsize be bl = Ok (heap', be', bl')
    /\ paddr be' = p.
Proof.
  intros Hn heap. induction heap as [|heap IH]; intros oldsize nextsize be bl Hs Hp.
  - cbn [split_loop]. destruct (Z.geb_spec nextsize npages); [lia|].
    eexists _, _, _. split; [reflexivity|exact Hp].
  - cbn [split_loop]. destruct (Z.geb_spec nextsize npages).
    + apply IH; [|reflexivity].
      pose proof (quot2_bounds nextsize). lia.
    + eexists _, _, _. split; [reflexivity|exact Hp].
Qed.

(** C5.  For a positive request [npages] and a list that holds a free block
    of at least [npages] pages, the slot that [find_buddy] selects holds a
    free block of at least [npages] pages whose [pages] value is the
    smallest among all such blocks, and no such block of the same size comes
    earlier in the list; the allocation hands out this block: with enough
    kernel heap for the split entries [calculate_buddy] returns its
    [paddr]. *)
Theorem find_buddy_best_fit (npages : Z) (bl : list buddy_entry) :
  0 < npages ->
  (exists c, c ∈ bl /\ inuse c = 0 /\ npages <= pages c) ->
  exists (i : nat) (b : buddy_entry),
    find_buddy npages bl = Z.of_nat i
    /\ bl !! i = Some b /\ inuse b = 0 /\ npages <= pages b
    /\ (forall (j : nat) (c : buddy_entry),
          bl !! j = Some c -> inuse c = 0 -> npages <= pages c ->
          pages b <= pages c /\ ((j < i)%nat -> pages b < pages c))
    /\ (forall k : kernel,
          buddylist k = bl -> pages b <= Z.of_nat (kheap k) ->
          exists k', calculate_buddy npages k = Ok (paddr b, k')).
Proof.
  intros Hn (c & Hc & Hfree & Hfit).
  destruct (find_buddy_spec npages bl) as [[_ Hnone]|(i & b & Hi & Hb & Hcb & Hmin)].
  { exfalso. apply (Hnone c Hc). split; assumption. }
  exists i, b. destruct Hcb as [Hbf Hbn].
  split; [exact Hi|]. split; [exact Hb|]. split; [exact Hbf|]. split; [exact Hbn|].
  split.
  - intros j c' Hj Hf Hp. apply (Hmin j c' Hj). split; assumption.
  - intros k Hbl Hheap. unfold calculate_buddy. rewrite Hbl, Hi.
    rewrite (array_getguy_lookup bl i b Hb). cbn [bind].
    destruct (split_loop_returns npages (Z.of_nat i) (paddr b) ltac:(lia)
                (kheap k) (pages b) (Z.quot (pages b) 2) b bl)
      as (heap' & be' & bl' & -> & Hp); [|reflexivity|].
    + pose proof (quot2_bounds (pages b)). lia.
    + cbn [bind paddr]. rewrite Hp. eexists. reflexivity.
Qed.

Lemma find_buddy_best_fit_witness :
  exists (i : nat) (b : buddy_entry),
    find_buddy 12 (buddylist (S4_kernel tlb_empty None)) = Z.of_nat i
    /\ buddylist (S4_kernel tlb_empty None) !! i = Some b
    /\ pages b = 13
    /\ exists k', calculate_buddy 12 (S4_kernel tlb_empty None)
                  = Ok (0x00283000, k').
Proof.
  destruct (find_buddy_best_fit 12 (buddylist (S4_kernel tlb_empty None))
              ltac:(reflexivity))
    as (i & b & Hi & Hb & _ & _ & _ & Halloc).
  { exists (mk_buddy 0x00200000 128 0). split; [|split; [reflexivity|]].
    - apply list_elem_of_here.
    - cbn. discriminate. }
  exists i, b.
  assert (i = 3%nat) as ->.
  { apply Nat2Z.inj. rewrite <- Hi. reflexivity. }
  injection Hb as <-.
  split; [exact Hi|]. split; [reflexivity|]. split; [reflexivity|].
  apply (Halloc (S4_kernel tlb_empty None) eq_refl).
  cbn. discriminate.
Defined.

(** ** Out of memory *)

Lemma find_buddy_none (npages : Z) (bl : list buddy_entry) :
  (forall c, c ∈ bl -> ~ candidate npages c) -> find_buddy npages bl = -1.
Proof.
  intros Hnone.
  destruct (find_buddy_spec npages bl) as [[E _]|(i & b & _ & Hb & Hcb & _)];
    [exact E|].
  exfalso. apply (Hnone b); [|exact Hcb].
  apply list_elem_of_lookup. exists i. exact Hb.
Qed.

(** C1.  After bootstrap, a request for a positive number of pages that no
    free block of the buddy list can hold does not return 0: [find_buddy]
    answers -1, [calculate_buddy] takes item -1 of the array, and the call
    ends in the panic of the failed range assertion. *)
Theorem getppages_oom_panics (npages : Z) (k : kernel) :
  0 < npages < 2 ^ 31 ->
  vm_initialized k <> 0 ->
  (forall c, c ∈ buddylist k -> ~ (inuse c = 0 /\ npages <= pages c)) ->
  getppages npages k = Panic "Assertion failed".
Proof.
  intros Hn Hinit Hnone. unfold getppages, splhigh, splx.
  cbn [vm_initialized set_curspl].
  destruct (Z.eqb_spec (vm_initialized k) 0) as [E|_]; [contradiction|].
  rewrite s32_small by (change (2 ^ 31) with 2147483648 in *; lia).
  unfold calculate_buddy. cbn [buddylist set_curspl].
  rewrite (find_buddy_none npages (buddylist k) Hnone).
  reflexivity.
Qed.

(** The state without a free block is reached by bootstrap and one
    allocation that succeeds. *)
Lemma full_kernel_reachable : reachable 0x00200000 0x00201000 full_kernel.
Proof.
  apply (reach_alloc _ _ (set_buddylist [mk_buddy 0x00200000 1 0] full_kernel)
           1 0x00200000 full_kernel); [|reflexivity].
  apply (reach_bootstrap _ _ full_kernel0); reflexivity.
Qed.

Lemma getppages_oom_panics_witness :
  getppages 1 full_kernel = Panic "Assertion failed".
Proof.
  apply getppages_oom_panics.
  - split; reflexivity.
  - cbn. discriminate.
  - intros c Hc [Hfree _]. cbn in Hc.
    apply list_elem_of_singleton in Hc. subst c. cbn in Hfree. discriminate.
Defined.

(** ** Blocks and the addresses they hold *)

(** Arithmetic on counts: the counts are atoms for [lia]. *)
Ltac cover_lia :=
  repeat match goal with
  | |- context [cover1 ?a ?b] =>
    let n := fresh "n" in set (n := cover1 a b) in *; clearbody n
  | |- context [cover_count ?a ?b] =>
    let n := fresh "n" in set (n := cover_count a b) in *; clearbody n
  | H : context [cover1 ?a ?b] |- _ =>
    let n := fresh "n" in set (n := cover1 a b) in *; clearbody n
  | H : context [cover_count ?a ?b] |- _ =>
    let n := fresh "n" in set (n := cover_count a b) in *; clearbody n
  end; lia.

Lemma cover_count_app (a : Z) (l1 l2 : list buddy_entry) :
  cover_count a (l1 ++ l2) = (cover_count a l1 + cover_count a l2)%nat.
Proof.
  induction l1 as [|b l1 IH]; cbn [cover_count app]; [reflexivity|].
  rewrite IH. apply Nat.add_assoc.
Qed.

Lemma cover_count_insert (a : Z) (x : buddy_entry) (bl : list buddy_entry) :
  forall (i : nat) (b : buddy_entry),
  bl !! i = Some b ->
  (cover_count a (<[i := x]> bl) + cover1 a b
   = cover_count a bl + cover1 a x)%nat.
Proof.
  induction bl as [|c bl IH]; intros i b Hb; [discriminate|].
  destruct i as [|i].
  - change (<[0%nat := x]> (c :: bl)) with (x :: bl).
    injection Hb as ->. cbn [cover_count]. cover_lia.
  - change (<[S i := x]> (c :: bl)) with (c :: <[i := x]> bl).
    change (bl !! i = Some b) in Hb.
    specialize (IH i b Hb). cbn [cover_count]. cover_lia.
Qed.

Lemma cover1_same (a : Z) (b c : buddy_entry) :
  paddr c = paddr b -> pages c = pages b -> cover1 a c = cover1 a b.
Proof. intros Hp Hs. unfold cover1, covers. rewrite Hp, Hs. reflexivity. Qed.

Lemma cover1_split (a p size half : Z) (u1 u2 u3 : Z) :
  0 <= half <= size ->
  cover1 a (mk_buddy p size u1)
  = (cover1 a (mk_buddy p half u2)
     + cover1 a (mk_buddy (p + half * PAGE_SIZE) (size - half) u3))%nat.
Proof.
  intros Hh. unfold cover1, covers, PAGE_SIZE. cbn [paddr pages].
  repeat match goal with
  | |- context [?x <=? ?y] => destruct (Z.leb_spec x y)
  | |- context [?x <? ?y] => destruct (Z.ltb_spec x y)
  end; cbn [andb]; lia.
Qed.

Lemma cover_count_lookup (a : Z) (bl : list buddy_entry) :
  forall (i : nat) (b : buddy_entry),
  bl !! i = Some b -> covers a b = true -> (1 <= cover_count a bl)%nat.
Proof.
  induction bl as [|c bl IH]; intros i b Hb Hc; [discriminate|].
  destruct i as [|i]; cbn [cover_count].
  - injection Hb as ->. unfold cover1. rewrite Hc. cover_lia.
  - change (bl !! i = Some b) in Hb. specialize (IH i b Hb Hc). cover_lia.
Qed.

(** An address that lies in the blocks of two slots is counted twice. *)
Lemma cover_count_two (a : Z) (bl : list buddy_entry) :
  forall (i j : nat) (b c : buddy_entry),
  (i < j)%nat -> bl !! i = Some b -> bl !! j = Some c ->
  covers a b = true -> covers a c = true -> (2 <= cover_count a bl)%nat.
Proof.
  induction bl as [|d bl IH]; intros i j b c Hij Hb Hc Cb Cc; [discriminate|].
  destruct j as [|j]; [lia|]. change (bl !! j = Some c) in Hc.
  destruct i as [|i]; cbn [cover_count].
  - injection Hb as ->. unfold cover1 at 1. rewrite Cb.
    pose proof (cover_count_lookup a bl j c Hc Cc). cover_lia.
  - change (bl !! i = Some b) in Hb. assert (i < j)%nat by lia.
    specialize (IH i j b c H Hb Hc Cb Cc). cover_lia.
Qed.

Lemma cover_count_positive (a : Z) (bl : list buddy_entry) :
  (1 <= cover_count a bl)%nat ->
  exists b, b ∈ bl /\ covers a b = true.
Proof.
  induction bl as [|c bl IH]; cbn [cover_count]; [lia|].
  intros H. destruct (covers a c) eqn:Hc.
  - exists c. split; [apply list_elem_of_here|exact Hc].
  - unfold cover1 in H. rewrite Hc in H.
    destruct IH as (b & Hb & Hcb); [lia|].
    exists b. split; [apply list_elem_of_further; exact Hb|exact Hcb].
Qed.

(** ** The splitting loop *)

Lemma split_loop_nonpos (npages buddyi p : Z) :
  npages <= 0 ->
  forall (heap : nat) (oldsize nextsize : Z) (be : buddy_entry)
         (bl : list buddy_entry),
  0 <= nextsize ->
  split_loop heap npages buddyi p oldsize nextsize be bl
  = Panic "vm: could not calculate next buddy".
Proof.
  intros Hn heap. induction heap as [|heap IH]; intros oldsize nextsize be bl Hs;
    cbn [split_loop]; destruct (Z.geb_spec nextsize npages); try lia.
  - reflexivity.
  - apply IH. apply Z.quot_pos; lia.
Qed.

Lemma split_step (lo hi npages : Z) (i : nat) (p : Z)
    (bl0 : list buddy_entry) (be : buddy_entry) (bl : list buddy_entry) :
  hi < 2 ^ 32 -> 1 <= npages ->
  split_state lo hi npages i p bl0 be bl ->
  npages <= Z.quot (pages be) 2 ->
  split_state lo hi npages i p bl0
    (mk_buddy p (Z.quot (pages be) 2) 0)
    (array_add
       (array_setguy bl (Z.of_nat i) (mk_buddy p (Z.quot (pages be) 2) 0))
       (mk_buddy (u32 (p + Z.quot (pages be) 2 * PAGE_SIZE))
                 (pages be - Z.quot (pages be) 2) 0)).
Proof.
  intros Hhi Hn [Hcov Hblocks Hpages Hslot Hp Hfree Hfit Hkeep Hold] Hhalf.
  unfold array_add, array_setguy. rewrite Nat2Z.id.
  set (half := Z.quot (pages be) 2) in *.
  assert (Hi : (i < length bl)%nat) by (eapply lookup_lt_Some; exact Hslot).
  assert (Hbe : block_ok lo hi be)
    by (eapply Forall_lookup_1; [exact Hblocks|exact Hslot]).
  destruct Hbe as (Hal & Hnonneg & Hlo & Hend).
  apply page_aligned_iff in Hal. rewrite Hp in Hal, Hlo, Hend.
  assert (Hq : pages be = 2 * half \/ pages be = 2 * half + 1).
  { subst half. rewrite Z.quot_div_nonneg by lia. Z.div_mod_to_equations. lia. }
  assert (Hu : u32 (p + half * PAGE_SIZE) = p + half * PAGE_SIZE).
  { apply u32_small. unfold PAGE_SIZE in *. lia. }
  rewrite Hu.
  split.
  - intros a. rewrite cover_count_app, <- Hcov. cbn [cover_count].
    pose proof (cover_count_insert a (mk_buddy p half 0) bl i be Hslot) as E.
    assert (cover1 a be = cover1 a (mk_buddy p (pages be) 0)) as E1
      by (apply cover1_same; [exact Hp|reflexivity]).
    rewrite (cover1_split a p (pages be) half 0 0 0) in E1 by lia.
    cover_lia.
  - apply Forall_app. split.
    + apply Forall_insert; [exact Hblocks|].
      unfold block_ok. cbn [paddr pages].
      split; [apply page_aligned_iff; exact Hal|].
      unfold PAGE_SIZE in *. lia.
    + apply Forall_singleton. unfold block_ok. cbn [paddr pages].
      split; [apply page_aligned_iff|]; unfold PAGE_SIZE in *.
      * split; [lia|]. destruct Hal as [_ Hm]. Z.div_mod_to_equations. lia.
      * lia.
  - apply Forall_app. split.
    + apply Forall_insert; [exact Hpages|]. cbn [pages]. lia.
    + apply Forall_singleton. cbn [pages]. lia.
  - rewrite lookup_app_l by (rewrite length_insert; exact Hi).
    apply list_lookup_insert_eq. exact Hi.
  - reflexivity.
  - reflexivity.
  - cbn [pages]. exact Hhalf.
  - intros j c Hne Hj. specialize (Hkeep j c Hne Hj).
    assert (j < length bl)%nat by (eapply lookup_lt_Some; exact Hkeep).
    rewrite lookup_app_l by (rewrite length_insert; assumption).
    rewrite list_lookup_insert_ne by congruence. exact Hkeep.
  - intros j c Hj Huse.
    destruct (decide (j < length bl)%nat) as [Hlt|Hge].
    + rewrite lookup_app_l in Hj by (rewrite length_insert; exact Hlt).
      destruct (decide (j = i)) as [->|Hne].
      * rewrite list_lookup_insert_eq in Hj by exact Hi.
        injection Hj as <-. cbn in Huse. congruence.
      * rewrite list_lookup_insert_ne in Hj by congruence.
        exact (Hold j c Hj Huse).
    + rewrite lookup_app_r in Hj by (rewrite length_insert; lia).
      rewrite length_insert in Hj.
      destruct (j - length bl)%nat; cbn in Hj; [|discriminate].
      injection Hj as <-. cbn in Huse. congruence.
Qed.

Lemma split_loop_state (lo hi npages : Z) (i : nat) (p : Z)
    (bl0 : list buddy_entry) :
  hi < 2 ^ 32 -> 1 <= npages ->
  forall (heap : nat) (be : buddy_entry) (bl : list buddy_entry)
         (heap' : nat) (be' : buddy_entry) (bl' : list buddy_entry),
  split_state lo hi npages i p bl0 be bl ->
  split_loop heap npages (Z.of_nat i) p (pages be) (Z.quot (pages be) 2) be bl
  = Ok (heap', be', bl') ->
  split_state lo hi npages i p bl0 be' bl'.
Proof.
  intros Hhi Hn heap.
  induction heap as [|heap IH]; intros be bl heap' be' bl' Hst;
    cbn [split_loop]; destruct (Z.geb_spec (Z.quot (pages be) 2) npages) as [Hge|Hlt];
    try discriminate; try (intros [= <- <- <-]; exact Hst).
  intros Hrun.
  eapply (IH (mk_buddy p (Z.quot (pages be) 2) 0)); [|exact Hrun].
  apply split_step; assumption.
Qed.

(** ** An allocation *)

Lemma cover_count_mark (a : Z) (bl : list buddy_entry) (i : nat)
    (b x : buddy_entry) :
  bl !! i = Some b -> paddr x = paddr b -> pages x = pages b ->
  cover_count a (<[i := x]> bl) = cover_count a bl.
Proof.
  intros Hb Hp Hs.
  pose proof (cover_count_insert a x bl i b Hb) as E.
  rewrite (cover1_same a b x Hp Hs) in E. cover_lia.
Qed.

Lemma calculate_buddy_allocated (lo hi npages : Z) (k : kernel) (addr : Z)
    (k' : kernel) :
  hi < 2 ^ 32 ->
  buddy_inv lo hi (buddylist k) ->
  calculate_buddy npages k = Ok (addr, k') ->
  allocated lo hi npages (buddylist k) addr (buddylist k')
  /\ vm_initialized k' = vm_initialized k /\ curspl k' = curspl k.
Proof.
  intros Hhi [Hcov Hblocks Hpages]. unfold calculate_buddy.
  destruct (array_getguy (buddylist k) (find_buddy npages (buddylist k)))
    as [b|] eqn:Hget; [|discriminate].
  cbn [bind].
  destruct (array_getguy_inv _ _ _ Hget) as (i & Hi & Hb).
  assert (Hcand : candidate npages b).
  { destruct (find_buddy_spec npages (buddylist k))
      as [[E _]|(i' & b' & E & Hb' & Hc & _)]; [lia|].
    assert (i' = i) as -> by lia. congruence. }
  destruct Hcand as [Hfree Hfit].
  assert (Hbok : block_ok lo hi b)
    by (eapply Forall_lookup_1; [exact Hblocks|exact Hb]).
  rewrite Hi.
  destruct (split_loop _ _ _ _ _ _ _ _) as [[[heap' be'] bl']|] eqn:Hloop;
    [|discriminate].
  cbn [bind]. intros [= <- <-].
  cbn [buddylist vm_initialized curspl set_kheap set_buddylist].
  split; [|split; reflexivity].
  assert (Hn : 1 <= npages).
  { destruct (Z.le_gt_cases npages 0) as [Hle|]; [|lia].
    rewrite split_loop_nonpos in Hloop; [discriminate|exact Hle|].
    apply Z.quot_pos; [|lia]. destruct Hbok as (_ & ? & _). assumption. }
  assert (Hst0 : split_state lo hi npages i (paddr b) (buddylist k) b (buddylist k)).
  { split; try reflexivity; try assumption; try tauto.
    destruct Hpages as [Hone|Hall]; [|exact Hall].
    destruct (buddylist k) as [|c [|d l]] eqn:Hbl; try discriminate.
    destruct i as [|i]; [|discriminate]. injection Hb as ->.
    apply Forall_singleton. lia. }
  destruct (split_loop_state lo hi npages i (paddr b) (buddylist k) Hhi Hn
              _ _ _ _ _ _ Hst0 Hloop)
    as [Scov Sblocks Spages Sslot Sp Sfree Sfit Skeep Sold].
  unfold array_setguy. rewrite Nat2Z.id.
  assert (Hlt : (i < length bl')%nat) by (eapply lookup_lt_Some; exact Sslot).
  split.
  - split.
    + intros a. rewrite (cover_count_mark a bl' i be') by (exact Sslot || reflexivity).
      rewrite Scov. apply Hcov.
    + apply Forall_insert; [exact Sblocks|].
      exact (Forall_lookup_1 _ _ _ _ Sblocks Sslot).
    + right. apply Forall_insert; [exact Spages|].
      exact (Forall_lookup_1 _ _ _ _ Spages Sslot).
  - exact Hn.
  - exists i, b, (mk_buddy (paddr be') (pages be') 1).
    split; [exact Hb|]. split; [exact Hfree|].
    split; [apply list_lookup_insert_eq; exact Hlt|].
    split; [reflexivity|]. split; [reflexivity|]. split; [exact Sfit|].
    intros j c Hj Huse. destruct (decide (j = i)) as [->|Hne]; [left; reflexivity|].
    right. rewrite list_lookup_insert_ne in Hj by congruence.
    exact (Sold j c Hj Huse).
  - intros j c Hj Huse.
    assert (j <> i) by (intros ->; congruence).
    rewrite list_lookup_insert_ne by congruence.
    exact (Skeep j c H Hj).
Qed.

Lemma getppages_allocated (lo hi npages : Z) (k : kernel) (addr : Z)
    (k' : kernel) :
  hi < 2 ^ 32 ->
  vm_initialized k <> 0 ->
  buddy_inv lo hi (buddylist k) ->
  getppages npages k = Ok (addr, k') ->
  allocated lo hi (s32 npages) (buddylist k) addr (buddylist k')
  /\ vm_initialized k' = vm_initialized k /\ curspl k' = curspl k.
Proof.
  intros Hhi Hinit Hinv. unfold getppages, splhigh, splx.
  cbn [vm_initialized set_curspl].
  destruct (Z.eqb_spec (vm_initialized k) 0) as [E|_]; [contradiction|].
  destruct (calculate_buddy _ _) as [[a k1]|] eqn:Hcalc; [|discriminate].
  cbn [bind]. intros [= <- <-].
  destruct (calculate_buddy_allocated lo hi _ (set_curspl SPL_HIGH k) _ _
              Hhi Hinv Hcalc) as (Hal & Hvi & _).
  cbn [buddylist vm_initialized curspl set_curspl] in *.
  split; [exact Hal|]. split; [exact Hvi|reflexivity].
Qed.

(** ** A free *)

Lemma freeppage_loop_length (addr : Z) (bl : list buddy_entry) :
  length (freeppage_loop addr bl) = length bl.
Proof.
  induction bl as [|b bl IH]; [reflexivity|]. cbn [freeppage_loop].
  destruct (paddr b =? addr); cbn [length]; [reflexivity|].
  rewrite IH. reflexivity.
Qed.

Lemma freeppage_loop_cover (a addr : Z) (bl : list buddy_entry) :
  cover_count a (freeppage_loop addr bl) = cover_count a bl.
Proof.
  induction bl as [|b bl IH]; [reflexivity|]. cbn [freeppage_loop].
  destruct (paddr b =? addr); cbn [cover_count].
  - f_equal.
  - rewrite IH. reflexivity.
Qed.

Lemma freeppage_loop_Forall (P : buddy_entry -> Prop) (addr : Z)
    (bl : list buddy_entry) :
  (forall b, P b -> P (mk_buddy (paddr b) (pages b) 0)) ->
  Forall P bl -> Forall P (freeppage_loop addr bl).
Proof.
  intros HP. induction 1 as [|b bl Hb Hbl IH]; [constructor|].
  cbn [freeppage_loop]. destruct (paddr b =? addr); constructor; auto.
Qed.

Lemma freeppage_loop_inv (lo hi addr : Z) (bl : list buddy_entry) :
  buddy_inv lo hi bl -> buddy_inv lo hi (freeppage_loop addr bl).
Proof.
  intros [Hcov Hblocks Hpages]. split.
  - intros a. rewrite freeppage_loop_cover. apply Hcov.
  - apply freeppage_loop_Forall; [|exact Hblocks]. intros b Hb. exact Hb.
  - rewrite freeppage_loop_length. destruct Hpages as [H|H]; [left; exact H|].
    right. apply freeppage_loop_Forall; [|exact H]. intros b Hb. exact Hb.
Qed.

(** Every slot keeps its extent over a free, and is in use afterwards only
    if it was before. *)
Lemma freeppage_loop_lookup (addr : Z) (bl : list buddy_entry) :
  forall (j : nat) (c : buddy_entry),
  freeppage_loop addr bl !! j = Some c ->
  exists b, bl !! j = Some b /\ paddr c = paddr b /\ pages c = pages b
            /\ (c = b \/ (inuse c = 0 /\ paddr b = addr)).
Proof.
  induction bl as [|b bl IH]; intros j c Hj; [discriminate|].
  cbn [freeppage_loop] in Hj. destruct (Z.eqb_spec (paddr b) addr) as [E|E].
  - destruct j as [|j].
    + injection Hj as <-. exists b.
      split; [reflexivity|]. split; [reflexivity|]. split; [reflexivity|].
      right. split; [reflexivity|exact E].
    + exists c. change (bl !! j = Some c) in Hj.
      split; [exact Hj|]. split; [reflexivity|]. split; [reflexivity|].
      left. reflexivity.
  - destruct j as [|j].
    + injection Hj as <-. exists b.
      split; [reflexivity|]. split; [reflexivity|]. split; [reflexivity|].
      left. reflexivity.
    + change (freeppage_loop addr bl !! j = Some c) in Hj.
      destruct (IH j c Hj) as (b' & H1 & H2). exists b'.
      split; [exact H1|exact H2].
Qed.

(** ** Bootstrap *)

Lemma vm_bootstrap_buddylist (lo hi : Z) (k0 k : kernel) :
  ram_ok lo hi ->
  firstpaddr k0 = lo -> lastpaddr k0 = hi ->
  vm_bootstrap k0 = Ok k ->
  buddylist k = [mk_buddy lo ((hi - lo) / PAGE_SIZE) 0]
  /\ vm_initialized k = 1.
Proof.
  intros (Hlo & Hhi & Hle) Hf Hl. unfold vm_bootstrap.
  destruct (kheap k0) as [|h]; [discriminate|].
  unfold ram_getsize. cbn [firstpaddr lastpaddr set_kheap].
  rewrite Hf, Hl. intros [= <-].
  cbn [buddylist vm_initialized set_vm_initialized set_buddylist array_add app].
  split; [|reflexivity].
  apply page_aligned_iff in Hlo, Hhi.
  rewrite u32_small by lia.
  rewrite s32_small; [reflexivity|].
  unfold PAGE_SIZE. change (2 ^ 31) with 2147483648.
  change (2 ^ 32) with 4294967296 in *. Z.div_mod_to_equations. lia.
Qed.

Lemma bootstrap_inv (lo hi : Z) :
  ram_ok lo hi -> buddy_inv lo hi [mk_buddy lo ((hi - lo) / PAGE_SIZE) 0].
Proof.
  intros (Hlo & Hhi & Hle).
  pose proof Hlo as Hlo'. apply page_aligned_iff in Hlo', Hhi.
  assert (E : (hi - lo) / PAGE_SIZE * PAGE_SIZE = hi - lo).
  { unfold PAGE_SIZE in *. Z.div_mod_to_equations. lia. }
  split.
  - intros a. cbn [cover_count]. unfold cover1, covers, in_ram.
    cbn [paddr pages]. rewrite E.
    replace (lo + (hi - lo)) with hi by lia.
    destruct ((lo <=? a) && (a <? hi)); reflexivity.
  - apply Forall_singleton. unfold block_ok. cbn [paddr pages].
    rewrite E. split; [exact Hlo|].
    split; [apply Z.div_pos; [lia|reflexivity]|lia].
  - left. reflexivity.
Qed.

(** ** The invariant of the reachable states *)

Lemma reachable_inv (lo hi : Z) (k : kernel) :
  ram_ok lo hi -> reachable lo hi k ->
  buddy_inv lo hi (buddylist k) /\ vm_initialized k = 1.
Proof.
  intros Hram Hreach.
  assert (Hhi : hi < 2 ^ 32).
  { destruct Hram as (_ & H & _). apply page_aligned_iff in H. lia. }
  induction Hreach as [k0 k Hf Hl Hboot|k npages addr k' _ IH Halloc
                      |k addr _ IH|k k' _ IH Hbl Hvi].
  - destruct (vm_bootstrap_buddylist lo hi k0 k Hram Hf Hl Hboot) as [-> ->].
    split; [apply bootstrap_inv; exact Hram|reflexivity].
  - destruct IH as [Hinv Hinit].
    destruct (getppages_allocated lo hi npages k addr k' Hhi) as ([Hinv' _ _ _] & Hvi & _);
      [lia|exact Hinv|exact Halloc|].
    split; [exact Hinv'|congruence].
  - destruct IH as [Hinv Hinit]. cbn [freeppage buddylist vm_initialized set_buddylist].
    split; [apply freeppage_loop_inv; exact Hinv|exact Hinit].
  - rewrite Hbl, Hvi. exact IH.
Qed.

Lemma covers_iff (a : Z) (b : buddy_entry) :
  covers a b = true <-> paddr b <= a < paddr b + pages b * PAGE_SIZE.
Proof.
  unfold covers. rewrite andb_true_iff, Z.leb_le, Z.ltb_lt. reflexivity.
Qed.

Lemma buddy_inv_count_le (lo hi a : Z) (bl : list buddy_entry) :
  buddy_inv lo hi bl -> (cover_count a bl <= 1)%nat.
Proof.
  intros [Hcov _ _]. rewrite Hcov. destruct (in_ram lo hi a); lia.
Qed.

(** No address lies in the blocks of two slots. *)
Lemma buddy_inv_no_overlap (lo hi a : Z) (bl : list buddy_entry)
    (i j : nat) (b c : buddy_entry) :
  buddy_inv lo hi bl ->
  bl !! i = Some b -> bl !! j = Some c -> i <> j ->
  covers a b = true -> covers a c = true -> False.
Proof.
  intros Hinv Hb Hc Hne Cb Cc.
  pose proof (buddy_inv_count_le lo hi a bl Hinv) as Hle.
  destruct (Nat.lt_total i j) as [Hlt|[->|Hlt]]; [|congruence|].
  - pose proof (cover_count_two a bl i j b c Hlt Hb Hc Cb Cc). lia.
  - pose proof (cover_count_two a bl j i c b Hlt Hc Hb Cc Cb). lia.
Qed.

(** C4.  In every state that is reachable after bootstrap on a RAM range
    [lo, hi) of whole pages, an address lies in [lo, hi) exactly when it
    lies in a block of the buddy list, and no address lies in the blocks of
    two slots; bootstrap starts from the single block of
    [(hi - lo) / PAGE_SIZE] pages at [lo], and every returning allocation
    and every free are steps of [reachable]. *)
Theorem buddylist_tiles_ram (lo hi : Z) (k : kernel) :
  ram_ok lo hi ->
  reachable lo hi k ->
  (forall a : Z,
     lo <= a < hi <->
     exists b, b ∈ buddylist k
               /\ paddr b <= a < paddr b + pages b * PAGE_SIZE)
  /\ (forall (i j : nat) (b c : buddy_entry) (a : Z),
        buddylist k !! i = Some b -> buddylist k !! j = Some c -> i <> j ->
        paddr b <= a < paddr b + pages b * PAGE_SIZE ->
        paddr c <= a < paddr c + pages c * PAGE_SIZE -> False)
  /\ (forall k0 k1 : kernel,
        firstpaddr k0 = lo -> lastpaddr k0 = hi -> vm_bootstrap k0 = Ok k1 ->
        buddylist k1 = [mk_buddy lo ((hi - lo) / PAGE_SIZE) 0]).
Proof.
  intros Hram Hreach.
  destruct (reachable_inv lo hi k Hram Hreach) as [Hinv _].
  split; [|split].
  - intros a. pose proof (inv_cover _ _ _ Hinv a) as Hc. unfold in_ram in Hc.
    split.
    + intros Ha.
      destruct (Z.leb_spec lo a); [|lia]. destruct (Z.ltb_spec a hi); [|lia].
      cbn [andb] in Hc.
      destruct (cover_count_positive a (buddylist k)) as (b & Hb & Hcb); [lia|].
      exists b. split; [exact Hb|]. apply covers_iff. exact Hcb.
    + intros (b & Hb & Hab). apply covers_iff in Hab.
      apply list_elem_of_lookup in Hb. destruct Hb as [i Hi].
      pose proof (cover_count_lookup a _ i b Hi Hab) as Hpos.
      destruct (Z.leb_spec lo a); destruct (Z.ltb_spec a hi);
        cbn [andb] in Hc; lia.
  - intros i j b c a Hb Hc Hne Ab Ac.
    apply covers_iff in Ab, Ac.
    exact (buddy_inv_no_overlap lo hi a _ i j b c Hinv Hb Hc Hne Ab Ac).
  - intros k0 k1 Hf Hl Hboot.
    exact (proj1 (vm_bootstrap_buddylist lo hi k0 k1 Hram Hf Hl Hboot)).
Qed.

Lemma S2_reachable : reachable 0x00200000 0x00a00000 S2_kernel.
Proof.
  apply (reach_alloc _ _ S1_booted 1 0x00200000 S2_kernel); [|reflexivity].
  apply (reach_bootstrap _ _ S1_kernel S1_booted); reflexivity.
Qed.

Lemma S1_ram_ok : ram_ok 0x00200000 0x00a00000.
Proof. repeat split. discriminate. Qed.

Lemma buddylist_tiles_ram_witness :
  vm_bootstrap S1_kernel = Ok S1_booted
  /\ getppages 1 S1_booted = Ok (0x00200000, S2_kernel)
  /\ forall a : Z,
       0x00200000 <= a < 0x00a00000 <->
       exists b, b ∈ buddylist S2_kernel
                 /\ paddr b <= a < paddr b + pages b * PAGE_SIZE.
Proof.
  split; [reflexivity|]. split; [reflexivity|].
  exact (proj1 (buddylist_tiles_ram 0x00200000 0x00a00000 S2_kernel
                  S1_ram_ok S2_reachable)).
Defined.

(** ** Block bases are unique *)

Lemma buddy_inv_paddr_inj (lo hi : Z) (bl : list buddy_entry)
    (i j : nat) (b c : buddy_entry) :
  buddy_inv lo hi bl ->
  bl !! i = Some b -> bl !! j = Some c -> paddr b = paddr c -> i = j.
Proof.
  intros Hinv Hb Hc Hp.
  destruct (decide (i = j)) as [E|Hne]; [exact E|exfalso].
  assert (Hall : Forall (fun b => 1 <= pages b) bl).
  { destruct (inv_pages _ _ _ Hinv) as [Hone|Hall]; [|exact Hall].
    apply lookup_lt_Some in Hb, Hc. lia. }
  pose proof (Forall_lookup_1 _ _ _ _ Hall Hb) as Pb.
  pose proof (Forall_lookup_1 _ _ _ _ Hall Hc) as Pc.
  cbn beta in Pb, Pc.
  apply (buddy_inv_no_overlap lo hi (paddr b) bl i j b c Hinv Hb Hc Hne);
    apply covers_iff; unfold PAGE_SIZE; lia.
Qed.

Lemma freeppage_loop_unique (bl : list buddy_entry) :
  forall (i : nat) (b : buddy_entry),
  (forall (j : nat) (c : buddy_entry),
     bl !! j = Some c -> paddr c = paddr b -> j = i) ->
  bl !! i = Some b ->
  freeppage_loop (paddr b) bl = <[i := mk_buddy (paddr b) (pages b) 0]> bl.
Proof.
  induction bl as [|d bl IH]; intros i b Huniq Hb; [discriminate|].
  cbn [freeppage_loop]. destruct i as [|i].
  - injection Hb as ->. rewrite Z.eqb_refl. reflexivity.
  - change (bl !! i = Some b) in Hb.
    destruct (Z.eqb_spec (paddr d) (paddr b)) as [E|_].
    + specialize (Huniq 0%nat d eq_refl E). discriminate.
    + change (<[S i := ?x]> (d :: bl)) with (d :: <[i := x]> bl).
      f_equal. apply IH; [|exact Hb].
      intros j c Hj Hp. specialize (Huniq (S j) c Hj Hp). lia.
Qed.

(** C8.  In every state that is reachable after bootstrap no two slots of
    the buddy list hold blocks with the same [paddr]; the scan of
    [freeppage] for the base of a block therefore clears [inuse] on that
    block and leaves every other slot as it is. *)
Theorem buddylist_paddr_unique (lo hi : Z) (k : kernel) :
  ram_ok lo hi ->
  reachable lo hi k ->
  NoDup (map paddr (buddylist k))
  /\ (forall (i j : nat) (b c : buddy_entry),
        buddylist k !! i = Some b -> buddylist k !! j = Some c ->
        paddr b = paddr c -> i = j)
  /\ (forall (i : nat) (b : buddy_entry),
        buddylist k !! i = Some b ->
        buddylist (freeppage (paddr b) k)
        = <[i := mk_buddy (paddr b) (pages b) 0]> (buddylist k)).
Proof.
  intros Hram Hreach.
  destruct (reachable_inv lo hi k Hram Hreach) as [Hinv _].
  assert (Hinj : forall (i j : nat) (b c : buddy_entry),
            buddylist k !! i = Some b -> buddylist k !! j = Some c ->
            paddr b = paddr c -> i = j).
  { intros i j b c. apply (buddy_inv_paddr_inj lo hi); exact Hinv. }
  split; [|split].
  - apply NoDup_alt. intros i j p Hi Hj.
    change (map paddr (buddylist k)) with (paddr <$> buddylist k) in Hi, Hj.
    rewrite list_lookup_fmap in Hi, Hj.
    destruct (buddylist k !! i) as [b|] eqn:Hb; [|discriminate].
    destruct (buddylist k !! j) as [c|] eqn:Hc; [|discriminate].
    cbn in Hi, Hj. apply (Hinj i j b c Hb Hc). congruence.
  - exact Hinj.
  - intros i b Hb. cbn [freeppage buddylist set_buddylist].
    apply freeppage_loop_unique; [|exact Hb].
    intros j c Hj Hp. exact (Hinj j i c b Hj Hb Hp).
Qed.

Lemma buddylist_paddr_unique_witness :
  NoDup (map paddr (buddylist S2_kernel))
  /\ buddylist (freeppage 0x00200000 S2_kernel)
     = <[0%nat := mk_buddy 0x00200000 1 0]> (buddylist S2_kernel).
Proof.
  destruct (buddylist_paddr_unique 0x00200000 0x00a00000 S2_kernel
              S1_ram_ok S2_reachable) as (Hnd & _ & Hfree).
  split; [exact Hnd|].
  exact (Hfree 0%nat (mk_buddy 0x00200000 1 1) eq_refl).
Defined.

(** ** Reserving the frames of an address space *)

Lemma buddy_inv_ranges_disjoint (lo hi : Z) (bl : list buddy_entry)
    (i j : nat) (b c : buddy_entry) (n m : Z) :
  buddy_inv lo hi bl ->
  bl !! i = Some b -> bl !! j = Some c -> i <> j ->
  0 < n <= pages b -> 0 < m <= pages c ->
  paddr b + n * PAGE_SIZE <= paddr c \/ paddr c + m * PAGE_SIZE <= paddr b.
Proof.
  intros Hinv Hb Hc Hne Hn Hm.
  destruct (Z_le_gt_dec (paddr b + n * PAGE_SIZE) (paddr c)) as [H1|H1];
    [left; exact H1|].
  destruct (Z_le_gt_dec (paddr c + m * PAGE_SIZE) (paddr b)) as [H2|H2];
    [right; exact H2|].
  exfalso.
  apply (buddy_inv_no_overlap lo hi (Z.max (paddr b) (paddr c)) bl i j b c
           Hinv Hb Hc Hne);
    apply covers_iff; unfold PAGE_SIZE in *; lia.
Qed.

Lemma s32_pos_u32 (x : Z) : is_u32 x -> 1 <= s32 x -> s32 x = x.
Proof.
  unfold is_u32, s32. change (2 ^ 32) with 4294967296.
  change (2 ^ 31) with 2147483648. intros Hx Hs.
  Z.div_mod_to_equations. lia.
Qed.

Lemma as_prepare_load_success (as_ : addrspace) (k : kernel)
    (as' : addrspace) (k' : kernel) :
  as_prepare_load as_ k = Ok (ESUCCESS, as', k') ->
  exists (pa1 : Z) (k1 : kernel) (pa2 : Z) (k2 : kernel) (pa3 : Z),
    getppages (as_npages1 as_) k = Ok (pa1, k1)
    /\ getppages (as_npages2 as_) k1 = Ok (pa2, k2)
    /\ getppages DUMBVM_STACKPAGES k2 = Ok (pa3, k')
    /\ pa1 <> 0 /\ pa2 <> 0 /\ pa3 <> 0
    /\ as' = set_as_stackpbase pa3 (set_as_pbase2 pa2 (set_as_pbase1 pa1 as_)).
Proof.
  unfold as_prepare_load.
  destruct (as_pbase1 as_ =? 0); cbn [assert bind]; [|discriminate].
  destruct (as_pbase2 as_ =? 0); cbn [assert bind]; [|discriminate].
  destruct (as_stackpbase as_ =? 0); cbn [assert bind]; [|discriminate].
  destruct (getppages (as_npages1 as_) k) as [[pa1 k1]|] eqn:G1; [|discriminate].
  cbn [bind as_pbase1 set_as_pbase1 as_npages2].
  destruct (Z.eqb_spec pa1 0) as [|N1]; [discriminate|].
  destruct (getppages (as_npages2 as_) k1) as [[pa2 k2]|] eqn:G2; [|discriminate].
  cbn [bind as_pbase2 set_as_pbase2].
  destruct (Z.eqb_spec pa2 0) as [|N2]; [discriminate|].
  destruct (getppages DUMBVM_STACKPAGES k2) as [[pa3 k3]|] eqn:G3; [|discriminate].
  cbn [bind as_stackpbase set_as_stackpbase].
  destruct (Z.eqb_spec pa3 0) as [|N3]; [discriminate|].
  intros [= <- <-]. exists pa1, k1, pa2, k2, pa3.
  repeat split; try assumption; reflexivity.
Qed.

(** C6.  For an address space with [npages1 > 0] and [npages2 > 0], in a
    state that is reachable after bootstrap, when [as_prepare_load] returns
    0 the three bases are nonzero and page-aligned, the layout is unchanged,
    and the physical ranges of [npages1], [npages2] and 12 pages that start
    at them are pairwise disjoint. *)
Theorem as_prepare_load_disjoint (lo hi : Z) (as_ : addrspace) (k : kernel)
    (as' : addrspace) (k' : kernel) :
  ram_ok lo hi ->
  reachable lo hi k ->
  is_u32 (as_npages1 as_) -> is_u32 (as_npages2 as_) ->
  0 < as_npages1 as_ -> 0 < as_npages2 as_ ->
  as_prepare_load as_ k = Ok (ESUCCESS, as', k') ->
  (as_pbase1 as' <> 0 /\ as_pbase2 as' <> 0 /\ as_stackpbase as' <> 0)
  /\ (page_aligned (as_pbase1 as') = true
      /\ page_aligned (as_pbase2 as') = true
      /\ page_aligned (as_stackpbase as') = true)
  /\ (as_npages1 as' = as_npages1 as_ /\ as_npages2 as' = as_npages2 as_)
  /\ (as_pbase1 as' + as_npages1 as' * PAGE_SIZE <= as_pbase2 as'
      \/ as_pbase2 as' + as_npages2 as' * PAGE_SIZE <= as_pbase1 as')
  /\ (as_pbase1 as' + as_npages1 as' * PAGE_SIZE <= as_stackpbase as'
      \/ as_stackpbase as' + DUMBVM_STACKPAGES * PAGE_SIZE <= as_pbase1 as')
  /\ (as_pbase2 as' + as_npages2 as' * PAGE_SIZE <= as_stackpbase as'
      \/ as_stackpbase as' + DUMBVM_STACKPAGES * PAGE_SIZE <= as_pbase2 as').
Proof.
  intros Hram Hreach U1 U2 P1 P2 Hrun.
  assert (Hhi : hi < 2 ^ 32).
  { destruct Hram as (_ & H & _). apply page_aligned_iff in H. lia. }
  destruct (as_prepare_load_success _ _ _ _ Hrun)
    as (pa1 & k1 & pa2 & k2 & pa3 & G1 & G2 & G3 & N1 & N2 & N3 & ->).
  destruct (reachable_inv lo hi k Hram Hreach) as [I0 V0].
  destruct (getppages_allocated lo hi _ k pa1 k1 Hhi ltac:(lia) I0 G1)
    as ([I1 Q1 (i1 & a0 & b1 & _ & _ & B1 & E1 & X1 & F1 & _) _] & V1 & _).
  destruct (getppages_allocated lo hi _ k1 pa2 k2 Hhi ltac:(lia) I1 G2)
    as ([I2 Q2 (i2 & c0 & b2 & C0 & Y0 & B2 & E2 & X2 & F2 & _) K2] & V2 & _).
  destruct (getppages_allocated lo hi _ k2 pa3 k' Hhi ltac:(lia) I2 G3)
    as ([I3 Q3 (i3 & d0 & b3 & D0 & Z0 & B3 & E3 & X3 & F3 & _) K3] & _ & _).
  rewrite (s32_pos_u32 _ U1 Q1) in F1. rewrite (s32_pos_u32 _ U2 Q2) in F2.
  change (s32 DUMBVM_STACKPAGES) with 12 in F3.
  assert (B1' : buddylist k2 !! i1 = Some b1) by (apply K2; [exact B1|lia]).
  assert (i1 <> i2) by (intros ->; rewrite B1 in C0; injection C0 as <-; lia).
  assert (i1 <> i3) by (intros ->; rewrite B1' in D0; injection D0 as <-; lia).
  assert (i2 <> i3) by (intros ->; rewrite B2 in D0; injection D0 as <-; lia).
  assert (B1'' : buddylist k' !! i1 = Some b1) by (apply K3; [exact B1'|lia]).
  assert (B2' : buddylist k' !! i2 = Some b2) by (apply K3; [exact B2|lia]).
  pose proof (Forall_lookup_1 _ _ _ _ (inv_blocks _ _ _ I3) B1'') as (A1 & _).
  pose proof (Forall_lookup_1 _ _ _ _ (inv_blocks _ _ _ I3) B2') as (A2 & _).
  pose proof (Forall_lookup_1 _ _ _ _ (inv_blocks _ _ _ I3) B3) as (A3 & _).
  cbn [as_pbase1 as_pbase2 as_stackpbase as_npages1 as_npages2
       set_as_pbase1 set_as_pbase2 set_as_stackpbase].
  subst pa1 pa2 pa3.
  split; [repeat split; assumption|]. split; [repeat split; assumption|].
  split; [split; reflexivity|].
  split; [|split].
  - apply (buddy_inv_ranges_disjoint lo hi (buddylist k') i1 i2); try assumption; lia.
  - apply (buddy_inv_ranges_disjoint lo hi (buddylist k') i1 i3); try assumption;
      unfold DUMBVM_STACKPAGES; lia.
  - apply (buddy_inv_ranges_disjoint lo hi (buddylist k') i2 i3); try assumption;
      unfold DUMBVM_STACKPAGES; lia.
Qed.

Lemma S1_booted_reachable : reachable 0x00200000 0x00a00000 S1_booted.
Proof. apply (reach_bootstrap _ _ S1_kernel S1_booted); reflexivity. Qed.

Lemma as_prepare_load_disjoint_witness :
  as_prepare_load S3_as0 S1_booted = Ok (ESUCCESS, S3_as, S3_kernel)
  /\ (as_pbase1 S3_as + as_npages1 S3_as * PAGE_SIZE <= as_pbase2 S3_as
      \/ as_pbase2 S3_as + as_npages2 S3_as * PAGE_SIZE <= as_pbase1 S3_as).
Proof.
  assert (Hrun : as_prepare_load S3_as0 S1_booted = Ok (ESUCCESS, S3_as, S3_kernel))
    by reflexivity.
  split; [exact Hrun|].
  assert (U1 : is_u32 (as_npages1 S3_as0)) by (split; [discriminate|reflexivity]).
  assert (U2 : is_u32 (as_npages2 S3_as0)) by (split; [discriminate|reflexivity]).
  exact (proj1 (proj2 (proj2 (proj2
    (as_prepare_load_disjoint 0x00200000 0x00a00000 S3_as0 S1_booted S3_as
       S3_kernel S1_ram_ok S1_booted_reachable U1 U2 eq_refl eq_refl Hrun))))).
Defined.

(** ** Destroying an address space *)

Lemma as_prepare_load_reachable (lo hi : Z) (as_ : addrspace) (k : kernel)
    (e : errno) (as' : addrspace) (k' : kernel) :
  reachable lo hi k ->
  as_prepare_load as_ k = Ok (e, as', k') -> reachable lo hi k'.
Proof.
  intros Hreach. unfold as_prepare_load.
  destruct (as_pbase1 as_ =? 0); cbn [assert bind]; [|discriminate].
  destruct (as_pbase2 as_ =? 0); cbn [assert bind]; [|discriminate].
  destruct (as_stackpbase as_ =? 0); cbn [assert bind]; [|discriminate].
  destruct (getppages (as_npages1 as_) k) as [[pa1 k1]|] eqn:G1; [|discriminate].
  assert (R1 := reach_alloc lo hi k _ pa1 k1 Hreach G1).
  cbn [bind as_pbase1 set_as_pbase1 as_npages2].
  destruct (pa1 =? 0); [intros [= <- <- <-]; exact R1|].
  destruct (getppages (as_npages2 as_) k1) as [[pa2 k2]|] eqn:G2; [|discriminate].
  assert (R2 := reach_alloc lo hi k1 _ pa2 k2 R1 G2).
  cbn [bind as_pbase2 set_as_pbase2].
  destruct (pa2 =? 0); [intros [= <- <- <-]; exact R2|].
  destruct (getppages DUMBVM_STACKPAGES k2) as [[pa3 k3]|] eqn:G3; [|discriminate].
  assert (R3 := reach_alloc lo hi k2 _ pa3 k3 R2 G3).
  cbn [bind as_stackpbase set_as_stackpbase].
  destruct (pa3 =? 0); intros [= <- <- <-]; exact R3.
Qed.

(** After a free of [addr], no block that starts at [addr] is in use. *)
Lemma freeppage_loop_frees (lo hi addr : Z) (bl : list buddy_entry)
    (j : nat) (c : buddy_entry) :
  buddy_inv lo hi bl ->
  freeppage_loop addr bl !! j = Some c -> paddr c = addr -> inuse c = 0.
Proof.
  intros Hinv Hj Hp.
  destruct (freeppage_loop_lookup addr bl j c Hj) as (b & Hb & Epb & _).
  assert (Heq : freeppage_loop (paddr b) bl
                = <[j := mk_buddy (paddr b) (pages b) 0]> bl).
  { apply freeppage_loop_unique; [|exact Hb].
    intros j' c' Hj' Hp'. exact (buddy_inv_paddr_inj lo hi bl j' j c' b Hinv Hj' Hb Hp'). }
  assert (paddr b = addr) as Eb by congruence.
  rewrite Eb in Heq. rewrite Heq in Hj.
  rewrite list_lookup_insert_eq in Hj by (eapply lookup_lt_Some; exact Hb).
  injection Hj as <-. reflexivity.
Qed.

Lemma as_destroy_frees (lo hi : Z) (as_ : addrspace) (k : kernel) :
  buddy_inv lo hi (buddylist k) ->
  kheap (as_destroy as_ k) = S (kheap k)
  /\ buddy_inv lo hi (buddylist (as_destroy as_ k))
  /\ forall (j : nat) (c : buddy_entry),
       buddylist (as_destroy as_ k) !! j = Some c ->
       (exists b, buddylist k !! j = Some b
                  /\ paddr c = paddr b /\ pages c = pages b
                  /\ (c = b \/ inuse c = 0))
       /\ (paddr c = as_pbase1 as_ \/ paddr c = as_pbase2 as_
           \/ paddr c = as_stackpbase as_ -> inuse c = 0).
Proof.
  intros I0. unfold as_destroy, freeppage.
  cbn [kheap buddylist set_buddylist set_kheap].
  set (bl0 := buddylist k).
  set (bl1 := freeppage_loop (as_pbase1 as_) bl0).
  set (bl2 := freeppage_loop (as_pbase2 as_) bl1).
  set (bl3 := freeppage_loop (as_stackpbase as_) bl2).
  assert (I1 : buddy_inv lo hi bl1) by (apply freeppage_loop_inv; exact I0).
  assert (I2 : buddy_inv lo hi bl2) by (apply freeppage_loop_inv; exact I1).
  assert (I3 : buddy_inv lo hi bl3) by (apply freeppage_loop_inv; exact I2).
  split; [reflexivity|]. split; [exact I3|].
  intros j c Hj.
  destruct (freeppage_loop_lookup _ bl2 j c Hj) as (c2 & H2 & P2 & S2 & D2).
  destruct (freeppage_loop_lookup _ bl1 j c2 H2) as (c1 & H1 & P1 & S1 & D1).
  destruct (freeppage_loop_lookup _ bl0 j c1 H1) as (c0 & H0 & P0 & S0 & D0).
  split.
  - exists c0. split; [exact H0|]. split; [congruence|]. split; [congruence|].
    destruct D2 as [->|[Z2 _]]; [|right; exact Z2].
    destruct D1 as [->|[Z1 _]]; [|right; exact Z1].
    destruct D0 as [->|[Z0 _]]; [left; reflexivity|right; exact Z0].
  - intros [E|[E|E]].
    + assert (inuse c1 = 0) as Z1
        by (apply (freeppage_loop_frees lo hi _ bl0 j c1 I0 H1); congruence).
      destruct D2 as [->|[Z2 _]]; [|exact Z2].
      destruct D1 as [->|[Z1' _]]; [exact Z1|exact Z1'].
    + assert (inuse c2 = 0) as Z2
        by (apply (freeppage_loop_frees lo hi _ bl1 j c2 I1 H2); congruence).
      destruct D2 as [->|[Z2' _]]; [exact Z2|exact Z2'].
    + exact (freeppage_loop_frees lo hi _ bl2 j c I2 Hj E).
Qed.

(** ** Copying an address space when memory is short *)

(** After bootstrap, a request that no free block can hold ends in the
    panic of the failed range assertion, whatever the count. *)
Lemma getppages_none_panics (npages : Z) (k : kernel) :
  vm_initialized k <> 0 ->
  (forall c, c ∈ buddylist k -> ~ candidate (s32 npages) c) ->
  getppages npages k = Panic "Assertion failed".
Proof.
  intros Hinit Hnone. unfold getppages, splhigh, splx.
  cbn [vm_initialized set_curspl].
  destruct (Z.eqb_spec (vm_initialized k) 0) as [E|_]; [contradiction|].
  unfold calculate_buddy. cbn [buddylist set_curspl].
  rewrite (find_buddy_none (s32 npages) (buddylist k) Hnone).
  reflexivity.
Qed.

(** Above physical address 0, an allocation that returns does not return
    0: the address is the base of a block of RAM. *)
Lemma getppages_nonzero (lo hi npages : Z) (k : kernel) (addr : Z)
    (k' : kernel) :
  ram_ok lo hi -> 0 < lo ->
  reachable lo hi k ->
  getppages npages k = Ok (addr, k') -> addr <> 0.
Proof.
  intros Hram Hlo Hreach Hget.
  assert (Hhi : hi < 2 ^ 32).
  { destruct Hram as (_ & H & _). apply page_aligned_iff in H. lia. }
  destruct (reachable_inv lo hi k Hram Hreach) as [I0 V0].
  destruct (getppages_allocated lo hi _ k addr k' Hhi ltac:(lia) I0 Hget)
    as ([I1 _ (i & b0 & b & _ & _ & Hb & Hp & _) _] & _).
  destruct (Forall_lookup_1 _ _ _ _ (inv_blocks _ _ _ I1) Hb)
    as (_ & _ & Hge & _).
  lia.
Qed.

Lemma as_prepare_load_no_error (lo hi : Z) (as_ : addrspace) (k : kernel)
    (e : errno) (as' : addrspace) (k' : kernel) :
  ram_ok lo hi -> 0 < lo ->
  reachable lo hi k ->
  as_prepare_load as_ k = Ok (e, as', k') -> e = ESUCCESS.
Proof.
  intros Hram Hlo Hreach. unfold as_prepare_load.
  destruct (as_pbase1 as_ =? 0); cbn [assert bind]; [|discriminate].
  destruct (as_pbase2 as_ =? 0); cbn [assert bind]; [|discriminate].
  destruct (as_stackpbase as_ =? 0); cbn [assert bind]; [|discriminate].
  destruct (getppages (as_npages1 as_) k) as [[pa1 k1]|] eqn:G1; [|discriminate].
  assert (R1 := reach_alloc lo hi k _ pa1 k1 Hreach G1).
  pose proof (getppages_nonzero lo hi _ k pa1 k1 Hram Hlo Hreach G1) as N1.
  cbn [bind as_pbase1 set_as_pbase1 as_npages2].
  destruct (Z.eqb_spec pa1 0) as [|_]; [contradiction|].
  destruct (getppages (as_npages2 as_) k1) as [[pa2 k2]|] eqn:G2; [|discriminate].
  assert (R2 := reach_alloc lo hi k1 _ pa2 k2 R1 G2).
  pose proof (getppages_nonzero lo hi _ k1 pa2 k2 Hram Hlo R1 G2) as N2.
  cbn [bind as_pbase2 set_as_pbase2].
  destruct (Z.eqb_spec pa2 0) as [|_]; [contradiction|].
  destruct (getppages DUMBVM_STACKPAGES k2) as [[pa3 k3]|] eqn:G3; [|discriminate].
  pose proof (getppages_nonzero lo hi _ k2 pa3 k3 Hram Hlo R2 G3) as N3.
  cbn [bind as_stackpbase set_as_stackpbase].
  destruct (Z.eqb_spec pa3 0) as [|_]; [contradiction|].
  intros [= <- _ _]. reflexivity.
Qed.

(** C10.  In a state that is reachable after bootstrap of RAM that starts
    above physical address 0, once [as_create] has given [as_copy] a
    descriptor, the exit of [as_copy] for a failed [as_prepare_load] is
    never taken: [as_prepare_load] returns no code but 0, so every return
    of [as_copy] is a success, and when no free block can hold region 1 the
    call does not return ENOMEM with the new address space destroyed and
    [*ret] as it was, but ends in the panic of the range assertion that item
    -1 of the buddy list fails. *)
Theorem as_copy_alloc_failure_panics (lo hi : Z) (old : addrspace)
    (ret : option addrspace) (k : kernel) (new0 : addrspace) (k0 : kernel) :
  ram_ok lo hi -> 0 < lo ->
  reachable lo hi k ->
  as_create k = (Some new0, k0) ->
  (forall (e : errno) (new' : addrspace) (k' : kernel),
     as_prepare_load (as_copy_layout old new0) k0 = Ok (e, new', k') ->
     e = ESUCCESS)
  /\ (forall (e : errno) (r : option addrspace) (kf : kernel),
        as_copy old ret k = Ok (e, r, kf) -> e = ESUCCESS /\ r <> None)
  /\ ((forall c, c ∈ buddylist k ->
         ~ (inuse c = 0 /\ s32 (as_npages1 old) <= pages c)) ->
      as_copy old ret k = Panic "Assertion failed").
Proof.
  intros Hram Hlo Hreach Hcreate.
  destruct (reachable_inv lo hi k Hram Hreach) as [_ V0].
  assert (Hk0 : new0 = mk_as 0 0 0 0 0 0 0 0
                /\ buddylist k0 = buddylist k
                /\ vm_initialized k0 = vm_initialized k).
  { unfold as_create in Hcreate. destruct (kheap k); [discriminate|].
    injection Hcreate as <- <-. repeat split. }
  destruct Hk0 as (-> & Hbl & Hvi).
  assert (R0 : reachable lo hi k0)
    by (apply (reach_other lo hi k k0 Hreach); assumption).
  assert (P1 : forall e new' k',
             as_prepare_load (as_copy_layout old (mk_as 0 0 0 0 0 0 0 0)) k0
             = Ok (e, new', k') -> e = ESUCCESS).
  { intros e new' k'. apply (as_prepare_load_no_error lo hi); assumption. }
  split; [exact P1|]. split.
  - intros e r kf. unfold as_copy. rewrite Hcreate.
    destruct (as_prepare_load _ k0) as [[[res n1] k1]|] eqn:P;
      cbn [bind]; [|discriminate].
    rewrite (P1 res n1 k1 eq_refl), bool_decide_eq_true_2 by reflexivity.
    cbn [negb].
    destruct (negb (as_pbase1 n1 =? 0)); cbn [assert bind]; [|discriminate].
    destruct (negb (as_pbase2 n1 =? 0)); cbn [assert bind]; [|discriminate].
    destruct (negb (as_stackpbase n1 =? 0)); cbn [assert bind]; [|discriminate].
    intros [= <- <- _]. split; [reflexivity|discriminate].
  - intros Hnone. unfold as_copy. rewrite Hcreate.
    unfold as_prepare_load.
    change (as_pbase1 (as_copy_layout old (mk_as 0 0 0 0 0 0 0 0))) with 0.
    change (as_pbase2 (as_copy_layout old (mk_as 0 0 0 0 0 0 0 0))) with 0.
    change (as_stackpbase (as_copy_layout old (mk_as 0 0 0 0 0 0 0 0))) with 0.
    change (as_npages1 (as_copy_layout old (mk_as 0 0 0 0 0 0 0 0)))
      with (as_npages1 old).
    cbn [Z.eqb assert bind].
    assert (Hinit : vm_initialized k0 <> 0) by (rewrite Hvi, V0; discriminate).
    rewrite <- Hbl in Hnone.
    rewrite (getppages_none_panics (as_npages1 old) k0 Hinit Hnone).
    reflexivity.
Qed.

(** The state in which the address space [short_as] holds all of RAM is
    reached by bootstrap, [as_create] and the [as_prepare_load] of the
    address space. *)
Lemma short_kernel_reachable : reachable 0x00200000 0x00220000 short_kernel.
Proof.
  apply (as_prepare_load_reachable _ _ short_as0
           (mk_kernel [mk_buddy 0x00200000 32 0] 1 62 0x00200000 0x00220000 0
                      tlb_empty (fun _ => 0) None)
           ESUCCESS short_as short_kernel); [|reflexivity].
  apply (reach_other _ _
           (mk_kernel [mk_buddy 0x00200000 32 0] 1 63 0x00200000 0x00220000 0
                      tlb_empty (fun _ => 0) None)); [|reflexivity..].
  apply (reach_bootstrap _ _ short_kernel0); reflexivity.
Qed.

Lemma as_copy_alloc_failure_panics_witness :
  as_copy short_as None short_kernel = Panic "Assertion failed".
Proof.
  assert (Hram : ram_ok 0x00200000 0x00220000)
    by (split; [reflexivity|split; [reflexivity|discriminate]]).
  refine (proj2 (proj2 (as_copy_alloc_failure_panics 0x00200000 0x00220000
                          short_as None short_kernel (mk_as 0 0 0 0 0 0 0 0)
                          (set_kheap 59 short_kernel) Hram eq_refl
                          short_kernel_reachable eq_refl)) _).
  intros c Hc [Hfree _].
  assert (F : Forall (fun b => inuse b <> 0) (buddylist short_kernel))
    by (repeat constructor; discriminate).
  exact (proj1 (Forall_forall _ _) F c Hc Hfree).
Defined.

(** * Further properties of the allocator *)

(** ** The scan and the free *)

(** X1.  [find_buddy] answers -1 exactly when no free block can hold the request,
    and an index of the array otherwise. *)
Theorem find_buddy_result (npages : Z) (bl : list buddy_entry) :
  (find_buddy npages bl = -1 <->
   forall c, c ∈ bl -> ~ (inuse c = 0 /\ npages <= pages c))
  /\ -1 <= find_buddy npages bl < Z.of_nat (length bl).
Proof.
  destruct (find_buddy_spec npages bl) as [[E Hnone]|(i & b & E & Hb & Hc & _)].
  - rewrite E. split; [split; [intros _; exact Hnone|reflexivity]|lia].
  - rewrite E. apply lookup_lt_Some in Hb as Hlt. split; [|lia].
    split; [lia|]. intros Hnone. exfalso. apply (Hnone b); [|exact Hc].
    apply list_elem_of_lookup. exists i. exact Hb.
Qed.

Lemma set_buddylist_same (k : kernel) : set_buddylist (buddylist k) k = k.
Proof. destruct k. reflexivity. Qed.

Lemma freeppage_loop_idempotent (addr : Z) (bl : list buddy_entry) :
  freeppage_loop addr (freeppage_loop addr bl) = freeppage_loop addr bl.
Proof.
  induction bl as [|b bl IH]; [reflexivity|]. cbn [freeppage_loop].
  destruct (Z.eqb_spec (paddr b) addr) as [E|E]; cbn [freeppage_loop paddr pages].
  - destruct (Z.eqb_spec (paddr b) addr); [reflexivity|contradiction].
  - destruct (Z.eqb_spec (paddr b) addr); [contradiction|]. rewrite IH. reflexivity.
Qed.

(** X2.  After bootstrap, freeing the same base twice is the same as freeing it
    once. *)
Theorem freeppage_idempotent (addr : Z) (k : kernel) :
  vm_initialized k <> 0 ->
  freeppage addr (freeppage addr k) = freeppage addr k.
Proof.
  intros _. unfold freeppage. cbn [buddylist set_buddylist].
  rewrite freeppage_loop_idempotent. reflexivity.
Qed.

Lemma freeppage_idempotent_witness :
  freeppage 0x00200000 (freeppage 0x00200000 S2_kernel)
  = freeppage 0x00200000 S2_kernel.
Proof. apply freeppage_idempotent. discriminate. Defined.

Lemma freeppage_loop_no_match (addr : Z) (bl : list buddy_entry) :
  (forall b, b ∈ bl -> paddr b <> addr) -> freeppage_loop addr bl = bl.
Proof.
  induction bl as [|b bl IH]; intros Hno; [reflexivity|]. cbn [freeppage_loop].
  destruct (Z.eqb_spec (paddr b) addr) as [E|_].
  - exfalso. apply (Hno b); [apply list_elem_of_here|exact E].
  - rewrite IH; [reflexivity|]. intros c Hc. apply Hno.
    apply list_elem_of_further. exact Hc.
Qed.

(** X3.  After bootstrap, a base that is the base of no block is ignored: the
    kernel state is what it was. *)
Theorem freeppage_no_match (addr : Z) (k : kernel) :
  vm_initialized k <> 0 ->
  (forall b, b ∈ buddylist k -> paddr b <> addr) -> freeppage addr k = k.
Proof.
  intros _ Hno. unfold freeppage. rewrite freeppage_loop_no_match by exact Hno.
  apply set_buddylist_same.
Qed.

Lemma freeppage_no_match_witness : freeppage 0x00200800 S2_kernel = S2_kernel.
Proof.
  apply freeppage_no_match; [discriminate|]. apply Forall_forall.
  repeat constructor; discriminate.
Defined.

(** ** The critical section of [getppages] *)

Lemma calculate_buddy_frame (npages : Z) (k : kernel) (addr : Z) (k' : kernel) :
  calculate_buddy npages k = Ok (addr, k') ->
  exists (h : nat) (bl : list buddy_entry), k' = set_kheap h (set_buddylist bl k).
Proof.
  unfold calculate_buddy.
  destruct (array_getguy _ _) as [b|]; [|discriminate]. cbn [bind].
  destruct (split_loop _ _ _ _ _ _ _ _) as [[[h be] bl]|]; [|discriminate].
  cbn [bind]. intros [= <- <-]. eexists _, _. reflexivity.
Qed.

(** X4.  Every return of [getppages] gives the caller's interrupt priority level
    back and leaves the TLB, physical memory and the current address space
    alone; before bootstrap it does not touch the buddy list or the kernel
    heap, after bootstrap it does not touch the RAM probe. *)
Theorem getppages_frame (npages : Z) (k : kernel) (addr : Z) (k' : kernel) :
  getppages npages k = Ok (addr, k') ->
  curspl k' = curspl k /\ tlb k' = tlb k /\ physmem k' = physmem k
  /\ t_vmspace k' = t_vmspace k /\ vm_initialized k' = vm_initialized k
  /\ lastpaddr k' = lastpaddr k
  /\ (vm_initialized k = 0 ->
      buddylist k' = buddylist k /\ kheap k' = kheap k)
  /\ (vm_initialized k <> 0 -> firstpaddr k' = firstpaddr k).
Proof.
  unfold getppages, splhigh, splx. cbn [vm_initialized set_curspl].
  destruct (Z.eqb_spec (vm_initialized k) 0) as [E|E]; cbn [bind].
  - unfold ram_stealmem. cbn [firstpaddr lastpaddr set_curspl].
    destruct (_ >? _); cbn [bind]; intros [= <- <-]; cbn;
      repeat split; try reflexivity; intros; contradiction.
  - destruct (calculate_buddy _ _) as [[a k1]|] eqn:Hcalc; [|discriminate].
    cbn [bind]. intros [= <- <-].
    destruct (calculate_buddy_frame _ _ _ _ Hcalc) as (h & bl & ->).
    cbn. repeat split; try reflexivity; intros; contradiction.
Qed.

Lemma getppages_frame_witness :
  getppages 1 S1_booted = Ok (0x00200000, S2_kernel)
  /\ curspl S2_kernel = curspl S1_booted.
Proof.
  assert (H : getppages 1 S1_booted = Ok (0x00200000, S2_kernel)) by reflexivity.
  split; [exact H|]. exact (proj1 (getppages_frame 1 S1_booted _ _ H)).
Defined.

(** ** The block that an allocation hands out *)

Lemma best_fit_unique (npages : Z) (bl : list buddy_entry) (i j : nat)
    (b c : buddy_entry) :
  best_fit npages bl i b -> best_fit npages bl j c -> i = j.
Proof.
  intros (Hb & Cb & Mb) (Hc & Cc & Mc).
  destruct (Mb j c Hc Cc) as [L1 S1]. destruct (Mc i b Hb Cb) as [L2 S2].
  destruct (Nat.lt_total i j) as [H|[H|H]]; [|exact H|].
  - specialize (S2 H). lia.
  - specialize (S1 H). lia.
Qed.

Lemma best_fit_find (npages : Z) (bl : list buddy_entry) (i : nat)
    (b : buddy_entry) :
  best_fit npages bl i b -> find_buddy npages bl = Z.of_nat i.
Proof.
  intros Hbest.
  destruct (find_buddy_spec npages bl) as [[_ Hnone]|(j & c & E & Hc)].
  - exfalso. destruct Hbest as (Hb & Cb & _). apply (Hnone b); [|exact Cb].
    apply list_elem_of_lookup. exists i. exact Hb.
  - rewrite E. f_equal. exact (best_fit_unique npages bl j i c b Hc Hbest).
Qed.

Lemma split_loop_exit_now (heap : nat) (npages buddyi p oldsize nextsize : Z)
    (be : buddy_entry) (bl : list buddy_entry) :
  nextsize < npages ->
  split_loop heap npages buddyi p oldsize nextsize be bl = Ok (heap, be, bl).
Proof.
  intros H. destruct heap; cbn [split_loop];
    destruct (Z.geb_spec nextsize npages); (lia || reflexivity).
Qed.

Lemma split_fit_step (npages : Z) (i : nat) (bl0 : list buddy_entry)
    (b0 be : buddy_entry) (bl : list buddy_entry) :
  1 <= npages -> (i < length bl0)%nat ->
  split_fit npages i bl0 b0 be bl ->
  npages <= Z.quot (pages be) 2 ->
  split_fit npages i bl0 b0
    (mk_buddy (paddr b0) (Z.quot (pages be) 2) 0)
    (array_add
       (array_setguy bl (Z.of_nat i)
          (mk_buddy (paddr b0) (Z.quot (pages be) 2) 0))
       (mk_buddy (u32 (paddr b0 + Z.quot (pages be) 2 * PAGE_SIZE))
                 (pages be - Z.quot (pages be) 2) 0)).
Proof.
  intros Hn Hi0 [Hslot Hfit Hle Hp Hfree Hlen Hold Hnew] Hhalf.
  unfold array_add, array_setguy. rewrite Nat2Z.id.
  set (half := Z.quot (pages be) 2) in *.
  assert (Hi : (i < length bl)%nat) by lia.
  assert (Hq : pages be = 2 * half \/ pages be = 2 * half + 1).
  { subst half. rewrite Z.quot_div_nonneg by lia. Z.div_mod_to_equations. lia. }
  split; cbn [pages paddr inuse]; try reflexivity; try lia.
  - rewrite lookup_app_l by (rewrite length_insert; exact Hi).
    apply list_lookup_insert_eq. exact Hi.
  - rewrite length_app, length_insert. lia.
  - intros j Hj Hne.
    rewrite lookup_app_l by (rewrite length_insert; lia).
    rewrite list_lookup_insert_ne by congruence. apply Hold; assumption.
  - intros j c Hj Hc.
    destruct (decide (j < length bl)%nat) as [Hlt|Hge].
    + rewrite lookup_app_l in Hc by (rewrite length_insert; exact Hlt).
      rewrite list_lookup_insert_ne in Hc by lia.
      destruct (Hnew j c Hj Hc) as [Hpc Hfc]. split; [lia|exact Hfc].
    + rewrite lookup_app_r in Hc by (rewrite length_insert; lia).
      rewrite length_insert in Hc.
      destruct (j - length bl)%nat; cbn in Hc; [|discriminate].
      injection Hc as <-. cbn [pages inuse]. split; [lia|reflexivity].
Qed.

Lemma split_loop_fit (npages : Z) (i : nat) (bl0 : list buddy_entry)
    (b0 : buddy_entry) :
  1 <= npages -> (i < length bl0)%nat ->
  forall (heap : nat) (be : buddy_entry) (bl : list buddy_entry)
         (heap' : nat) (be' : buddy_entry) (bl' : list buddy_entry),
  split_fit npages i bl0 b0 be bl ->
  split_loop heap npages (Z.of_nat i) (paddr b0) (pages be)
             (Z.quot (pages be) 2) be bl
  = Ok (heap', be', bl') ->
  split_fit npages i bl0 b0 be' bl' /\ Z.quot (pages be') 2 < npages.
Proof.
  intros Hn Hi heap.
  induction heap as [|heap IH]; intros be bl heap' be' bl' Hst;
    cbn [split_loop];
    destruct (Z.geb_spec (Z.quot (pages be) 2) npages) as [Hge|Hlt];
    try discriminate; try (intros [= <- <- <-]; split; [exact Hst|exact Hlt]).
  intros Hrun.
  eapply (IH (mk_buddy (paddr b0) (Z.quot (pages be) 2) 0)); [|exact Hrun].
  apply split_fit_step; assumption.
Qed.

(** The anatomy of a returning [calculate_buddy]. *)
Lemma calculate_buddy_shape (lo hi npages : Z) (k : kernel) (addr : Z)
    (k' : kernel) :
  buddy_inv lo hi (buddylist k) ->
  calculate_buddy npages k = Ok (addr, k') ->
  exists (i : nat) (b0 be' : buddy_entry) (bl' : list buddy_entry) (h : nat),
    1 <= npages
    /\ best_fit npages (buddylist k) i b0
    /\ split_fit npages i (buddylist k) b0 be' bl'
    /\ Z.quot (pages be') 2 < npages
    /\ addr = paddr be'
    /\ k' = set_kheap h
              (set_buddylist
                 (<[i := mk_buddy (paddr be') (pages be') 1]> bl') k).
Proof.
  intros [_ Hblocks _]. unfold calculate_buddy.
  destruct (array_getguy (buddylist k) (find_buddy npages (buddylist k)))
    as [b|] eqn:Hget; [|discriminate].
  cbn [bind].
  destruct (array_getguy_inv _ _ _ Hget) as (i & Hi & Hb).
  assert (Hbest : best_fit npages (buddylist k) i b).
  { destruct (find_buddy_spec npages (buddylist k))
      as [[E _]|(i' & b' & E & Hbest)]; [lia|].
    assert (i' = i) as -> by lia.
    destruct Hbest as (Hb' & ?). assert (b' = b) as -> by congruence.
    split; assumption. }
  pose proof Hbest as (_ & [Hfree Hfit] & _).
  assert (Hbok : block_ok lo hi b)
    by (eapply Forall_lookup_1; [exact Hblocks|exact Hb]).
  rewrite Hi.
  destruct (split_loop _ _ _ _ _ _ _ _) as [[[heap' be'] bl']|] eqn:Hloop;
    [|discriminate].
  cbn [bind]. intros [= <- <-].
  assert (Hn : 1 <= npages).
  { destruct (Z.le_gt_cases npages 0) as [Hle|]; [|lia].
    rewrite split_loop_nonpos in Hloop; [discriminate|exact Hle|].
    apply Z.quot_pos; [|lia]. destruct Hbok as (_ & ? & _). assumption. }
  assert (Hlt : (i < length (buddylist k))%nat)
    by (eapply lookup_lt_Some; exact Hb).
  assert (Hst0 : split_fit npages i (buddylist k) b b (buddylist k)).
  { split; try reflexivity; try assumption; try lia.
    intros j c Hj Hc. apply lookup_lt_Some in Hc. lia. }
  destruct (split_loop_fit npages i (buddylist k) b Hn Hlt _ _ _ _ _ _ Hst0 Hloop)
    as [Hst Hexit].
  exists i, b, be', bl', heap'. unfold array_setguy. rewrite Nat2Z.id.
  split; [exact Hn|]. split; [exact Hbest|]. split; [exact Hst|].
  split; [exact Hexit|]. split; reflexivity.
Qed.

Lemma getppages_calculate (npages : Z) (k : kernel) (addr : Z) (k' : kernel) :
  vm_initialized k <> 0 ->
  getppages npages k = Ok (addr, k') ->
  exists k1,
    calculate_buddy (s32 npages) (set_curspl SPL_HIGH k) = Ok (addr, k1)
    /\ k' = set_curspl (curspl k) k1.
Proof.
  intros Hinit. unfold getppages, splhigh, splx. cbn [vm_initialized set_curspl].
  destruct (Z.eqb_spec (vm_initialized k) 0) as [E|_]; [contradiction|].
  destruct (calculate_buddy _ _) as [[a k1]|]; [|discriminate].
  cbn [bind]. intros [= <- <-]. exists k1. split; reflexivity.
Qed.

(** X5.  In a state that is reachable after bootstrap, the block that a
    returning [getppages] hands out holds the request and has fewer than
    twice as many pages: the loop splits as long as half the block is
    enough. *)
Theorem getppages_block_size (lo hi npages : Z) (k : kernel) (addr : Z)
    (k' : kernel) :
  ram_ok lo hi ->
  reachable lo hi k ->
  getppages npages k = Ok (addr, k') ->
  exists (i : nat) (b : buddy_entry),
    buddylist k' !! i = Some b /\ paddr b = addr /\ inuse b = 1
    /\ 1 <= s32 npages /\ s32 npages <= pages b < 2 * s32 npages.
Proof.
  intros Hram Hreach Hrun.
  destruct (reachable_inv lo hi k Hram Hreach) as [Hinv Hinit].
  destruct (getppages_calculate npages k addr k' ltac:(lia) Hrun)
    as (k1 & Hcalc & ->).
  destruct (calculate_buddy_shape lo hi _ (set_curspl SPL_HIGH k) _ _ Hinv Hcalc)
    as (i & b0 & be' & bl' & h & Hn & _ & Hst & Hexit & -> & ->).
  destruct Hst as [Hslot Hfit _ _ _ _ _ _].
  exists i, (mk_buddy (paddr be') (pages be') 1).
  cbn [buddylist set_curspl set_kheap set_buddylist paddr pages inuse].
  split; [apply list_lookup_insert_eq; eapply lookup_lt_Some; exact Hslot|].
  split; [reflexivity|]. split; [reflexivity|]. split; [exact Hn|].
  split; [exact Hfit|].
  rewrite Z.quot_div_nonneg in Hexit by lia. Z.div_mod_to_equations. lia.
Qed.

Lemma getppages_block_size_witness :
  exists k' : kernel,
    getppages 3 S1_booted = Ok (0x00200000, k')
    /\ exists (i : nat) (b : buddy_entry),
         buddylist k' !! i = Some b /\ paddr b = 0x00200000 /\ inuse b = 1
         /\ 1 <= s32 3 /\ s32 3 <= pages b < 2 * s32 3.
Proof.
  assert (H : exists k', getppages 3 S1_booted = Ok (0x00200000, k'))
    by (eexists; reflexivity).
  destruct H as [k' H]. exists k'. split; [exact H|].
  exact (getppages_block_size 0x00200000 0x00a00000 3 S1_booted _ k'
           S1_ram_ok S1_booted_reachable H).
Defined.

Lemma buddy_entry_eta (b : buddy_entry) (p s u : Z) :
  paddr b = p -> pages b = s -> inuse b = u -> b = mk_buddy p s u.
Proof. destruct b. cbn. intros -> -> ->. reflexivity. Qed.

(** After the split, the entry of the chosen slot is the best fit of the
    list it stands in. *)
Lemma split_fit_best_fit (npages : Z) (i : nat) (bl0 : list buddy_entry)
    (b0 be' : buddy_entry) (bl' : list buddy_entry) :
  best_fit npages bl0 i b0 ->
  split_fit npages i bl0 b0 be' bl' ->
  best_fit npages bl' i be'.
Proof.
  intros (Hb0 & _ & Hmin) [Hslot Hfit Hle _ Hfree _ Hold Hnew].
  assert (Hi : (i < length bl0)%nat) by (eapply lookup_lt_Some; exact Hb0).
  split; [exact Hslot|]. split; [split; assumption|].
  intros j c Hj Hc.
  destruct (decide (j = i)) as [->|Hne].
  - assert (c = be') as -> by congruence. lia.
  - destruct (decide (j < length bl0)%nat) as [Hlt|Hge].
    + rewrite (Hold j Hlt Hne) in Hj.
      destruct (Hmin j c Hj Hc) as [H1 H2]. split; [lia|].
      intros H. specialize (H2 H). lia.
    + destruct (Hnew j c ltac:(lia) Hj) as [H1 _]. split; [exact H1|lia].
Qed.

(** X6.  In a state that is reachable after bootstrap, freeing the frames that
    [getppages] has just handed out and asking for the same number of pages
    again hands out the same frames, without a split, and leads to the
    same kernel state. *)
Theorem getppages_free_getppages (lo hi npages : Z) (k : kernel) (addr : Z)
    (k' : kernel) :
  ram_ok lo hi ->
  reachable lo hi k ->
  getppages npages k = Ok (addr, k') ->
  getppages npages (freeppage addr k') = Ok (addr, k').
Proof.
  intros Hram Hreach Hrun.
  destruct (reachable_inv lo hi k Hram Hreach) as [Hinv Hinit].
  destruct (reachable_inv lo hi k' Hram (reach_alloc lo hi k _ _ _ Hreach Hrun))
    as [Hinv' _].
  destruct (getppages_calculate npages k addr k' ltac:(lia) Hrun)
    as (k1 & Hcalc & ->).
  destruct (calculate_buddy_shape lo hi _ (set_curspl SPL_HIGH k) _ _ Hinv Hcalc)
    as (i & b0 & be' & bl' & h & Hn & Hbest & Hst & Hexit & -> & ->).
  cbn [buddylist set_curspl set_kheap set_buddylist] in Hinv', Hbest, Hst.
  pose proof (split_fit_best_fit _ _ _ _ _ _ Hbest Hst) as Hbest'.
  destruct Hst as [Hslot Hfit _ Hp Hfree _ _ _].
  assert (Hlt : (i < length bl')%nat) by (eapply lookup_lt_Some; exact Hslot).
  set (bl1 := <[i := mk_buddy (paddr be') (pages be') 1]> bl') in *.
  assert (Hb1 : bl1 !! i = Some (mk_buddy (paddr be') (pages be') 1))
    by (apply list_lookup_insert_eq; exact Hlt).
  assert (Hfreed : freeppage_loop (paddr be') bl1 = bl').
  { assert (E : freeppage_loop (paddr be') bl1
                = <[i := mk_buddy (paddr be') (pages be') 0]> bl1).
    { apply (freeppage_loop_unique bl1 i (mk_buddy (paddr be') (pages be') 1));
        [|exact Hb1].
      intros j c Hj Hpc.
      exact (buddy_inv_paddr_inj lo hi bl1 j i c _ Hinv' Hj Hb1 Hpc). }
    rewrite E. subst bl1. rewrite list_insert_insert_eq.
    apply list_insert_id.
    rewrite Hslot. f_equal. apply buddy_entry_eta; [reflexivity|reflexivity|exact Hfree]. }
  unfold getppages, splhigh, splx, freeppage.
  cbn [buddylist vm_initialized curspl set_curspl set_kheap set_buddylist].
  destruct (Z.eqb_spec (vm_initialized k) 0) as [E|_]; [lia|].
  unfold calculate_buddy.
  cbn [buddylist kheap set_curspl set_kheap set_buddylist].
  rewrite Hfreed, (best_fit_find _ _ _ _ Hbest').
  rewrite (array_getguy_lookup bl' i be' Hslot). cbn [bind].
  rewrite split_loop_exit_now by exact Hexit. cbn [bind].
  unfold array_setguy. rewrite Nat2Z.id. fold bl1. reflexivity.
Qed.

Lemma getppages_free_getppages_witness :
  getppages 1 S1_booted = Ok (0x00200000, S2_kernel)
  /\ getppages 1 (freeppage 0x00200000 S2_kernel) = Ok (0x00200000, S2_kernel).
Proof.
  assert (H : getppages 1 S1_booted = Ok (0x00200000, S2_kernel)) by reflexivity.
  split; [exact H|].
  exact (getppages_free_getppages 0x00200000 0x00a00000 1 S1_booted _ _
           S1_ram_ok S1_booted_reachable H).
Defined.

(** ** Kernel pages *)

Lemma kvaddr_paddr (pa : Z) :
  0 <= pa < 2 ^ 32 -> KVADDR_TO_PADDR (PADDR_TO_KVADDR pa) = pa.
Proof.
  intros H. unfold KVADDR_TO_PADDR, PADDR_TO_KVADDR, u32, MIPS_KSEG0.
  change (2 ^ 32) with 4294967296 in *. Z.div_mod_to_equations. lia.
Qed.

(** X7.  In a state that is reachable after bootstrap, a nonzero result of
    [alloc_kpages] is the kernel-virtual address of a block that is now
    marked in use, and [free_kpages] on that result clears [inuse] on this
    block and changes no other slot. *)
Theorem alloc_kpages_free_kpages (lo hi npages : Z) (k : kernel) (kva : Z)
    (k' : kernel) :
  ram_ok lo hi ->
  reachable lo hi k ->
  alloc_kpages npages k = Ok (kva, k') ->
  kva <> 0 ->
  exists (i : nat) (b : buddy_entry),
    buddylist k' !! i = Some b /\ inuse b = 1
    /\ kva = PADDR_TO_KVADDR (paddr b)
    /\ buddylist (free_kpages kva k')
       = <[i := mk_buddy (paddr b) (pages b) 0]> (buddylist k').
Proof.
  intros Hram Hreach Hrun Hnz.
  assert (Hhi : hi < 2 ^ 32).
  { destruct Hram as (_ & H & _). apply page_aligned_iff in H. lia. }
  destruct (reachable_inv lo hi k Hram Hreach) as [Hinv Hinit].
  unfold alloc_kpages in Hrun.
  destruct (getppages (u32 npages) k) as [[pa k1]|] eqn:Hget; [|discriminate].
  cbn [bind] in Hrun.
  destruct (Z.eqb_spec pa 0) as [->|Hpa]; injection Hrun as <- <-; [congruence|].
  destruct (getppages_allocated lo hi _ k pa k1 Hhi ltac:(lia) Hinv Hget)
    as ([Hinv1 _ (i & _ & b & _ & _ & Hb & Hp & Huse & _) _] & _).
  exists i, b. split; [exact Hb|]. split; [exact Huse|].
  split; [rewrite Hp; reflexivity|].
  pose proof (Forall_lookup_1 _ _ _ _ (inv_blocks _ _ _ Hinv1) Hb) as (Hal & _).
  apply page_aligned_iff in Hal.
  unfold free_kpages, freeppage. cbn [buddylist set_buddylist].
  rewrite kvaddr_paddr by (rewrite <- Hp; tauto). rewrite <- Hp.
  apply freeppage_loop_unique; [|exact Hb].
  intros j c Hj Hpc. exact (buddy_inv_paddr_inj lo hi _ j i c b Hinv1 Hj Hb Hpc).
Qed.

Lemma alloc_kpages_free_kpages_witness :
  exists (kva : Z) (k' : kernel),
    alloc_kpages 1 S1_booted = Ok (kva, k')
    /\ kva = 0x80200000
    /\ exists (i : nat) (b : buddy_entry),
         buddylist k' !! i = Some b /\ inuse b = 1
         /\ kva = PADDR_TO_KVADDR (paddr b)
         /\ buddylist (free_kpages kva k')
            = <[i := mk_buddy (paddr b) (pages b) 0]> (buddylist k').
Proof.
  assert (H : alloc_kpages 1 S1_booted = Ok (0x80200000, S2_kernel)) by reflexivity.
  exists 0x80200000, S2_kernel. split; [exact H|]. split; [reflexivity|].
  exact (alloc_kpages_free_kpages 0x00200000 0x00a00000 1 S1_booted _ _
           S1_ram_ok S1_booted_reachable H ltac:(discriminate)).
Defined.

(** * Further properties of address spaces *)

(** ** The frames of an address space *)

(** The three blocks that a successful [as_prepare_load] has taken. *)
Lemma as_prepare_load_blocks (lo hi : Z) (as_ : addrspace) (k : kernel)
    (as' : addrspace) (k' : kernel) :
  ram_ok lo hi ->
  reachable lo hi k ->
  is_u32 (as_npages1 as_) -> is_u32 (as_npages2 as_) ->
  as_prepare_load as_ k = Ok (ESUCCESS, as', k') ->
  exists (i1 i2 i3 : nat) (b1 b2 b3 : buddy_entry),
    (i1 <> i2 /\ i1 <> i3 /\ i2 <> i3)
    /\ (buddylist k' !! i1 = Some b1 /\ buddylist k' !! i2 = Some b2
        /\ buddylist k' !! i3 = Some b3)
    /\ (1 <= as_npages1 as_ <= pages b1 /\ 1 <= as_npages2 as_ <= pages b2
        /\ DUMBVM_STACKPAGES <= pages b3)
    /\ buddy_inv lo hi (buddylist k')
    /\ (forall (j : nat) (c : buddy_entry),
          buddylist k !! j = Some c -> inuse c <> 0 ->
          buddylist k' !! j = Some c /\ j <> i1 /\ j <> i2 /\ j <> i3)
    /\ (forall (j : nat) (c : buddy_entry),
          buddylist k' !! j = Some c -> inuse c <> 0 ->
          j = i1 \/ j = i2 \/ j = i3 \/ buddylist k !! j = Some c)
    /\ as' = set_as_stackpbase (paddr b3)
               (set_as_pbase2 (paddr b2) (set_as_pbase1 (paddr b1) as_)).
Proof.
  intros Hram Hreach U1 U2 Hrun.
  assert (Hhi : hi < 2 ^ 32).
  { destruct Hram as (_ & H & _). apply page_aligned_iff in H. lia. }
  destruct (as_prepare_load_success _ _ _ _ Hrun)
    as (pa1 & k1 & pa2 & k2 & pa3 & G1 & G2 & G3 & N1 & N2 & N3 & ->).
  destruct (reachable_inv lo hi k Hram Hreach) as [I0 V0].
  destruct (getppages_allocated lo hi _ k pa1 k1 Hhi ltac:(lia) I0 G1)
    as ([I1 Q1 (i1 & a0 & b1 & A0 & W0 & B1 & E1 & X1 & F1 & O1) K1] & V1 & _).
  destruct (getppages_allocated lo hi _ k1 pa2 k2 Hhi ltac:(lia) I1 G2)
    as ([I2 Q2 (i2 & c0 & b2 & C0 & Y0 & B2 & E2 & X2 & F2 & O2) K2] & V2 & _).
  destruct (getppages_allocated lo hi _ k2 pa3 k' Hhi ltac:(lia) I2 G3)
    as ([I3 Q3 (i3 & d0 & b3 & D0 & Z0 & B3 & E3 & X3 & F3 & O3) K3] & _ & _).
  pose proof (s32_pos_u32 _ U1 Q1) as S1. pose proof (s32_pos_u32 _ U2 Q2) as S2.
  rewrite S1 in F1, Q1. rewrite S2 in F2, Q2.
  change (s32 DUMBVM_STACKPAGES) with DUMBVM_STACKPAGES in F3.
  assert (B1' : buddylist k2 !! i1 = Some b1) by (apply K2; [exact B1|lia]).
  assert (i1 <> i2) by (intros ->; rewrite B1 in C0; injection C0 as <-; lia).
  assert (i1 <> i3) by (intros ->; rewrite B1' in D0; injection D0 as <-; lia).
  assert (i2 <> i3) by (intros ->; rewrite B2 in D0; injection D0 as <-; lia).
  assert (B1'' : buddylist k' !! i1 = Some b1) by (apply K3; [exact B1'|lia]).
  assert (B2' : buddylist k' !! i2 = Some b2) by (apply K3; [exact B2|lia]).
  exists i1, i2, i3, b1, b2, b3.
  split; [repeat split; assumption|]. split; [repeat split; assumption|].
  split; [repeat split; lia|]. split; [exact I3|]. split; [|split].
  - intros j c Hj Huse.
    pose proof (K1 j c Hj Huse) as J1. pose proof (K2 j c J1 Huse) as J2.
    split; [exact (K3 j c J2 Huse)|].
    split; [intros ->; congruence|].
    split; intros ->; congruence.
  - intros j c Hj Huse.
    destruct (O3 j c Hj Huse) as [->|J2]; [tauto|].
    destruct (O2 j c J2 Huse) as [->|J1]; [tauto|].
    destruct (O1 j c J1 Huse) as [->|J0]; tauto.
  - subst pa1 pa2 pa3. reflexivity.
Qed.

Lemma freeppage_loop_other (addr : Z) (bl : list buddy_entry) :
  forall (j : nat) (c : buddy_entry),
  bl !! j = Some c -> paddr c <> addr -> freeppage_loop addr bl !! j = Some c.
Proof.
  induction bl as [|b bl IH]; intros j c Hj Hne; [discriminate|].
  cbn [freeppage_loop]. destruct j as [|j].
  - injection Hj as ->. destruct (Z.eqb_spec (paddr c) addr); [contradiction|].
    reflexivity.
  - change (bl !! j = Some c) in Hj.
    destruct (paddr b =? addr); [exact Hj|].
    change (freeppage_loop addr bl !! j = Some c). apply IH; assumption.
Qed.

(** X8.  In a state that is reachable after bootstrap, [as_destroy] after a
    successful [as_prepare_load] gives back exactly what was taken: a slot
    of the buddy list holds a block in use afterwards if and only if it
    held the same block in use before. *)
Theorem as_prepare_load_destroy_restores (lo hi : Z) (as_ : addrspace)
    (k : kernel) (as' : addrspace) (k' : kernel) :
  ram_ok lo hi ->
  reachable lo hi k ->
  is_u32 (as_npages1 as_) -> is_u32 (as_npages2 as_) ->
  as_prepare_load as_ k = Ok (ESUCCESS, as', k') ->
  forall (j : nat) (c : buddy_entry),
    inuse c <> 0 ->
    (buddylist (as_destroy as' k') !! j = Some c <-> buddylist k !! j = Some c).
Proof.
  intros Hram Hreach U1 U2 Hrun j c Huse.
  destruct (as_prepare_load_blocks lo hi as_ k as' k' Hram Hreach U1 U2 Hrun)
    as (i1 & i2 & i3 & b1 & b2 & b3 & _ & (B1 & B2 & B3) & _ & I3
        & Hkeep & Hold & ->).
  destruct (as_destroy_frees lo hi
              (set_as_stackpbase (paddr b3)
                 (set_as_pbase2 (paddr b2) (set_as_pbase1 (paddr b1) as_)))
              k' I3) as (_ & _ & Hslots).
  cbn [as_pbase1 as_pbase2 as_stackpbase set_as_pbase1 set_as_pbase2
       set_as_stackpbase] in Hslots.
  split.
  - intros Hj. destruct (Hslots j c Hj) as ((b & Hb & _ & _ & Hcb) & Hfreed).
    destruct Hcb as [->|Hz]; [|contradiction].
    destruct (Hold j b Hb Huse) as [->|[->|[->|H0]]]; [| | |exact H0];
      exfalso; apply Huse, Hfreed; [left|right; left|right; right]; congruence.
  - intros Hj. destruct (Hkeep j c Hj Huse) as (Hj' & N1 & N2 & N3).
    unfold as_destroy, freeppage.
    cbn [buddylist set_buddylist set_kheap as_pbase1 as_pbase2 as_stackpbase
         set_as_pbase1 set_as_pbase2 set_as_stackpbase].
    assert (Hne : forall (i : nat) (b : buddy_entry),
              buddylist k' !! i = Some b -> j <> i -> paddr c <> paddr b).
    { intros i b Hb Hji Hp.
      exact (Hji (buddy_inv_paddr_inj lo hi _ j i c b I3 Hj' Hb Hp)). }
    apply freeppage_loop_other; [|exact (Hne i3 b3 B3 N3)].
    apply freeppage_loop_other; [|exact (Hne i2 b2 B2 N2)].
    apply freeppage_loop_other; [exact Hj'|exact (Hne i1 b1 B1 N1)].
Qed.

Lemma as_prepare_load_destroy_restores_witness :
  as_prepare_load S3_as0 S1_booted = Ok (ESUCCESS, S3_as, S3_kernel)
  /\ buddylist S3_kernel !! 7%nat = Some (mk_buddy 0x00210000 16 1)
  /\ forall (j : nat) (c : buddy_entry),
       inuse c <> 0 ->
       (buddylist (as_destroy S3_as S3_kernel) !! j = Some c
        <-> buddylist S1_booted !! j = Some c).
Proof.
  assert (Hrun : as_prepare_load S3_as0 S1_booted = Ok (ESUCCESS, S3_as, S3_kernel))
    by reflexivity.
  split; [exact Hrun|]. split; [reflexivity|].
  assert (U1 : is_u32 (as_npages1 S3_as0)) by (split; [discriminate|reflexivity]).
  assert (U2 : is_u32 (as_npages2 S3_as0)) by (split; [discriminate|reflexivity]).
  exact (as_prepare_load_destroy_restores 0x00200000 0x00a00000 S3_as0 S1_booted
           S3_as S3_kernel S1_ram_ok S1_booted_reachable U1 U2 Hrun).
Defined.

(** ** Copying an address space *)

Lemma getppages_physmem (npages : Z) (k : kernel) (addr : Z) (k' : kernel) :
  getppages npages k = Ok (addr, k') -> physmem k' = physmem k.
Proof.
  unfold getppages, splhigh, splx. cbn [vm_initialized set_curspl].
  destruct (vm_initialized k =? 0); cbn [bind].
  - unfold ram_stealmem. destruct (_ >? _); cbn [bind]; intros [= <- <-];
      reflexivity.
  - destruct (calculate_buddy _ _) as [[a k1]|] eqn:Hcalc; [|discriminate].
    cbn [bind]. intros [= <- <-].
    destruct (calculate_buddy_frame _ _ _ _ Hcalc) as (h & bl & ->).
    reflexivity.
Qed.

Lemma as_prepare_load_physmem (as_ : addrspace) (k : kernel) (e : errno)
    (as' : addrspace) (k' : kernel) :
  as_prepare_load as_ k = Ok (e, as', k') -> physmem k' = physmem k.
Proof.
  unfold as_prepare_load.
  destruct (as_pbase1 as_ =? 0); cbn [assert bind]; [|discriminate].
  destruct (as_pbase2 as_ =? 0); cbn [assert bind]; [|discriminate].
  destruct (as_stackpbase as_ =? 0); cbn [assert bind]; [|discriminate].
  destruct (getppages (as_npages1 as_) k) as [[pa1 k1]|] eqn:G1; [|discriminate].
  pose proof (getppages_physmem _ _ _ _ G1) as M1.
  cbn [bind as_pbase1 set_as_pbase1 as_npages2].
  destruct (pa1 =? 0); [intros [= <- <- <-]; exact M1|].
  destruct (getppages (as_npages2 as_) k1) as [[pa2 k2]|] eqn:G2; [|discriminate].
  pose proof (getppages_physmem _ _ _ _ G2) as M2.
  cbn [bind as_pbase2 set_as_pbase2].
  destruct (pa2 =? 0); [intros [= <- <- <-]; congruence|].
  destruct (getppages DUMBVM_STACKPAGES k2) as [[pa3 k3]|] eqn:G3; [|discriminate].
  pose proof (getppages_physmem _ _ _ _ G3) as M3.
  cbn [bind as_stackpbase set_as_stackpbase].
  destruct (pa3 =? 0); intros [= <- <- <-]; congruence.
Qed.

Lemma memmove_copy (pd ps len a : Z) (k : kernel) :
  0 <= pd < 2 ^ 32 -> 0 <= ps < 2 ^ 32 -> pd <= a < pd + len ->
  physmem (memmove (PADDR_TO_KVADDR pd) (PADDR_TO_KVADDR ps) len k) a
  = physmem k (ps + (a - pd)).
Proof.
  intros Hd Hs Ha. unfold memmove. cbn [physmem set_physmem].
  rewrite !kvaddr_paddr by assumption.
  destruct (Z.leb_spec pd a); [|lia]. destruct (Z.ltb_spec a (pd + len)); [|lia].
  reflexivity.
Qed.

Lemma memmove_other (pd src len a : Z) (k : kernel) :
  0 <= pd < 2 ^ 32 -> a < pd \/ pd + len <= a ->
  physmem (memmove (PADDR_TO_KVADDR pd) src len k) a = physmem k a.
Proof.
  intros Hd Ha. unfold memmove. cbn [physmem set_physmem].
  rewrite kvaddr_paddr by assumption.
  destruct (Z.leb_spec pd a); destruct (Z.ltb_spec a (pd + len));
    cbn [andb]; (reflexivity || lia).
Qed.

(** Ranges inside the blocks of two slots do not meet. *)
Lemma buddy_inv_subranges_disjoint (lo hi : Z) (bl : list buddy_entry)
    (i j : nat) (b c : buddy_entry) (x n y m : Z) :
  buddy_inv lo hi bl ->
  bl !! i = Some b -> bl !! j = Some c -> i <> j ->
  0 < n -> paddr b <= x -> x + n <= paddr b + pages b * PAGE_SIZE ->
  0 < m -> paddr c <= y -> y + m <= paddr c + pages c * PAGE_SIZE ->
  x + n <= y \/ y + m <= x.
Proof.
  intros Hinv Hb Hc Hne Hn Hx1 Hx2 Hm Hy1 Hy2.
  destruct (Z_le_gt_dec (x + n) y) as [H1|H1]; [left; exact H1|].
  destruct (Z_le_gt_dec (y + m) x) as [H2|H2]; [right; exact H2|].
  exfalso.
  apply (buddy_inv_no_overlap lo hi (Z.max x y) bl i j b c Hinv Hb Hc Hne);
    apply covers_iff; lia.
Qed.

(** X9.  In a state that is reachable after bootstrap, when the three physical
    ranges of [old] lie in blocks that are in use, a successful [as_copy]
    gives the new address space the virtual layout of [old] and fresh
    frames that hold, byte for byte, what the ranges of [old] held at the
    call; the ranges of [old] keep their content. *)
Theorem as_copy_contents (lo hi : Z) (old : addrspace)
    (ret : option addrspace) (k : kernel) (new : addrspace) (k' : kernel) :
  ram_ok lo hi ->
  reachable lo hi k ->
  is_u32 (as_npages1 old) -> is_u32 (as_npages2 old) ->
  range_in_use (buddylist k) (as_pbase1 old) (as_npages1 old * PAGE_SIZE) ->
  range_in_use (buddylist k) (as_pbase2 old) (as_npages2 old * PAGE_SIZE) ->
  range_in_use (buddylist k) (as_stackpbase old)
               (DUMBVM_STACKPAGES * PAGE_SIZE) ->
  as_copy old ret k = Ok (ESUCCESS, Some new, k') ->
  (as_vbase1 new = as_vbase1 old /\ as_npages1 new = as_npages1 old
   /\ as_vbase2 new = as_vbase2 old /\ as_npages2 new = as_npages2 old
   /\ as_stackvbase new = as_stackvbase old)
  /\ (forall off : Z,
        0 <= off < as_npages1 old * PAGE_SIZE ->
        physmem k' (as_pbase1 new + off) = physmem k (as_pbase1 old + off)
        /\ physmem k' (as_pbase1 old + off) = physmem k (as_pbase1 old + off))
  /\ (forall off : Z,
        0 <= off < as_npages2 old * PAGE_SIZE ->
        physmem k' (as_pbase2 new + off) = physmem k (as_pbase2 old + off)
        /\ physmem k' (as_pbase2 old + off) = physmem k (as_pbase2 old + off))
  /\ (forall off : Z,
        0 <= off < DUMBVM_STACKPAGES * PAGE_SIZE ->
        physmem k' (as_stackpbase new + off)
        = physmem k (as_stackpbase old + off)
        /\ physmem k' (as_stackpbase old + off)
           = physmem k (as_stackpbase old + off)).
Proof.
  intros Hram Hreach U1 U2 (j1 & c1 & J1 & W1 & L1 & R1)
    (j2 & c2 & J2 & W2 & L2 & R2) (j3 & c3 & J3 & W3 & L3 & R3) Hrun.
  assert (Hhi : 0 <= lo /\ hi < 2 ^ 32).
  { destruct Hram as (Hl & Hh & _). apply page_aligned_iff in Hl, Hh. lia. }
  unfold as_copy in Hrun.
  destruct (as_create k) as [[new0|] k0] eqn:Hc; [|discriminate].
  assert (Hk0 : buddylist k0 = buddylist k /\ vm_initialized k0 = vm_initialized k
                /\ physmem k0 = physmem k).
  { unfold as_create in Hc. destruct (kheap k); [discriminate|].
    injection Hc as _ <-. repeat split. }
  destruct Hk0 as (Hbl0 & Hvi0 & Hm0).
  assert (R0 : reachable lo hi k0) by (apply (reach_other lo hi k k0 Hreach); assumption).
  destruct (as_prepare_load (as_copy_layout old new0) k0)
    as [[[e new'] k1]|] eqn:Hprep; [|discriminate].
  cbn [bind] in Hrun.
  destruct (decide (e = ESUCCESS)) as [->|Hne];
    [rewrite bool_decide_eq_true_2 in Hrun by reflexivity
    |rewrite bool_decide_eq_false_2 in Hrun by exact Hne; discriminate].
  cbn [negb] in Hrun.
  destruct (as_pbase1 new' =? 0); cbn [negb assert bind] in Hrun; [discriminate|].
  destruct (as_pbase2 new' =? 0); cbn [negb assert bind] in Hrun; [discriminate|].
  destruct (as_stackpbase new' =? 0); cbn [negb assert bind] in Hrun; [discriminate|].
  injection Hrun as <- <-.
  pose proof (as_prepare_load_physmem _ _ _ _ _ Hprep) as Hm1.
  destruct (as_prepare_load_blocks lo hi (as_copy_layout old new0) k0 new' k1
              Hram R0 U1 U2 Hprep)
    as (i1 & i2 & i3 & b1 & b2 & b3 & (D12 & D13 & D23) & (B1 & B2 & B3)
        & (F1 & F2 & F3) & I3 & Hkeep & _ & ->).
  cbn [as_npages1 as_npages2 as_copy_layout set_as_vbase1 set_as_npages1
       set_as_vbase2 set_as_npages2 set_as_stackvbase] in F1, F2.
  rewrite Hbl0 in Hkeep.
  destruct (Hkeep j1 c1 J1 W1) as (J1' & N11 & N12 & N13).
  destruct (Hkeep j2 c2 J2 W2) as (J2' & N21 & N22 & N23).
  destruct (Hkeep j3 c3 J3 W3) as (J3' & N31 & N32 & N33).
  pose proof (Forall_lookup_1 _ _ _ _ (inv_blocks _ _ _ I3) B1) as (_ & _ & P1 & Q1).
  pose proof (Forall_lookup_1 _ _ _ _ (inv_blocks _ _ _ I3) B2) as (_ & _ & P2 & Q2).
  pose proof (Forall_lookup_1 _ _ _ _ (inv_blocks _ _ _ I3) B3) as (_ & _ & P3 & Q3).
  pose proof (Forall_lookup_1 _ _ _ _ (inv_blocks _ _ _ I3) J1') as (_ & _ & O1 & T1).
  pose proof (Forall_lookup_1 _ _ _ _ (inv_blocks _ _ _ I3) J2') as (_ & _ & O2 & T2).
  pose proof (Forall_lookup_1 _ _ _ _ (inv_blocks _ _ _ I3) J3') as (_ & _ & O3 & T3).
  cbn [as_pbase1 as_pbase2 as_stackpbase as_vbase1 as_vbase2 as_npages1
       as_npages2 as_stackvbase as_copy_layout set_as_vbase1 set_as_npages1
       set_as_vbase2 set_as_npages2 set_as_stackvbase set_as_pbase1
       set_as_pbase2 set_as_stackpbase].
  rewrite <- Hm0, <- Hm1.
  set (n1 := as_npages1 old * PAGE_SIZE) in *.
  set (n2 := as_npages2 old * PAGE_SIZE) in *.
  set (n3 := DUMBVM_STACKPAGES * PAGE_SIZE) in *.
  assert (Hn : 0 < n1 <= pages b1 * PAGE_SIZE /\ 0 < n2 <= pages b2 * PAGE_SIZE
               /\ 0 < n3 <= pages b3 * PAGE_SIZE).
  { subst n1 n2 n3. clear - F1 F2 F3. unfold DUMBVM_STACKPAGES, PAGE_SIZE in *.
    lia. }
  destruct Hn as (Hn1 & Hn2 & Hn3).
  (* the new ranges do not meet each other, nor the ranges of [old] *)
  assert (Hdis :
    ((paddr b1 + n1 <= paddr b2 \/ paddr b2 + n2 <= paddr b1)
     /\ (paddr b1 + n1 <= paddr b3 \/ paddr b3 + n3 <= paddr b1)
     /\ (paddr b2 + n2 <= paddr b3 \/ paddr b3 + n3 <= paddr b2))
    /\ ((as_pbase1 old + n1 <= paddr b1 \/ paddr b1 + n1 <= as_pbase1 old)
        /\ (as_pbase1 old + n1 <= paddr b2 \/ paddr b2 + n2 <= as_pbase1 old)
        /\ (as_pbase1 old + n1 <= paddr b3 \/ paddr b3 + n3 <= as_pbase1 old))
    /\ ((as_pbase2 old + n2 <= paddr b1 \/ paddr b1 + n1 <= as_pbase2 old)
        /\ (as_pbase2 old + n2 <= paddr b2 \/ paddr b2 + n2 <= as_pbase2 old)
        /\ (as_pbase2 old + n2 <= paddr b3 \/ paddr b3 + n3 <= as_pbase2 old))
    /\ ((as_stackpbase old + n3 <= paddr b1 \/ paddr b1 + n1 <= as_stackpbase old)
        /\ (as_stackpbase old + n3 <= paddr b2
            \/ paddr b2 + n2 <= as_stackpbase old)
        /\ (as_stackpbase old + n3 <= paddr b3
            \/ paddr b3 + n3 <= as_stackpbase old))).
  { repeat split;
      first
        [ apply (buddy_inv_subranges_disjoint lo hi (buddylist k1) i1 i2 b1 b2
                   (paddr b1) n1 (paddr b2) n2)
        | apply (buddy_inv_subranges_disjoint lo hi (buddylist k1) i1 i3 b1 b3
                   (paddr b1) n1 (paddr b3) n3)
        | apply (buddy_inv_subranges_disjoint lo hi (buddylist k1) i2 i3 b2 b3
                   (paddr b2) n2 (paddr b3) n3)
        | apply (buddy_inv_subranges_disjoint lo hi (buddylist k1) j1 i1 c1 b1
                   (as_pbase1 old) n1 (paddr b1) n1)
        | apply (buddy_inv_subranges_disjoint lo hi (buddylist k1) j1 i2 c1 b2
                   (as_pbase1 old) n1 (paddr b2) n2)
        | apply (buddy_inv_subranges_disjoint lo hi (buddylist k1) j1 i3 c1 b3
                   (as_pbase1 old) n1 (paddr b3) n3)
        | apply (buddy_inv_subranges_disjoint lo hi (buddylist k1) j2 i1 c2 b1
                   (as_pbase2 old) n2 (paddr b1) n1)
        | apply (buddy_inv_subranges_disjoint lo hi (buddylist k1) j2 i2 c2 b2
                   (as_pbase2 old) n2 (paddr b2) n2)
        | apply (buddy_inv_subranges_disjoint lo hi (buddylist k1) j2 i3 c2 b3
                   (as_pbase2 old) n2 (paddr b3) n3)
        | apply (buddy_inv_subranges_disjoint lo hi (buddylist k1) j3 i1 c3 b1
                   (as_stackpbase old) n3 (paddr b1) n1)
        | apply (buddy_inv_subranges_disjoint lo hi (buddylist k1) j3 i2 c3 b2
                   (as_stackpbase old) n3 (paddr b2) n2)
        | apply (buddy_inv_subranges_disjoint lo hi (buddylist k1) j3 i3 c3 b3
                   (as_stackpbase old) n3 (paddr b3) n3) ];
      first [assumption
            | clear - Hn1 Hn2 Hn3 L1 R1 L2 R2 L3 R3; lia]. }
  assert (Hb : (0 <= paddr b1 /\ paddr b1 + n1 < 2 ^ 32)
               /\ (0 <= paddr b2 /\ paddr b2 + n2 < 2 ^ 32)
               /\ (0 <= paddr b3 /\ paddr b3 + n3 < 2 ^ 32)
               /\ (0 <= as_pbase1 old /\ as_pbase1 old + n1 < 2 ^ 32)
               /\ (0 <= as_pbase2 old /\ as_pbase2 old + n2 < 2 ^ 32)
               /\ (0 <= as_stackpbase old /\ as_stackpbase old + n3 < 2 ^ 32)).
  { clear - Hhi Hn1 Hn2 Hn3 P1 Q1 P2 Q2 P3 Q3 O1 T1 O2 T2 O3 T3 L1 R1 L2 R2 L3 R3.
    change (2 ^ 32) with 4294967296 in *. lia. }
  rewrite (u32_small n1) by (clear - Hb Hn1; lia).
  rewrite (u32_small n2) by (clear - Hb Hn2; lia).
  clear - Hdis Hb Hn1 Hn2 Hn3.
  change (2 ^ 32) with 4294967296 in *.
  destruct Hn1 as [Hn1 _]. destruct Hn2 as [Hn2 _]. destruct Hn3 as [Hn3 _].
  destruct Hb as (Hb1 & Hb2 & Hb3 & Ho1 & Ho2 & Ho3).
  destruct Hdis as ((X12 & X13 & X23) & (Y11 & Y12 & Y13) & (Y21 & Y22 & Y23)
                    & (Y31 & Y32 & Y33)).
  split; [repeat split|].
  split; [|split]; intros off Hoff; split.
  - rewrite (memmove_other (paddr b3)) by
      (clear - X13 Hb3 Hn1 Hn3 Hoff; change (2 ^ 32) with 4294967296; lia).
    rewrite (memmove_other (paddr b2)) by
      (clear - X12 Hb2 Hn1 Hn2 Hoff; change (2 ^ 32) with 4294967296; lia).
    rewrite (memmove_copy (paddr b1) (as_pbase1 old)) by
      (clear - Hb1 Ho1 Hn1 Hoff; change (2 ^ 32) with 4294967296; lia). f_equal. lia.
  - rewrite (memmove_other (paddr b3)) by
      (clear - Y13 Hb3 Hn1 Hn3 Hoff; change (2 ^ 32) with 4294967296; lia).
    rewrite (memmove_other (paddr b2)) by
      (clear - Y12 Hb2 Hn1 Hn2 Hoff; change (2 ^ 32) with 4294967296; lia).
    rewrite (memmove_other (paddr b1)) by
      (clear - Y11 Hb1 Hn1 Hn1 Hoff; change (2 ^ 32) with 4294967296; lia). reflexivity.
  - rewrite (memmove_other (paddr b3)) by
      (clear - X23 Hb3 Hn2 Hn3 Hoff; change (2 ^ 32) with 4294967296; lia).
    rewrite (memmove_copy (paddr b2) (as_pbase2 old)) by
      (clear - Hb2 Ho2 Hn2 Hoff; change (2 ^ 32) with 4294967296; lia).
    rewrite (memmove_other (paddr b1)) by
      (clear - Y21 Hb1 Hn2 Hn1 Hoff; change (2 ^ 32) with 4294967296; lia). f_equal. lia.
  - rewrite (memmove_other (paddr b3)) by
      (clear - Y23 Hb3 Hn2 Hn3 Hoff; change (2 ^ 32) with 4294967296; lia).
    rewrite (memmove_other (paddr b2)) by
      (clear - Y22 Hb2 Hn2 Hn2 Hoff; change (2 ^ 32) with 4294967296; lia).
    rewrite (memmove_other (paddr b1)) by
      (clear - Y21 Hb1 Hn2 Hn1 Hoff; change (2 ^ 32) with 4294967296; lia). reflexivity.
  - rewrite (memmove_copy (paddr b3) (as_stackpbase old)) by
      (clear - Hb3 Ho3 Hn3 Hoff; change (2 ^ 32) with 4294967296; lia).
    rewrite (memmove_other (paddr b2)) by
      (clear - Y32 Hb2 Hn3 Hn2 Hoff; change (2 ^ 32) with 4294967296; lia).
    rewrite (memmove_other (paddr b1)) by
      (clear - Y31 Hb1 Hn3 Hn1 Hoff; change (2 ^ 32) with 4294967296; lia). f_equal. lia.
  - rewrite (memmove_other (paddr b3)) by
      (clear - Y33 Hb3 Hn3 Hn3 Hoff; change (2 ^ 32) with 4294967296; lia).
    rewrite (memmove_other (paddr b2)) by
      (clear - Y32 Hb2 Hn3 Hn2 Hoff; change (2 ^ 32) with 4294967296; lia).
    rewrite (memmove_other (paddr b1)) by
      (clear - Y31 Hb1 Hn3 Hn1 Hoff; change (2 ^ 32) with 4294967296; lia). reflexivity.
Qed.

Lemma S3_kernel_reachable : reachable 0x00200000 0x00a00000 S3_kernel.
Proof.
  apply (as_prepare_load_reachable _ _ S3_as0 S1_booted ESUCCESS S3_as S3_kernel
           S1_booted_reachable).
  reflexivity.
Qed.

(** The copy of [S3_as] in [S3_kernel] succeeds. *)
Lemma S3_as_copy_returns :
  exists (new : addrspace) (k' : kernel),
    as_copy S3_as None S3_kernel = Ok (ESUCCESS, Some new, k').
Proof.
  unfold as_copy.
  destruct (as_create S3_kernel) as [new0 k0] eqn:C.
  assert (C' : as_create S3_kernel
               = (Some (mk_as 0 0 0 0 0 0 0 0), set_kheap 51 S3_kernel))
    by (vm_compute; reflexivity).
  rewrite C' in C. injection C as <- <-.
  destruct (as_prepare_load (as_copy_layout S3_as (mk_as 0 0 0 0 0 0 0 0))
                            (set_kheap 51 S3_kernel))
    as [[[r n1] k1]|m] eqn:P.
  2:{ exfalso. revert P. vm_compute. discriminate. }
  assert (R : r = ESUCCESS /\ as_pbase1 n1 = 2113536
              /\ as_pbase2 n1 = 2109440 /\ as_stackpbase n1 = 2228224).
  { revert P. vm_compute. intros [= <- <- <-]. repeat split. }
  destruct R as (-> & R1 & R2 & R3).
  cbn [bind]. rewrite R1, R2, R3. cbn.
  eexists; eexists; reflexivity.
Qed.

Lemma as_copy_contents_witness :
  exists (new : addrspace) (k' : kernel),
    as_copy S3_as None S3_kernel = Ok (ESUCCESS, Some new, k')
    /\ forall off : Z,
         0 <= off < as_npages1 S3_as * PAGE_SIZE ->
         physmem k' (as_pbase1 new + off)
         = physmem S3_kernel (as_pbase1 S3_as + off)
         /\ physmem k' (as_pbase1 S3_as + off)
            = physmem S3_kernel (as_pbase1 S3_as + off).
Proof.
  destruct S3_as_copy_returns as (new & k' & H).
  exists new, k'. split; [exact H|].
  assert (U1 : is_u32 (as_npages1 S3_as)) by (split; [discriminate|reflexivity]).
  assert (U2 : is_u32 (as_npages2 S3_as)) by (split; [discriminate|reflexivity]).
  refine (proj1 (proj2 (as_copy_contents 0x00200000 0x00a00000 S3_as None
                          S3_kernel new k' S1_ram_ok S3_kernel_reachable U1 U2
                          _ _ _ H))).
  - exists 0%nat, (mk_buddy 0x00200000 2 1).
    split; [reflexivity|]. split; [discriminate|]. split; discriminate.
  - exists 10%nat, (mk_buddy 0x00202000 1 1).
    split; [reflexivity|]. split; [discriminate|]. split; discriminate.
  - exists 7%nat, (mk_buddy 0x00210000 16 1).
    split; [reflexivity|]. split; [discriminate|]. split; discriminate.
Defined.

(** ** Defining regions *)

(** X10.  When the end of the region, rounded up to a page, fits in 32 bits, the
    first region that [as_define_region] records in an address space
    without regions starts at the page of [vaddr], consists of whole pages,
    holds [vaddr, vaddr + sz) and ends less than a page after it; nothing
    else in the address space changes. *)
Theorem as_define_region_covers (as_ : addrspace) (vaddr sz : Z)
    (readable writeable executable : Z) :
  is_u32 vaddr -> is_u32 sz ->
  vaddr + sz + PAGE_SIZE <= 2 ^ 32 ->
  as_vbase1 as_ = 0 ->
  exists (vbase npages : Z),
    as_define_region as_ vaddr sz readable writeable executable
    = (ESUCCESS, set_as_npages1 npages (set_as_vbase1 vbase as_))
    /\ page_aligned vbase = true
    /\ vbase <= vaddr < vbase + PAGE_SIZE
    /\ 0 <= npages
    /\ vaddr + sz <= vbase + npages * PAGE_SIZE < vaddr + sz + PAGE_SIZE.
Proof.
  intros Uv Us Hfit Hz. unfold is_u32 in *.
  exists (Z.land vaddr PAGE_FRAME),
    (Z.land (u32 (u32 (sz + Z.land vaddr (u32 (Z.lnot PAGE_FRAME))) + PAGE_SIZE - 1))
            PAGE_FRAME / PAGE_SIZE).
  split; [unfold as_define_region; rewrite Hz; reflexivity|].
  split; [apply page_aligned_land|].
  assert (Hlow : Z.land vaddr (u32 (Z.lnot PAGE_FRAME)) = vaddr mod PAGE_SIZE).
  { change (u32 (Z.lnot PAGE_FRAME)) with (Z.ones 12).
    rewrite Z.land_ones by lia. reflexivity. }
  rewrite Hlow, !land_PAGE_FRAME.
  unfold u32, PAGE_SIZE in *. change (2 ^ 32) with 4294967296 in *.
  rewrite (Z.mod_small vaddr) by lia.
  rewrite (Z.mod_small (sz + vaddr mod 4096)) by (Z.div_mod_to_equations; lia).
  rewrite (Z.mod_small (sz + vaddr mod 4096 + 4096 - 1))
    by (Z.div_mod_to_equations; lia).
  rewrite (Z.mod_small (sz + vaddr mod 4096 + 4096 - 1))
    by (Z.div_mod_to_equations; lia).
  rewrite (Z.mul_comm 4096 ((sz + vaddr mod 4096 + 4096 - 1) / 4096)),
    Z.div_mul by lia.
  Z.div_mod_to_equations. lia.
Qed.

Lemma as_define_region_covers_witness :
  exists (vbase npages : Z),
    as_define_region (mk_as 0 0 0 0 0 0 0 0) 0x00400abc 0x2000 1 1 1
    = (ESUCCESS, set_as_npages1 npages (set_as_vbase1 vbase (mk_as 0 0 0 0 0 0 0 0)))
    /\ page_aligned vbase = true
    /\ vbase <= 0x00400abc < vbase + PAGE_SIZE
    /\ 0 <= npages
    /\ 0x00400abc + 0x2000 <= vbase + npages * PAGE_SIZE
       < 0x00400abc + 0x2000 + PAGE_SIZE.
Proof.
  apply (as_define_region_covers (mk_as 0 0 0 0 0 0 0 0) 0x00400abc 0x2000 1 1 1);
    [split; [discriminate|reflexivity] | split; [discriminate|reflexivity]
    | discriminate | reflexivity].
Defined.

Lemma land_PAGE_FRAME_nonzero (v : Z) :
  PAGE_SIZE <= v < 2 ^ 32 -> Z.land v PAGE_FRAME <> 0.
Proof.
  intros Hv. rewrite land_PAGE_FRAME. unfold PAGE_SIZE in *.
  change (2 ^ 32) with 4294967296 in *. rewrite Z.mod_small by lia.
  Z.div_mod_to_equations. lia.
Qed.

Lemma as_define_region_slot1 (as_ : addrspace) (v s r w x : Z) :
  as_vbase1 as_ = 0 ->
  exists np : Z,
    as_define_region as_ v s r w x
    = (ESUCCESS, set_as_npages1 np (set_as_vbase1 (Z.land v PAGE_FRAME) as_)).
Proof.
  intros Hz. unfold as_define_region. rewrite Hz, Z.eqb_refl.
  eexists. reflexivity.
Qed.

Lemma as_define_region_slot2 (as_ : addrspace) (v s r w x : Z) :
  as_vbase1 as_ <> 0 -> as_vbase2 as_ = 0 ->
  exists np : Z,
    as_define_region as_ v s r w x
    = (ESUCCESS, set_as_npages2 np (set_as_vbase2 (Z.land v PAGE_FRAME) as_)).
Proof.
  intros Hnz Hz. unfold as_define_region.
  rewrite (proj2 (Z.eqb_neq _ _) Hnz), Hz, Z.eqb_refl.
  eexists. reflexivity.
Qed.

Lemma as_define_region_full (as_ : addrspace) (v s r w x : Z) :
  as_vbase1 as_ <> 0 -> as_vbase2 as_ <> 0 ->
  as_define_region as_ v s r w x = (EUNIMP, as_).
Proof.
  intros Hnz1 Hnz2. unfold as_define_region.
  rewrite (proj2 (Z.eqb_neq _ _) Hnz1), (proj2 (Z.eqb_neq _ _) Hnz2).
  reflexivity.
Qed.

(** X11.  Two regions that start at or above the second page are recorded as
    region 1 and region 2, in this order, and every further
    [as_define_region] is refused with EUNIMP and leaves the address space
    as it is. *)
Theorem as_define_region_third (as_ : addrspace) (v1 s1 v2 s2 v3 s3 : Z)
    (r1 w1 x1 r2 w2 x2 r3 w3 x3 : Z) :
  as_vbase1 as_ = 0 -> as_vbase2 as_ = 0 ->
  PAGE_SIZE <= v1 < 2 ^ 32 -> PAGE_SIZE <= v2 < 2 ^ 32 ->
  let d1 := as_define_region as_ v1 s1 r1 w1 x1 in
  let d2 := as_define_region d1.2 v2 s2 r2 w2 x2 in
  d1.1 = ESUCCESS /\ d2.1 = ESUCCESS
  /\ as_vbase1 d2.2 = Z.land v1 PAGE_FRAME
  /\ as_npages1 d2.2 = as_npages1 d1.2
  /\ as_vbase2 d2.2 = Z.land v2 PAGE_FRAME
  /\ as_define_region d2.2 v3 s3 r3 w3 x3 = (EUNIMP, d2.2).
Proof.
  intros Hz1 Hz2 Hv1 Hv2 d1 d2.
  pose proof (land_PAGE_FRAME_nonzero v1 Hv1) as N1.
  pose proof (land_PAGE_FRAME_nonzero v2 Hv2) as N2.
  destruct (as_define_region_slot1 as_ v1 s1 r1 w1 x1 Hz1) as [np1 E1].
  fold d1 in E1.
  assert (A1 : as_vbase1 d1.2 <> 0) by (rewrite E1; exact N1).
  assert (A2 : as_vbase2 d1.2 = 0) by (rewrite E1; exact Hz2).
  destruct (as_define_region_slot2 d1.2 v2 s2 r2 w2 x2 A1 A2) as [np2 E2].
  fold d2 in E2.
  assert (B1 : as_vbase1 d2.2 = as_vbase1 d1.2) by (rewrite E2; reflexivity).
  assert (B2 : as_vbase2 d2.2 = Z.land v2 PAGE_FRAME)
    by (rewrite E2; reflexivity).
  split; [rewrite E1; reflexivity|].
  split; [rewrite E2; reflexivity|].
  split; [rewrite B1, E1; reflexivity|].
  split; [rewrite E2; reflexivity|].
  split; [exact B2|].
  apply as_define_region_full; [rewrite B1; exact A1 | rewrite B2; exact N2].
Qed.

Lemma as_define_region_third_witness :
  as_define_region
    (as_define_region
       (as_define_region (mk_as 0 0 0 0 0 0 0 0) 0x00400000 0x2000 1 0 1).2
       0x00410000 0x1000 1 1 0).2
    0x00420000 0x1000 1 1 0
  = (EUNIMP, S3_as0).
Proof.
  assert (V1 : PAGE_SIZE <= 0x00400000 < 2 ^ 32)
    by (split; [discriminate|reflexivity]).
  assert (V2 : PAGE_SIZE <= 0x00410000 < 2 ^ 32)
    by (split; [discriminate|reflexivity]).
  assert (H := as_define_region_third (mk_as 0 0 0 0 0 0 0 0)
                 0x00400000 0x2000 0x00410000 0x1000 0x00420000 0x1000
                 1 0 1 1 1 0 1 1 0 eq_refl eq_refl V1 V2).
  cbv zeta in H. destruct H as (_ & _ & _ & _ & _ & H).
  rewrite H. vm_compute. reflexivity.
Defined.

(** X12.  A first region that starts in page 0 leaves [as_vbase1] at 0, the mark
    of a free slot: the next [as_define_region] takes the slot of region 1
    again, as if the first call had not been made. *)
Theorem as_define_region_page0 (as_ : addrspace) (v1 s1 v2 s2 : Z)
    (r1 w1 x1 r2 w2 x2 : Z) :
  as_vbase1 as_ = 0 ->
  0 <= v1 < PAGE_SIZE ->
  as_define_region (as_define_region as_ v1 s1 r1 w1 x1).2 v2 s2 r2 w2 x2
  = as_define_region as_ v2 s2 r2 w2 x2.
Proof.
  intros Hz Hv.
  assert (E : Z.land v1 PAGE_FRAME = 0).
  { rewrite land_PAGE_FRAME. unfold PAGE_SIZE in *.
    change (2 ^ 32) with 4294967296. rewrite Z.mod_small by lia.
    Z.div_mod_to_equations. lia. }
  unfold as_define_region. rewrite Hz, E. cbn [snd as_vbase1 set_as_vbase1
    set_as_npages1]. rewrite Z.eqb_refl. reflexivity.
Qed.

Lemma as_define_region_page0_witness :
  as_define_region
    (as_define_region (mk_as 0 0 0 0 0 0 0 0) 0x00000100 0x1000 1 1 1).2
    0x00400000 0x2000 1 1 1
  = (ESUCCESS, mk_as 0x00400000 0 2 0 0 0 0 0).
Proof.
  assert (V : 0 <= 0x00000100 < PAGE_SIZE)
    by (split; [discriminate|reflexivity]).
  rewrite (as_define_region_page0 (mk_as 0 0 0 0 0 0 0 0)
             0x00000100 0x1000 0x00400000 0x2000 1 1 1 1 1 1 eq_refl V).
  vm_compute. reflexivity.
Defined.

(** * Further properties of the fault handler and the TLB *)

Lemma set_curspl_restore (s : Z) (k : kernel) :
  set_curspl (curspl k) (set_curspl s k) = k.
Proof. destruct k. reflexivity. Qed.

Lemma vm_fault_loop_inv (va pa : Z) (k k' : kernel) :
  forall (todo i : nat),
  vm_fault_loop todo i va pa k = Some k' ->
  exists i0 : nat,
    (i <= i0 < i + todo)%nat /\ slot_invalid k i0
    /\ (forall i', (i <= i' < i0)%nat -> ~ slot_invalid k i')
    /\ k' = TLB_Write va (Z.lor (Z.lor pa TLBLO_DIRTY) TLBLO_VALID) i0 k.
Proof.
  intros todo. induction todo as [|todo IH]; intros i; cbn [vm_fault_loop];
    [discriminate|].
  destruct (TLB_Read i k) as [ehi elo] eqn:Hread.
  destruct (Z.eqb_spec (Z.land elo TLBLO_VALID) 0) as [Hz|Hnz]; cbn [negb].
  - intros [= <-]. exists i. split; [lia|].
    split; [unfold slot_invalid; rewrite Hread; exact Hz|].
    split; [intros; lia|reflexivity].
  - intros Hrun. destruct (IH (S i) Hrun) as (i0 & Hr & Hinv & Hfirst & ->).
    exists i0. split; [lia|]. split; [exact Hinv|]. split; [|reflexivity].
    intros i' Hi'. destruct (decide (i' = i)) as [->|Hne].
    + unfold slot_invalid. rewrite Hread. exact Hnz.
    + apply Hfirst. lia.
Qed.

Lemma vm_fault_loop_full (va pa : Z) (k : kernel) :
  forall (todo i : nat),
  (forall i', (i <= i' < i + todo)%nat -> ~ slot_invalid k i') ->
  vm_fault_loop todo i va pa k = None.
Proof.
  intros todo. induction todo as [|todo IH]; intros i Hfull; cbn [vm_fault_loop];
    [reflexivity|].
  destruct (TLB_Read i k) as [ehi elo] eqn:Hread.
  destruct (Z.eqb_spec (Z.land elo TLBLO_VALID) 0) as [Hz|Hnz]; cbn [negb].
  - exfalso. apply (Hfull i); [lia|]. unfold slot_invalid. rewrite Hread. exact Hz.
  - apply IH. intros i' Hi'. apply Hfull. lia.
Qed.

(** X13.  A fault that does not return 0 leaves the kernel state as it was: no
    TLB slot is written.  The one exception is the return for a missing
    address space, which leaves the interrupt priority level at its highest
    value. *)
Theorem vm_fault_error_state (faulttype faultaddress : Z) (k : kernel)
    (e : errno) (k' : kernel) :
  vm_fault faulttype faultaddress k = Ok (e, k') ->
  e <> ESUCCESS ->
  k' = k
  \/ (e = EFAULT /\ t_vmspace k = None /\ k' = set_curspl SPL_HIGH k).
Proof.
  unfold vm_fault, splhigh, splx. cbn [fst snd].
  destruct (faulttype =? VM_FAULT_READONLY); [discriminate|].
  destruct ((faulttype =? VM_FAULT_READ) || (faulttype =? VM_FAULT_WRITE));
    cbn [negb].
  2: { intros [= <- <-] _. left. apply set_curspl_restore. }
  cbn [t_vmspace set_curspl].
  destruct (t_vmspace k) as [as_|] eqn:Has.
  2: { intros [= <- <-] _. right. repeat split. }
  destruct (vm_fault_asserts as_); cbn [assert bind]; [|discriminate].
  destruct (vm_fault_paddr as_ _) as [pa|].
  2: { intros [= <- <-] _. left. apply set_curspl_restore. }
  destruct (page_aligned pa); cbn [assert bind]; [|discriminate].
  destruct (vm_fault_loop _ _ _ _ _) as [k1|]; intros [= <- <-] Hne.
  - contradiction.
  - left. apply set_curspl_restore.
Qed.

Lemma vm_fault_error_state_witness :
  vm_fault VM_FAULT_READ 0x10000000 (S4_kernel tlb_empty (Some S4_as))
  = Ok (EFAULT, S4_kernel tlb_empty (Some S4_as)).
Proof.
  assert (H : exists k', vm_fault VM_FAULT_READ 0x10000000
                           (S4_kernel tlb_empty (Some S4_as)) = Ok (EFAULT, k'))
    by (eexists; reflexivity).
  destruct H as [k' H].
  destruct (vm_fault_error_state _ _ _ _ _ H ltac:(discriminate))
    as [->|(_ & Hnone & _)]; [exact H|discriminate Hnone].
Defined.

(** X14.  A fault that returns 0 has written exactly one TLB slot, the first one
    that was not VALID, with the page of the fault address and the address
    that the range tests give it; no VALID entry is replaced and nothing
    else in the kernel state changes. *)
Theorem vm_fault_success_state (faulttype faultaddress : Z) (k k' : kernel) :
  vm_fault faulttype faultaddress k = Ok (ESUCCESS, k') ->
  exists (as_ : addrspace) (pa : Z) (i : nat),
    (faulttype = VM_FAULT_READ \/ faulttype = VM_FAULT_WRITE)
    /\ t_vmspace k = Some as_
    /\ vm_fault_paddr as_ (Z.land faultaddress PAGE_FRAME) = Some pa
    /\ (i < NUM_TLB)%nat /\ slot_invalid k i
    /\ (forall i', (i' < i)%nat -> ~ slot_invalid k i')
    /\ k' = set_tlb (<[i := (Z.land faultaddress PAGE_FRAME,
                           Z.lor (Z.lor pa TLBLO_DIRTY) TLBLO_VALID)]> (tlb k)) k.
Proof.
  unfold vm_fault, splhigh, splx. cbn [fst snd].
  destruct (faulttype =? VM_FAULT_READONLY); [discriminate|].
  destruct (Z.eqb_spec faulttype VM_FAULT_READ) as [Hr|Hr];
    destruct (Z.eqb_spec faulttype VM_FAULT_WRITE) as [Hw|Hw]; cbn [orb negb];
    try discriminate.
  all: cbn [t_vmspace set_curspl].
  all: destruct (t_vmspace k) as [as_|] eqn:Has; [|discriminate].
  all: destruct (vm_fault_asserts as_); cbn [assert bind]; [|discriminate].
  all: destruct (vm_fault_paddr as_ _) as [pa|] eqn:Hpa; [|discriminate].
  all: destruct (page_aligned pa); cbn [assert bind]; [|discriminate].
  all: destruct (vm_fault_loop _ _ _ _ _) as [k1|] eqn:Hloop; [|discriminate].
  all: intros [= <-].
  all: destruct (vm_fault_loop_inv _ _ _ _ _ _ Hloop)
         as (i & Hi & Hinv & Hfirst & ->).
  all: exists as_, pa, i.
  all: split; [tauto|]; split; [reflexivity|]; split; [exact Hpa|].
  all: split; [lia|]; split; [exact Hinv|].
  all: split; [intros i' Hi'; apply Hfirst; lia|].
  all: destruct k; reflexivity.
Qed.

Lemma vm_fault_success_state_witness :
  exists (k' : kernel) (pa : Z) (i : nat),
    vm_fault VM_FAULT_WRITE 0x00410abc (S4_kernel tlb_empty (Some S4_as))
    = Ok (ESUCCESS, k')
    /\ vm_fault_paddr S4_as (Z.land 0x00410abc PAGE_FRAME) = Some pa
    /\ k' = set_tlb (<[i := (Z.land 0x00410abc PAGE_FRAME,
                           Z.lor (Z.lor pa TLBLO_DIRTY) TLBLO_VALID)]> tlb_empty)
                    (S4_kernel tlb_empty (Some S4_as)).
Proof.
  assert (H : exists k', vm_fault VM_FAULT_WRITE 0x00410abc
                           (S4_kernel tlb_empty (Some S4_as)) = Ok (ESUCCESS, k'))
    by (eexists; reflexivity).
  destruct H as [k' H].
  destruct (vm_fault_success_state _ _ _ _ H)
    as (as_ & pa & i & _ & Has & Hpa & _ & _ & _ & Hk).
  injection Has as <-.
  exists k', pa, i. split; [exact H|]. split; [exact Hpa|exact Hk].
Defined.

(** X15.  The address that the range tests of [vm_fault] give a page lies in the
    physical range of the region that holds the page, at the offset of the
    page in its region: a fault never maps a page to a frame outside the
    three ranges of the address space. *)
Theorem vm_fault_paddr_in_frames (as_ : addrspace) (va pa : Z) :
  as_frames_ok as_ ->
  vm_fault_paddr as_ va = Some pa ->
  (as_pbase1 as_ <= pa < as_pbase1 as_ + as_npages1 as_ * PAGE_SIZE
   /\ pa - as_pbase1 as_ = va - as_vbase1 as_)
  \/ (as_pbase2 as_ <= pa < as_pbase2 as_ + as_npages2 as_ * PAGE_SIZE
      /\ pa - as_pbase2 as_ = va - as_vbase2 as_)
  \/ (as_stackpbase as_ <= pa
      < as_stackpbase as_ + DUMBVM_STACKPAGES * PAGE_SIZE
      /\ as_stackpbase as_ + DUMBVM_STACKPAGES * PAGE_SIZE - pa
         = as_stackvbase as_ - va).
Proof.
  intros (U1 & U2 & U3 & N1 & N2 & P1 & P2 & P3 & E1 & E2 & E3) Hpa.
  unfold is_u32 in *.
  destruct (vm_fault_paddr_spec as_ va)
    as [(I & E)|[(_ & I & E)|[(_ & _ & I & E)|(_ & _ & _ & E)]]];
    rewrite E in Hpa; try discriminate; injection Hpa as <-;
    [left|right; left|right; right];
    unfold in_region1, in_region2, in_stack in I;
    unfold u32, DUMBVM_STACKPAGES, PAGE_SIZE in *;
    change (2 ^ 32) with 4294967296 in *;
    Z.div_mod_to_equations; lia.
Qed.

Lemma vm_fault_paddr_in_frames_witness :
  vm_fault_paddr S4_as 0x00401000 = Some 0x00281000
  /\ as_pbase1 S4_as <= 0x00281000
     < as_pbase1 S4_as + as_npages1 S4_as * PAGE_SIZE.
Proof.
  assert (Hok : as_frames_ok S4_as)
    by (repeat split; (discriminate || reflexivity)).
  assert (Hpa : vm_fault_paddr S4_as 0x00401000 = Some 0x00281000) by reflexivity.
  split; [exact Hpa|].
  destruct (vm_fault_paddr_in_frames S4_as _ _ Hok Hpa)
    as [[H _]|[[_ H]|[_ H]]]; [exact H|discriminate H|discriminate H].
Defined.

(** ** Flushing and filling the TLB *)

Lemma as_activate_loop_frame (todo : nat) :
  forall (i : nat) (k : kernel),
  exists t : list (Z * Z),
    as_activate_loop todo i k = set_tlb t k
    /\ length t = length (tlb k)
    /\ (forall j, (j < i)%nat -> nth j t (0, 0) = nth j (tlb k) (0, 0))
    /\ (forall j, (i <= j < i + todo)%nat ->
        Z.land (nth j t (0, 0)).2 TLBLO_VALID = 0).
Proof.
  induction todo as [|todo IH]; intros i k; cbn [as_activate_loop].
  - exists (tlb k). split; [destruct k; reflexivity|]. split; [reflexivity|].
    split; [reflexivity|intros; lia].
  - destruct (IH (S i) (TLB_Write (TLBHI_INVALID i) TLBLO_INVALID i k))
      as (t & -> & Hlen & Hlow & Hinv).
    exists t. unfold TLB_Write in *. cbn [tlb set_tlb] in *.
    rewrite length_insert in Hlen.
    split; [reflexivity|]. split; [exact Hlen|]. split.
    + intros j Hj. rewrite Hlow by lia. rewrite !nth_lookup.
      rewrite list_lookup_insert_ne by lia. reflexivity.
    + intros j Hj. destruct (decide (j = i)) as [->|Hne]; [|apply Hinv; lia].
      rewrite Hlow by lia. rewrite nth_lookup, list_lookup_insert.
      destruct (decide _); [reflexivity|].
      destruct (tlb k !! i) as [[ehi elo]|] eqn:Hi; [|reflexivity].
      exfalso. apply lookup_lt_Some in Hi. tauto.
Qed.

(** X16.  [as_activate] leaves none of the 64 TLB slots VALID, gives the caller's
    interrupt priority level back and changes nothing but the TLB. *)
Theorem as_activate_flushes (as_ : option addrspace) (k : kernel) :
  tlb_filled 0 (as_activate as_ k)
  /\ length (tlb (as_activate as_ k)) = length (tlb k)
  /\ as_activate as_ k = set_tlb (tlb (as_activate as_ k)) k.
Proof.
  unfold as_activate, splhigh, splx.
  destruct (as_activate_loop_frame NUM_TLB 0 (set_curspl SPL_HIGH k))
    as (t & -> & Hlen & _ & Hinv).
  cbn [tlb set_tlb set_curspl curspl] in *.
  split; [|split; [exact Hlen|destruct k; reflexivity]].
  intros i Hi. unfold slot_invalid, TLB_Read. cbn [tlb].
  split; [lia|]. intros _. apply Hinv. lia.
Qed.

Lemma vm_fault_success_run (faulttype faultaddress : Z) (k : kernel)
    (as_ : addrspace) (pa : Z) (i : nat) :
  faulttype = VM_FAULT_READ \/ faulttype = VM_FAULT_WRITE ->
  t_vmspace k = Some as_ ->
  vm_fault_asserts as_ = true ->
  vm_fault_paddr as_ (Z.land faultaddress PAGE_FRAME) = Some pa ->
  page_aligned pa = true ->
  (i < NUM_TLB)%nat -> slot_invalid k i ->
  (forall i', (i' < i)%nat -> ~ slot_invalid k i') ->
  vm_fault faulttype faultaddress k
  = Ok (ESUCCESS,
        set_tlb (<[i := (Z.land faultaddress PAGE_FRAME,
                         Z.lor (Z.lor pa TLBLO_DIRTY) TLBLO_VALID)]> (tlb k)) k).
Proof.
  intros Hft Has Hok Hpa Hal Hi Hinv Hfirst.
  destruct (vm_fault_loop_first (Z.land faultaddress PAGE_FRAME) pa
              (set_curspl SPL_HIGH k) i Hinv NUM_TLB 0%nat)
    as (i0 & Hi0 & Hinv0 & _ & Hloop); [lia|].
  assert (i0 = i) as ->.
  { destruct (decide (i0 = i)) as [E|Hne]; [exact E|].
    exfalso. apply (Hfirst i0); [lia|exact Hinv0]. }
  unfold vm_fault, splhigh, splx.
  assert ((faulttype =? VM_FAULT_READONLY) = false) as ->
    by (destruct Hft as [-> | ->]; reflexivity).
  assert (((faulttype =? VM_FAULT_READ) || (faulttype =? VM_FAULT_WRITE)) = true)
    as -> by (destruct Hft as [-> | ->]; reflexivity).
  cbn [negb]. cbn [t_vmspace set_curspl]. rewrite Has, Hok.
  cbn [assert bind]. rewrite Hpa, Hal. cbn [assert bind].
  rewrite Hloop. destruct k; reflexivity.
Qed.

(** X17.  With the first [m] slots of the TLB VALID and the others not, a READ or
    WRITE fault on a page of a properly set-up address space goes into slot
    [m] and leaves the first [m + 1] slots VALID: after a flush the faults
    fill the TLB in slot order. *)
Theorem vm_fault_fills_in_order (faulttype faultaddress : Z) (k : kernel)
    (as_ : addrspace) (m : nat) :
  faulttype = VM_FAULT_READ \/ faulttype = VM_FAULT_WRITE ->
  t_vmspace k = Some as_ ->
  vm_fault_asserts as_ = true ->
  page_aligned (as_stackvbase as_) = true ->
  length (tlb k) = NUM_TLB ->
  (m < NUM_TLB)%nat -> tlb_filled m k ->
  in_region1 as_ (Z.land faultaddress PAGE_FRAME)
  \/ in_region2 as_ (Z.land faultaddress PAGE_FRAME)
  \/ in_stack as_ (Z.land faultaddress PAGE_FRAME) ->
  exists (elo : Z) (k' : kernel),
    vm_fault faulttype faultaddress k = Ok (ESUCCESS, k')
    /\ k' = set_tlb (<[m := (Z.land faultaddress PAGE_FRAME, elo)]> (tlb k)) k
    /\ tlb_filled (S m) k'.
Proof.
  intros Hft Has Hok Hsv Hlen Hm Hfill Hin.
  destruct (vm_fault_asserts_aligned _ Hok) as (Hv1 & Hp1 & Hv2 & Hp2 & Hsp).
  assert (exists pa, vm_fault_paddr as_ (Z.land faultaddress PAGE_FRAME) = Some pa)
    as [pa Hpa].
  { destruct (vm_fault_paddr_spec as_ (Z.land faultaddress PAGE_FRAME))
      as [(_ & E)|[(_ & _ & E)|[(_ & _ & _ & E)|(N1 & N2 & N3 & _)]]];
      [eexists; exact E ..|tauto]. }
  pose proof (vm_fault_paddr_page_aligned as_ faultaddress pa
                Hv1 Hp1 Hv2 Hp2 Hsp Hsv Hpa) as Hal.
  destruct (tlb_entry_bits pa Hal) as (Bv & _ & _).
  exists (Z.lor (Z.lor pa TLBLO_DIRTY) TLBLO_VALID). eexists.
  split; [|split; [reflexivity|]].
  - apply (vm_fault_success_run faulttype faultaddress k as_ pa m);
      try assumption.
    + apply (Hfill m Hm). lia.
    + intros i' Hi' Hinv. apply (Hfill i') in Hinv; lia.
  - intros i Hi. unfold slot_invalid, TLB_Read. cbn [tlb set_tlb].
    rewrite nth_lookup.
    destruct (decide (m = i)) as [->|Hne].
    + rewrite list_lookup_insert_eq by lia.
      change (Z.land (Z.lor (Z.lor pa TLBLO_DIRTY) TLBLO_VALID) TLBLO_VALID = 0
              <-> (S i <= i)%nat).
      rewrite Bv. split; [discriminate|lia].
    + rewrite list_lookup_insert_ne by exact Hne.
      rewrite <- nth_lookup. specialize (Hfill i Hi).
      unfold slot_invalid, TLB_Read in Hfill. rewrite Hfill. lia.
Qed.

Lemma tlb_empty_filled (vmspace : option addrspace) :
  tlb_filled 0 (S4_kernel tlb_empty vmspace).
Proof.
  intros i Hi. unfold slot_invalid, TLB_Read, tlb_empty. cbn [tlb S4_kernel].
  rewrite nth_lookup, lookup_replicate_2 by exact Hi.
  split; [lia|reflexivity].
Qed.

Lemma vm_fault_fills_in_order_witness :
  exists (elo : Z) (k' : kernel),
    vm_fault VM_FAULT_READ 0x00400abc (S4_kernel tlb_empty (Some S4_as))
    = Ok (ESUCCESS, k')
    /\ k' = set_tlb (<[0%nat := (Z.land 0x00400abc PAGE_FRAME, elo)]> tlb_empty)
                    (S4_kernel tlb_empty (Some S4_as))
    /\ tlb_filled 1 k'.
Proof.
  apply (vm_fault_fills_in_order VM_FAULT_READ 0x00400abc
           (S4_kernel tlb_empty (Some S4_as)) S4_as 0).
  - left. reflexivity.
  - reflexivity.
  - reflexivity.
  - reflexivity.
  - reflexivity.
  - apply Nat.lt_0_succ.
  - apply tlb_empty_filled.
  - left. vm_compute. split; [discriminate|reflexivity].
Defined.

(** X18.  With all 64 slots VALID, every READ or WRITE fault on a properly set-up
    address space returns EFAULT, whatever the address, and changes
    nothing. *)
Theorem vm_fault_tlb_exhausted (faulttype faultaddress : Z) (k : kernel)
    (as_ : addrspace) :
  faulttype = VM_FAULT_READ \/ faulttype = VM_FAULT_WRITE ->
  t_vmspace k = Some as_ ->
  vm_fault_asserts as_ = true ->
  page_aligned (as_stackvbase as_) = true ->
  tlb_filled NUM_TLB k ->
  vm_fault faulttype faultaddress k = Ok (EFAULT, k).
Proof.
  intros Hft Has Hok Hsv Hfill.
  destruct (vm_fault_asserts_aligned _ Hok) as (Hv1 & Hp1 & Hv2 & Hp2 & Hsp).
  unfold vm_fault, splhigh, splx.
  assert ((faulttype =? VM_FAULT_READONLY) = false) as ->
    by (destruct Hft as [-> | ->]; reflexivity).
  assert (((faulttype =? VM_FAULT_READ) || (faulttype =? VM_FAULT_WRITE)) = true)
    as -> by (destruct Hft as [-> | ->]; reflexivity).
  cbn [negb]. cbn [t_vmspace set_curspl]. rewrite Has, Hok.
  cbn [assert bind].
  destruct (vm_fault_paddr as_ _) as [pa|] eqn:Hpa;
    [|rewrite set_curspl_restore; reflexivity].
  rewrite (vm_fault_paddr_page_aligned as_ faultaddress pa
             Hv1 Hp1 Hv2 Hp2 Hsp Hsv Hpa).
  cbn [assert bind].
  rewrite vm_fault_loop_full; [rewrite set_curspl_restore; reflexivity|].
  intros i' Hi' Hinv. apply (Hfill i') in Hinv; lia.
Qed.

Lemma vm_fault_tlb_exhausted_witness :
  vm_fault VM_FAULT_WRITE 0x005bffff (S4_kernel tlb_full (Some S4_as))
  = Ok (EFAULT, S4_kernel tlb_full (Some S4_as)).
Proof.
  apply (vm_fault_tlb_exhausted _ _ _ S4_as); try reflexivity.
  - right. reflexivity.
  - intros i Hi. unfold slot_invalid, TLB_Read, tlb_full. cbn [tlb S4_kernel].
    rewrite nth_lookup, lookup_replicate_2 by exact Hi.
    cbn. split; [discriminate|lia].
Defined.

(** * Further edge cases *)

(** X19.  In a state that is reachable after bootstrap, a request for zero pages,
    or for so many that the count is negative as an [int], never returns:
    the loop of [calculate_buddy] goes on splitting until the entries for
    the halves cannot be had, and the kernel panics. *)
Theorem getppages_nonpositive_panics (lo hi npages : Z) (k : kernel) :
  ram_ok lo hi ->
  reachable lo hi k ->
  s32 npages <= 0 ->
  exists msg : string, getppages npages k = Panic msg.
Proof.
  intros Hram Hreach Hn.
  destruct (reachable_inv lo hi k Hram Hreach) as [[_ Hblocks _] Hinit].
  unfold getppages, splhigh, splx. cbn [vm_initialized set_curspl].
  destruct (Z.eqb_spec (vm_initialized k) 0) as [E|_]; [lia|].
  unfold calculate_buddy. cbn [buddylist kheap set_curspl].
  destruct (array_getguy (buddylist k) _) as [b|msg] eqn:Hget;
    [|exists msg; reflexivity].
  destruct (array_getguy_inv _ _ _ Hget) as (i & _ & Hb).
  pose proof (Forall_lookup_1 _ _ _ _ Hblocks Hb) as (_ & Hpos & _).
  cbn [bind]. rewrite split_loop_nonpos; [eexists; reflexivity|exact Hn|].
  apply Z.quot_pos; lia.
Qed.

Lemma getppages_nonpositive_panics_witness :
  exists msg : string, getppages 0 S1_booted = Panic msg.
Proof.
  apply (getppages_nonpositive_panics 0x00200000 0x00a00000 0 S1_booted
           S1_ram_ok S1_booted_reachable).
  discriminate.
Defined.

(** X20.  In a state that is reachable after bootstrap, [as_prepare_load] does
    not return 0 for an address space one of whose two regions has no
    pages. *)
Theorem as_prepare_load_empty_region (lo hi : Z) (as_ : addrspace)
    (k : kernel) (as' : addrspace) (k' : kernel) :
  ram_ok lo hi ->
  reachable lo hi k ->
  as_npages1 as_ = 0 \/ as_npages2 as_ = 0 ->
  as_prepare_load as_ k <> Ok (ESUCCESS, as', k').
Proof.
  intros Hram Hreach Hz Hrun.
  assert (Hhi : hi < 2 ^ 32).
  { destruct Hram as (_ & H & _). apply page_aligned_iff in H. lia. }
  destruct (as_prepare_load_success _ _ _ _ Hrun)
    as (pa1 & k1 & pa2 & k2 & pa3 & G1 & G2 & _).
  destruct (reachable_inv lo hi k Hram Hreach) as [I0 V0].
  destruct (getppages_allocated lo hi _ k pa1 k1 Hhi ltac:(lia) I0 G1)
    as ([I1 Q1 _ _] & V1 & _).
  destruct (getppages_allocated lo hi _ k1 pa2 k2 Hhi ltac:(lia) I1 G2)
    as ([_ Q2 _ _] & _).
  destruct Hz as [E|E]; rewrite E in *; [exact (Zle_not_lt _ _ Q1 eq_refl)
                                        |exact (Zle_not_lt _ _ Q2 eq_refl)].
Qed.

Lemma as_prepare_load_empty_region_witness :
  as_prepare_load (mk_as 0x00400000 0 2 0 0 0 0 0) S1_booted
  <> Ok (ESUCCESS, S3_as, S3_kernel).
Proof.
  apply (as_prepare_load_empty_region 0x00200000 0x00a00000 _ _ _ _
           S1_ram_ok S1_booted_reachable).
  right. reflexivity.
Defined.

(** ** The stack range *)

Lemma as_define_stack_result (as_ : addrspace) (rand : Z) (e : errno)
    (as' : addrspace) (sp : Z) :
  as_define_stack as_ rand = Ok (e, as', sp) ->
  e = ESUCCESS /\ as' = set_as_stackvbase sp as_
  /\ 0x005c0000 <= sp < 0x80000000 /\ sp mod PAGE_SIZE = 0.
Proof.
  unfold as_define_stack.
  destruct (as_stackpbase as_ =? 0); cbn [negb assert bind]; [discriminate|].
  assert (Hr : 0 <= rand mod 0x7fa40000 < 0x7fa40000)
    by (apply Z.mod_pos_bound; reflexivity).
  set (v := Z.land (0x005c0000 + rand mod 0x7fa40000) PAGE_FRAME).
  assert (Hv : 0x005c0000 <= v <= 0x005c0000 + rand mod 0x7fa40000
               /\ v mod PAGE_SIZE = 0).
  { subst v. rewrite land_PAGE_FRAME.
    rewrite Z.mod_small by (change (2 ^ 32) with 4294967296; lia).
    unfold PAGE_SIZE. Z.div_mod_to_equations. lia. }
  rewrite (u32_small (0x005c0000 + _))
    by (change (2 ^ 32) with 4294967296; lia).
  rewrite (s32_small (0x005c0000 + _))
    by (change (2 ^ 31) with 2147483648; lia).
  rewrite (u32_small (0x005c0000 + _))
    by (change (2 ^ 32) with 4294967296; lia).
  fold v.
  rewrite (s32_small v) by (change (2 ^ 31) with 2147483648; lia).
  rewrite (u32_small v) by (change (2 ^ 32) with 4294967296; lia).
  intros [= <- <- <-]. repeat split; lia.
Qed.

(** X21.  After [as_define_stack] the stack range that [vm_fault] tests is the
    twelve pages below the new stack pointer, without wrap-around: it lies
    in [0x005b4000, 0x80000000), below the kernel, and its pages map to the
    twelve pages from [stackpbase] on. *)
Theorem as_define_stack_range_of_fault (as_ : addrspace) (rand : Z)
    (e : errno) (as' : addrspace) (sp : Z) :
  as_define_stack as_ rand = Ok (e, as', sp) ->
  0x005b4000 <= sp - DUMBVM_STACKPAGES * PAGE_SIZE
  /\ sp < 0x80000000
  /\ (forall va : Z,
        in_stack as' va <-> sp - DUMBVM_STACKPAGES * PAGE_SIZE <= va < sp)
  /\ (forall va : Z,
        in_stack as' va -> ~ in_region1 as' va -> ~ in_region2 as' va ->
        vm_fault_paddr as' va
        = Some (u32 (as_stackpbase as_
                     + (va - (sp - DUMBVM_STACKPAGES * PAGE_SIZE))))).
Proof.
  intros Hrun.
  destruct (as_define_stack_result _ _ _ _ _ Hrun) as (_ & -> & Hsp & _).
  assert (Hbase : u32 (sp - DUMBVM_STACKPAGES * PAGE_SIZE)
                  = sp - DUMBVM_STACKPAGES * PAGE_SIZE).
  { apply u32_small. unfold DUMBVM_STACKPAGES, PAGE_SIZE.
    change (2 ^ 32) with 4294967296. lia. }
  split; [unfold DUMBVM_STACKPAGES, PAGE_SIZE; lia|]. split; [lia|].
  split.
  - intros va. unfold in_stack. cbn [as_stackvbase set_as_stackvbase].
    rewrite Hbase. reflexivity.
  - intros va I3 N1 N2.
    destruct (vm_fault_paddr_spec (set_as_stackvbase sp as_) va)
      as [(I & _)|[(_ & I & _)|[(_ & _ & _ & E)|(_ & _ & N3 & _)]]];
      try contradiction.
    rewrite E. cbn [as_stackvbase as_stackpbase set_as_stackvbase].
    rewrite Hbase. f_equal. f_equal. lia.
Qed.

Lemma as_define_stack_range_of_fault_witness :
  exists (as' : addrspace) (sp : Z),
    as_define_stack S3_as 0xdeadbeef = Ok (ESUCCESS, as', sp)
    /\ forall va : Z,
         in_stack as' va <-> sp - DUMBVM_STACKPAGES * PAGE_SIZE <= va < sp.
Proof.
  assert (H : exists as' sp,
             as_define_stack S3_as 0xdeadbeef = Ok (ESUCCESS, as', sp))
    by (eexists; eexists; reflexivity).
  destruct H as (as' & sp & H). exists as', sp. split; [exact H|].
  exact (proj1 (proj2 (proj2 (as_define_stack_range_of_fault _ _ _ _ _ H)))).
Defined.
